(** * Stream Analytics Job resource and Service Fabric Managed Cluster test:
      a shallow embedding of the reconciler code and its verified properties.

    Sources embedded here:
    - internal/services/streamanalytics/stream_analytics_job_resource.go
    - internal/services/servicefabricmanaged/service_fabric_managed_cluster_resource_test.go

    Go values of type [interface{}] are embedded as the inductive [Value];
    pointers as [option]; Go maps as stdpp [gmap]; functions that return
    [error] or may panic return an [Outcome]; the calls a reconciler issues
    against the management API are recorded, in order, in a call log. *)

From Stdlib Require Import ZArith Ascii String List Bool Lia.
From stdpp Require Import base option gmap strings list fin_maps pretty.

Local Open Scope string_scope.
Local Open Scope Z_scope.

(** ** Dynamic values *)

(** A Go [interface{}] as the schema layer hands it around. [VNil] is the nil
    interface (also a nil pointer or nil slice handed to [d.Set]). *)
#[warnings="-register-all"]
Inductive Value : Type :=
| VNil
| VString (s : string)
| VInt (z : Z)
| VBool (b : bool)
| VList (l : list Value)
| VMap (m : gmap string Value).

(** Why a Go run-time panic was raised. *)
Inductive PanicReason : Type :=
| IndexOutOfRange
| TypeAssertion
| NilDereference.

(** A [*string] handed to an [interface{}] parameter: nil stays nil. *)
Definition ptrString (p : option string) : Value :=
  match p with
  | Some s => VString s
  | None => VNil
  end.

(** A [[]interface{}] handed to an [interface{}] parameter: nil stays nil. *)
Definition sliceValue (l : option (list Value)) : Value :=
  match l with
  | Some l => VList l
  | None => VNil
  end.

(** Go's conversion [int32(x)] of an [int]: two's complement wrap-around. *)
Definition int32 (z : Z) : Z := (z + 2 ^ 31) mod 2 ^ 32 - 2 ^ 31.

(** ** Identifiers *)

(** [parse.StreamingJobId]: subscription, resource group, job name. *)
Record StreamingJobId : Type := NewStreamingJobID {
  SubscriptionId : string;
  ResourceGroup : string;
  Name : string
}.

(** ** Errors *)

(** An argument of a [fmt.Errorf] call. *)
#[warnings="-register-all"]
Inductive FmtArg (E : Type) : Type :=
| AId (id : StreamingJobId)
| AStr (s : string)
| AErr (e : E).
Arguments AId {E} id.
Arguments AStr {E} s.
Arguments AErr {E} e.

(** Go [error] values. [Raw] is an error made by a collaborator (SDK client,
    identifier parser, schema writer); [Errorf] keeps the format string of the
    source and its arguments; [ImportAsExistsError] is [tf.ImportAsExistsError]. *)
#[warnings="-register-all"]
Inductive error : Type :=
| Raw (msg : string)
| Errorf (format : string) (args : list (FmtArg error))
| ImportAsExistsError (resourceName : string) (id : string).

(** What a Go function returning [(A, error)] (or just [error]) does: it
    returns normally, returns an error, or panics. *)
Inductive Outcome (A : Type) : Type :=
| Ok (a : A)
| Err (e : error)
| Panic (p : PanicReason).
Arguments Ok {A} a.
Arguments Err {A} e.
Arguments Panic {A} p.

(** ** The SDK's object model (package streamanalytics) *)

Module streamanalytics.

(** [streamanalytics.Identity]. *)
Record Identity : Type := mkIdentity {
  TenantID : option string;
  PrincipalID : option string;
  Type_ : option string
}.

(** [streamanalytics.TransformationProperties]. *)
Record TransformationProperties : Type := mkTransformationProperties {
  StreamingUnits : option Z;
  Query : option string
}.

(** [streamanalytics.Transformation]; the properties are an embedded
    pointer, so reading a promoted field through a nil one panics. *)
Record Transformation : Type := mkTransformation {
  tr_Name : option string;
  tr_TransformationProperties : option TransformationProperties
}.

(** [streamanalytics.ClusterInfo]. *)
Record ClusterInfo : Type := mkClusterInfo {
  ci_ID : option string
}.

(** [streamanalytics.StreamingJobSku]. *)
Record StreamingJobSku : Type := mkStreamingJobSku {
  sku_Name : string
}.

(** The SKU name constant [streamanalytics.Standard]. *)
Definition Standard : string := "Standard".

(** [streamanalytics.StreamingJobProperties], the fields the resource uses. *)
Record StreamingJobProperties : Type := mkStreamingJobProperties {
  Sku : option StreamingJobSku;
  JobID : option string;
  CompatibilityLevel : string;
  DataLocale : option string;
  EventsLateArrivalMaxDelayInSeconds : option Z;
  EventsOutOfOrderMaxDelayInSeconds : option Z;
  EventsOutOfOrderPolicy : string;
  OutputErrorPolicy : string;
  Cluster : option ClusterInfo;
  Transformation_ : option Transformation
}.

(** [*http.Response], the part that is inspected. *)
Record HttpResponse : Type := mkHttpResponse {
  StatusCode : Z
}.

(** [streamanalytics.StreamingJob]; [Response] is the embedded
    [autorest.Response] (a possibly nil [*http.Response]) and the properties
    are an embedded pointer. *)
Record StreamingJob : Type := mkStreamingJob {
  Response : option HttpResponse;
  job_StreamingJobProperties : option StreamingJobProperties;
  job_Identity : option Identity;
  job_Tags : gmap string (option string);
  job_Location : option string;
  job_ID : option string;
  job_Name : option string
}.

End streamanalytics.

Import streamanalytics.

(** ** Identity expansion and flattening *)

(** [expandStreamAnalyticsJobIdentity]: element 0 is indexed and asserted to be
    a map, its ["type"] entry is asserted to be a string. *)
Definition expandStreamAnalyticsJobIdentity (identity : list Value)
  : Outcome (option Identity) :=
  match identity with
  | [] => Panic IndexOutOfRange
  | VMap b :: _ =>
      match b !! "type" with
      | Some (VString s) =>
          Ok (Some {| TenantID := None; PrincipalID := None; Type_ := Some s |})
      | _ => Panic TypeAssertion
      end
  | _ :: _ => Panic TypeAssertion
  end.

(** [flattenStreamAnalyticsJobIdentity]; a nil slice is [None]. *)
Definition flattenStreamAnalyticsJobIdentity (identity : option Identity)
  : option (list Value) :=
  match identity with
  | None => None
  | Some identity =>
      let t := match Type_ identity with Some s => s | None => "" end in
      let tenantId := match TenantID identity with Some s => s | None => "" end in
      let principalId := match PrincipalID identity with Some s => s | None => "" end in
      Some [ VMap (<["type" := VString t]>
                   (<["tenant_id" := VString tenantId]>
                    (<["principal_id" := VString principalId]> ∅))) ]
  end.

(** ** Resource data (the SDK's [*pluginsdk.ResourceData]) *)

(** The identifier string, the new-resource flag and the attribute store that
    [d.Get] reads and [d.Set] writes. *)
Record ResourceData : Type := mkResourceData {
  rd_Id : string;
  rd_IsNewResource : bool;
  rd_attrs : gmap string Value
}.

(** [d.Get(k).(string)]: the schema layer returns the schema type's zero value
    for an attribute that is unset, so the assertion cannot fail. *)
Definition getString (d : ResourceData) (k : string) : string :=
  match rd_attrs d !! k with
  | Some (VString s) => s
  | _ => ""
  end.

(** [d.Get(k).(int)]. *)
Definition getInt (d : ResourceData) (k : string) : Z :=
  match rd_attrs d !! k with
  | Some (VInt z) => z
  | _ => 0
  end.

(** [d.Get(k).(map[string]interface{})]. *)
Definition getMap (d : ResourceData) (k : string) : gmap string Value :=
  match rd_attrs d !! k with
  | Some (VMap m) => m
  | _ => ∅
  end.

(** [d.Get(k)] of a list attribute. *)
Definition getList (d : ResourceData) (k : string) : list Value :=
  match rd_attrs d !! k with
  | Some (VList l) => l
  | _ => []
  end.

(** [d.GetOk(k)] of a string attribute: [ok] iff the value is not the zero
    value. *)
Definition getOkString (d : ResourceData) (k : string) : string * bool :=
  let s := getString d k in (s, negb (String.eqb s "")).

(** [d.GetOk(k)] of a list attribute: [ok] iff the list is not empty. *)
Definition getOkList (d : ResourceData) (k : string) : list Value * bool :=
  let l := getList d k in
  (l, match l with [] => false | _ :: _ => true end).

(** ** Collaborators that are not part of the resource file *)

(** Helpers of other packages the resource calls, taken as parameters:
    the identifier parser and encoder of package parse, [azure.NormalizeLocation],
    [tags.Expand] and the flattening done by [tags.FlattenAndSet], and the
    verdict of the schema writer on a [d.Set] ([None]: the write is accepted). *)
Class Collaborators : Type := {
  parse_StreamingJobID : string -> error + StreamingJobId;
  id_ID : StreamingJobId -> string;
  azure_NormalizeLocation : string -> string;
  tags_Expand : gmap string Value -> gmap string (option string);
  tags_Flatten : gmap string (option string) -> gmap string Value;
  set_err : string -> Value -> option error
}.

(** Modelled from the spec: [utils.ResponseWasNotFound] is not under src/; it
    tells whether the backing API reported the resource as not found, that is
    whether there is a response and its status is 404. *)
Definition ResponseWasNotFound (resp : option HttpResponse) : bool :=
  match resp with
  | Some r => StatusCode r =? 404
  | None => false
  end.

(** The management API as the SDK clients expose it, over a remote world [W].
    [Jobs_Get] only reads the world; the other calls may change it. Every call
    returns the SDK's pair of a value and an optional error. *)
Class ManagementApi (W Future : Type) : Type := {
  Jobs_Get : W -> string -> string -> string -> StreamingJob * option error;
  Jobs_CreateOrReplace :
    W -> StreamingJob -> string -> string -> (Future * option error) * W;
  Future_WaitForCompletionRef : W -> Future -> option error * W;
  Jobs_Update :
    W -> StreamingJob -> string -> string -> (StreamingJob * option error) * W;
  Transformations_Update :
    W -> Transformation -> string -> string -> string ->
    (Transformation * option error) * W;
  Jobs_Delete : W -> string -> string -> (Future * option error) * W
}.

(** A call issued against the management API, as logged. *)
Inductive Call : Type :=
| CJobsGet (resourceGroup name expand : string)
| CJobsCreateOrReplace (props : StreamingJob) (resourceGroup name : string)
| CWaitForCompletionRef
| CJobsUpdate (props : StreamingJob) (resourceGroup name : string)
| CTransformationsUpdate (t : Transformation)
    (resourceGroup name transformationName : string)
| CJobsDelete (resourceGroup name : string).

(** A call that can change the remote state: every call but a Get. *)
Definition is_mutating (c : Call) : bool :=
  match c with
  | CJobsGet _ _ _ => false
  | _ => true
  end.

(** ** The reconciler monad *)

(** What a reconciler entry point works on: the remote world behind the
    clients, the log of the calls issued so far (oldest first), the resource
    data [d], and the account's subscription id held by [meta]. *)
Record St (W : Type) : Type := mkSt {
  remote : W;
  calls : list Call;
  rd : ResourceData;
  account_SubscriptionId : string
}.
Arguments mkSt {W} remote calls rd account_SubscriptionId.
Arguments remote {W} s.
Arguments calls {W} s.
Arguments rd {W} s.
Arguments account_SubscriptionId {W} s.

(** State and outcome threaded through a reconciler. *)
Definition M (W A : Type) : Type := St W -> Outcome A * St W.

Definition ret {W A} (a : A) : M W A := fun s => (Ok a, s).

Definition bind {W A B} (m : M W A) (f : A -> M W B) : M W B :=
  fun s =>
    match m s with
    | (Ok a, s') => f a s'
    | (Err e, s') => (Err e, s')
    | (Panic p, s') => (Panic p, s')
    end.

(** [return err] with a non-nil error. *)
Definition fail {W A} (e : error) : M W A := fun s => (Err e, s).

(** A run-time panic. *)
Definition panic {W A} (p : PanicReason) : M W A := fun s => (Panic p, s).

(** The outcome of a pure computation that may panic. *)
Definition lift {W A} (o : Outcome A) : M W A := fun s => (o, s).

(** The monad structure, so that stdpp's [x ← m; k] notation sequences the
    statements of a reconciler. *)
#[export] Instance M_ret W : MRet (M W) := fun A a => ret a.
#[export] Instance M_bind W : MBind (M W) := fun A B f m => bind m f.

Definition getData {W} : M W ResourceData := fun s => (Ok (rd s), s).

Definition getSubscriptionId {W} : M W string :=
  fun s => (Ok (account_SubscriptionId s), s).

Definition log {W} (c : Call) (s : St W) : St W :=
  mkSt (remote s) (calls s ++ [c]) (rd s) (account_SubscriptionId s).

Definition setRemote {W} (w : W) (s : St W) : St W :=
  mkSt w (calls s) (rd s) (account_SubscriptionId s).

Definition setData {W} (d : ResourceData) (s : St W) : St W :=
  mkSt (remote s) (calls s) d (account_SubscriptionId s).

(** [d.SetId(id)]. *)
Definition SetId {W} (id : string) : M W unit :=
  fun s =>
    (Ok tt,
     setData (mkResourceData id (rd_IsNewResource (rd s)) (rd_attrs (rd s))) s).

Section Reconciler.

Context {C : Collaborators} {W Future : Type} {Api : ManagementApi W Future}.

(** [d.Set(k, v)]: the write happens unless the schema writer refuses it;
    the error, if any, is handed back to the caller. *)
Definition dSet (k : string) (v : Value) : M W (option error) :=
  fun s =>
    match set_err k v with
    | Some e => (Ok (Some e), s)
    | None =>
        (Ok None,
         setData (mkResourceData (rd_Id (rd s)) (rd_IsNewResource (rd s))
                    (<[k := v]> (rd_attrs (rd s)))) s)
    end.

(** [client.Get(ctx, resourceGroup, name, expand)]. *)
Definition jobsGet (resourceGroup name expand : string)
  : M W (StreamingJob * option error) :=
  fun s =>
    (Ok (Jobs_Get (remote s) resourceGroup name expand),
     log (CJobsGet resourceGroup name expand) s).

(** [client.CreateOrReplace(ctx, props, resourceGroup, name, "", "")]. *)
Definition jobsCreateOrReplace (props : StreamingJob)
    (resourceGroup name : string) : M W (Future * option error) :=
  fun s =>
    let '(r, w) := Jobs_CreateOrReplace (remote s) props resourceGroup name in
    (Ok r, setRemote w (log (CJobsCreateOrReplace props resourceGroup name) s)).

(** [future.WaitForCompletionRef(ctx, client.Client)]. *)
Definition waitForCompletionRef (future : Future) : M W (option error) :=
  fun s =>
    let '(r, w) := Future_WaitForCompletionRef (remote s) future in
    (Ok r, setRemote w (log CWaitForCompletionRef s)).

(** [client.Update(ctx, props, resourceGroup, name, "")]. *)
Definition jobsUpdate (props : StreamingJob) (resourceGroup name : string)
  : M W (StreamingJob * option error) :=
  fun s =>
    let '(r, w) := Jobs_Update (remote s) props resourceGroup name in
    (Ok r, setRemote w (log (CJobsUpdate props resourceGroup name) s)).

(** [transformationsClient.Update(ctx, t, resourceGroup, name, tname, "")]. *)
Definition transformationsUpdate (t : Transformation)
    (resourceGroup name transformationName : string)
  : M W (Transformation * option error) :=
  fun s =>
    let '(r, w) :=
      Transformations_Update (remote s) t resourceGroup name transformationName in
    (Ok r,
     setRemote w
       (log (CTransformationsUpdate t resourceGroup name transformationName) s)).

(** [client.Delete(ctx, resourceGroup, name)]. *)
Definition jobsDelete (resourceGroup name : string)
  : M W (Future * option error) :=
  fun s =>
    let '(r, w) := Jobs_Delete (remote s) resourceGroup name in
    (Ok r, setRemote w (log (CJobsDelete resourceGroup name) s)).

(** Modelled from the spec: [tags.FlattenAndSet] is not under src/; as part
    of Read populating the fields from the response it writes the flattened
    tags of the response under the key tags and returns the error of that
    write, wrapped. *)
Definition tags_FlattenAndSet (tagMap : gmap string (option string))
  : M W unit :=
  err ← dSet "tags" (VMap (tags_Flatten tagMap));
  match err with
  | Some err => fail (Errorf "setting `tags`: %s" [AErr err])
  | None => ret tt
  end.

(** [resourceStreamAnalyticsJobRead]. *)
Definition resourceStreamAnalyticsJobRead : M W unit :=
  d ← getData;
  match parse_StreamingJobID (rd_Id d) with
  | inl err => fail err
  | inr id =>
    '(resp, err) ← jobsGet (ResourceGroup id) (Name id) "transformation";
    match err with
    | Some err =>
        if ResponseWasNotFound (Response resp) then SetId ""
        else fail (Errorf "retrieving %s: %+v" [AId id; AErr err])
    | None =>
      _ ← dSet "name" (VString (Name id));
      _ ← dSet "resource_group_name" (VString (ResourceGroup id));
      _ ← match job_Location resp with
          | Some l => dSet "location" (VString (azure_NormalizeLocation l))
          | None => ret None
          end;
      err ← dSet "identity"
              (sliceValue (flattenStreamAnalyticsJobIdentity (job_Identity resp)));
      match err with
      | Some err => fail (Errorf "setting `identity`: %v" [AErr err])
      | None =>
        _ ← match job_StreamingJobProperties resp with
            | Some props =>
              _ ← dSet "compatibility_level" (VString (CompatibilityLevel props));
              _ ← dSet "data_locale" (ptrString (DataLocale props));
              _ ← match EventsLateArrivalMaxDelayInSeconds props with
                  | Some n => dSet "events_late_arrival_max_delay_in_seconds" (VInt n)
                  | None => ret None
                  end;
              _ ← match EventsOutOfOrderMaxDelayInSeconds props with
                  | Some n => dSet "events_out_of_order_max_delay_in_seconds" (VInt n)
                  | None => ret None
                  end;
              _ ← match Cluster props with
                  | Some cluster =>
                      dSet "stream_analytics_cluster_id" (ptrString (ci_ID cluster))
                  | None => ret None
                  end;
              _ ← dSet "events_out_of_order_policy"
                    (VString (EventsOutOfOrderPolicy props));
              _ ← dSet "output_error_policy" (VString (OutputErrorPolicy props));
              _ ← dSet "job_id" (ptrString (JobID props));
              match Transformation_ props with
              | Some transformation =>
                  match tr_TransformationProperties transformation with
                  | None => panic NilDereference
                  | Some tp =>
                    _ ← match StreamingUnits tp with
                        | Some units => dSet "streaming_units" (VInt units)
                        | None => ret None
                        end;
                    dSet "transformation_query" (ptrString (Query tp))
                  end
              | None => ret None
              end
            | None => ret None
            end;
        tags_FlattenAndSet (job_Tags resp)
      end
    end
  end.

(** [resourceStreamAnalyticsJobDelete]. *)
Definition resourceStreamAnalyticsJobDelete : M W unit :=
  d ← getData;
  match parse_StreamingJobID (rd_Id d) with
  | inl err => fail err
  | inr id =>
    '(future, err) ← jobsDelete (ResourceGroup id) (Name id);
    match err with
    | Some err => fail (Errorf "deleting %s: %+v" [AId id; AErr err])
    | None =>
      err ← waitForCompletionRef future;
      match err with
      | Some err =>
          fail (Errorf "waiting for deletion of %s: %+v" [AId id; AErr err])
      | None => ret tt
      end
    end
  end.

(** The existence probe at the head of [resourceStreamAnalyticsJobCreateUpdate]
    (the [if d.IsNewResource()] block). *)
Definition probeExisting (d : ResourceData) (id : StreamingJobId) : M W unit :=
  if rd_IsNewResource d then
    '(existing, err) ← jobsGet (ResourceGroup id) (Name id) "";
    _ ← match err with
        | Some err =>
            if negb (ResponseWasNotFound (Response existing)) then
              fail (Errorf "checking for presence of existing %s: %+v"
                      [AId id; AErr err])
            else ret tt
        | None => ret tt
        end;
    match job_ID existing with
    | Some existingID =>
        if negb (String.eqb existingID "") then
          fail (ImportAsExistsError "azurerm_stream_analytics_job" existingID)
        else ret tt
    | None => ret tt
    end
  else ret tt.

(** The transformation of [resourceStreamAnalyticsJobCreateUpdate], named
    main, built from the configuration. *)
Definition buildTransformation (d : ResourceData) : Transformation :=
  let streamingUnits := getInt d "streaming_units" in
  let transformationQuery := getString d "transformation_query" in
  {| tr_Name := Some "main";
     tr_TransformationProperties :=
       Some {| StreamingUnits := Some (int32 streamingUnits);
               Query := Some transformationQuery |} |}.

(** The job properties of [resourceStreamAnalyticsJobCreateUpdate] before
    the identity and the inline transformation are attached. *)
Definition buildProps (d : ResourceData) (id : StreamingJobId) : StreamingJob :=
  let compatibilityLevel := getString d "compatibility_level" in
  let eventsLateArrivalMaxDelayInSeconds :=
    getInt d "events_late_arrival_max_delay_in_seconds" in
  let eventsOutOfOrderMaxDelayInSeconds :=
    getInt d "events_out_of_order_max_delay_in_seconds" in
  let eventsOutOfOrderPolicy := getString d "events_out_of_order_policy" in
  let location := azure_NormalizeLocation (getString d "location") in
  let outputErrorPolicy := getString d "output_error_policy" in
  let t := getMap d "tags" in
  let streamAnalyticsCluster := getString d "stream_analytics_cluster_id" in
  let cluster :=
    if negb (String.eqb streamAnalyticsCluster "")
    then {| ci_ID := Some streamAnalyticsCluster |}
    else {| ci_ID := None |} in
  let dataLocale :=
    let '(dataLocale, ok) := getOkString d "data_locale" in
    if ok then Some dataLocale else None in
  {| Response := None;
     job_StreamingJobProperties :=
       Some {| Sku := Some {| sku_Name := Standard |};
               JobID := None;
               CompatibilityLevel := compatibilityLevel;
               DataLocale := dataLocale;
               EventsLateArrivalMaxDelayInSeconds :=
                 Some (int32 eventsLateArrivalMaxDelayInSeconds);
               EventsOutOfOrderMaxDelayInSeconds :=
                 Some (int32 eventsOutOfOrderMaxDelayInSeconds);
               EventsOutOfOrderPolicy := eventsOutOfOrderPolicy;
               OutputErrorPolicy := outputErrorPolicy;
               Cluster := Some cluster;
               Transformation_ := None |};
     job_Identity := None;
     job_Tags := tags_Expand t;
     job_Location := Some location;
     job_ID := None;
     job_Name := Some (Name id) |}.

(** [props.Identity = ...]. *)
Definition withIdentity (props : StreamingJob) (i : option Identity)
  : StreamingJob :=
  {| Response := Response props;
     job_StreamingJobProperties := job_StreamingJobProperties props;
     job_Identity := i;
     job_Tags := job_Tags props;
     job_Location := job_Location props;
     job_ID := job_ID props;
     job_Name := job_Name props |}.

(** [props.StreamingJobProperties.Transformation = &transformation]. *)
Definition withTransformation (props : StreamingJob) (t : Transformation)
  : Outcome StreamingJob :=
  match job_StreamingJobProperties props with
  | None => Panic NilDereference
  | Some p =>
      Ok {| Response := Response props;
            job_StreamingJobProperties :=
              Some {| Sku := Sku p;
                      JobID := JobID p;
                      CompatibilityLevel := CompatibilityLevel p;
                      DataLocale := DataLocale p;
                      EventsLateArrivalMaxDelayInSeconds :=
                        EventsLateArrivalMaxDelayInSeconds p;
                      EventsOutOfOrderMaxDelayInSeconds :=
                        EventsOutOfOrderMaxDelayInSeconds p;
                      EventsOutOfOrderPolicy := EventsOutOfOrderPolicy p;
                      OutputErrorPolicy := OutputErrorPolicy p;
                      Cluster := Cluster p;
                      Transformation_ := Some t |};
            job_Identity := job_Identity props;
            job_Tags := job_Tags props;
            job_Location := job_Location props;
            job_ID := job_ID props;
            job_Name := job_Name props |}
  end.

(** [resourceStreamAnalyticsJobCreateUpdate]. *)
Definition resourceStreamAnalyticsJobCreateUpdate : M W unit :=
  subscriptionId ← getSubscriptionId;
  d ← getData;
  let id := NewStreamingJobID subscriptionId
              (getString d "resource_group_name") (getString d "name") in
  _ ← probeExisting d id;
  let transformation := buildTransformation d in
  let props := buildProps d id in
  props ← (let '(identity, ok) := getOkList d "identity" in
           if ok then
             i ← lift (expandStreamAnalyticsJobIdentity identity);
             ret (withIdentity props i)
           else ret props);
  _ ← (if rd_IsNewResource d then
         props ← lift (withTransformation props transformation);
         '(future, err) ← jobsCreateOrReplace props (ResourceGroup id) (Name id);
         match err with
         | Some err => fail (Errorf "creating %s: %+v" [AId id; AErr err])
         | None =>
           err ← waitForCompletionRef future;
           match err with
           | Some err =>
               fail (Errorf "waiting for creation of %s: %+v" [AId id; AErr err])
           | None => SetId (id_ID id)
           end
         end
       else
         '(_, err) ← jobsUpdate props (ResourceGroup id) (Name id);
         match err with
         | Some err => fail (Errorf "updating %s: %+v" [AId id; AErr err])
         | None =>
           '(job, err) ← jobsGet (ResourceGroup id) (Name id) "transformation";
           match err with
           | Some err => fail err
           | None =>
             match job_StreamingJobProperties job with
             | None => panic NilDereference
             | Some jobProps =>
               match Transformation_ jobProps with
               | Some readTransformation =>
                 match tr_Name readTransformation with
                 | None => panic NilDereference
                 | Some readName =>
                   '(_, err) ← transformationsUpdate transformation
                                 (ResourceGroup id) (Name id) readName;
                   match err with
                   | Some err =>
                       fail (Errorf "updating transformation for %s: %+v"
                               [AId id; AErr err])
                   | None => ret tt
                   end
                 end
               | None => ret tt
               end
             end
           end
         end);
  resourceStreamAnalyticsJobRead.

(** A write that happens only when the value is there. *)
Definition setOpt (k : string) (o : option Value) (m : gmap string Value)
  : gmap string Value :=
  match o with
  | Some v => <[k := v]> m
  | None => m
  end.

(** The attribute store after the writes that Read makes for the
    transformation of the response, when every write is accepted. *)
Definition transformationWrites (t : option Transformation)
    (m : gmap string Value) : gmap string Value :=
  match t with
  | Some transformation =>
      match tr_TransformationProperties transformation with
      | Some tp =>
          <["transformation_query" := ptrString (Query tp)]>
            (setOpt "streaming_units" (VInt <$> StreamingUnits tp) m)
      | None => m
      end
  | None => m
  end.

(** The attribute store after the writes that Read makes for the properties
    object of the response, when every write is accepted. *)
Definition propertiesWrites (p : option StreamingJobProperties)
    (m : gmap string Value) : gmap string Value :=
  match p with
  | Some props =>
      transformationWrites (Transformation_ props)
        (<["job_id" := ptrString (JobID props)]>
        (<["output_error_policy" := VString (OutputErrorPolicy props)]>
        (<["events_out_of_order_policy" :=
             VString (EventsOutOfOrderPolicy props)]>
        (setOpt "stream_analytics_cluster_id"
           ((λ cluster, ptrString (ci_ID cluster)) <$> Cluster props)
        (setOpt "events_out_of_order_max_delay_in_seconds"
           (VInt <$> EventsOutOfOrderMaxDelayInSeconds props)
        (setOpt "events_late_arrival_max_delay_in_seconds"
           (VInt <$> EventsLateArrivalMaxDelayInSeconds props)
        (<["data_locale" := ptrString (DataLocale props)]>
        (<["compatibility_level" := VString (CompatibilityLevel props)]>
           m))))))))
  | None => m
  end.

(** The attribute store after the writes of a Read of the response that
    precede the tags, when every write is accepted. *)
Definition readWritesBeforeTags (id : StreamingJobId) (resp : StreamingJob)
    (m : gmap string Value) : gmap string Value :=
  propertiesWrites (job_StreamingJobProperties resp)
  (<["identity" :=
       sliceValue (flattenStreamAnalyticsJobIdentity (job_Identity resp))]>
  (setOpt "location"
     ((λ l, VString (azure_NormalizeLocation l)) <$> job_Location resp)
  (<["resource_group_name" := VString (ResourceGroup id)]>
  (<["name" := VString (Name id)]> m)))).

(** The attribute store after all the writes of a Read of the response, when
    every write is accepted. *)
Definition readWrites (id : StreamingJobId) (resp : StreamingJob)
    (m : gmap string Value) : gmap string Value :=
  <["tags" := VMap (tags_Flatten (job_Tags resp))]>
    (readWritesBeforeTags id resp m).

(** The response names a transformation whose embedded properties pointer is
    nil: reading a promoted field through it panics. *)
Definition nilTransformationProperties (resp : StreamingJob) : bool :=
  match job_StreamingJobProperties resp with
  | Some props =>
      match Transformation_ props with
      | Some transformation =>
          match tr_TransformationProperties transformation with
          | Some _ => false
          | None => true
          end
      | None => false
      end
  | None => false
  end.

(** The existence probe's outcome on a new resource, from the answer of the
    Get. *)
Definition probeOutcome (id : StreamingJobId)
    (answer : StreamingJob * option error) : Outcome unit :=
  let found :=
    match job_ID (fst answer) with
    | Some existingID =>
        if negb (String.eqb existingID "")
        then Err (ImportAsExistsError "azurerm_stream_analytics_job" existingID)
        else Ok tt
    | None => Ok tt
    end in
  match snd answer with
  | Some err =>
      if negb (ResponseWasNotFound (Response (fst answer)))
      then Err (Errorf "checking for presence of existing %s: %+v"
                  [AId id; AErr err])
      else found
  | None => found
  end.

(** The payload of [resourceStreamAnalyticsJobCreateUpdate] once the
    [d.GetOk("identity")] block has run: the job properties, with the
    expanded identity when an identity block is configured. *)
Definition payloadOutcome (d : ResourceData) (id : StreamingJobId)
  : Outcome StreamingJob :=
  let '(identity, ok) := getOkList d "identity" in
  if ok then
    match expandStreamAnalyticsJobIdentity identity with
    | Ok i => Ok (withIdentity (buildProps d id) i)
    | Err e => Err e
    | Panic p => Panic p
    end
  else Ok (buildProps d id).

(** The attributes that Read takes from the properties object of the
    response. *)
Definition propertyFields : list string :=
  [ "compatibility_level"; "data_locale";
    "events_late_arrival_max_delay_in_seconds";
    "events_out_of_order_max_delay_in_seconds";
    "stream_analytics_cluster_id"; "events_out_of_order_policy";
    "output_error_policy"; "job_id"; "streaming_units";
    "transformation_query" ].

(** All the attributes that Read can write. *)
Definition readFields : list string :=
  ([ "name"; "resource_group_name"; "location"; "identity"; "tags" ]
   ++ propertyFields)%list.

(** [issues P m]: whatever [m] does, it only appends calls to the log, every
    appended call satisfies [P], and if none of them is mutating the remote
    state is the one it started from. *)
Definition issues {A : Type} (P : Call → Prop) (m : M W A) : Prop :=
  ∀ s r s', m s = (r, s') →
    ∃ l, calls s' = (calls s ++ l)%list
         ∧ Forall P l
         ∧ (Forall (λ c, is_mutating c = false) l → remote s' = remote s).

(** A list of writes, applied in order. *)
Fixpoint applyWrites (ws : list (string * Value)) (m : gmap string Value)
  : gmap string Value :=
  match ws with
  | [] => m
  | (k, v) :: ws => applyWrites ws (<[k := v]> m)
  end.

(** The value that the last write to a key in a list of writes gives it. *)
Fixpoint lastWrite (k : string) (ws : list (string * Value)) : option Value :=
  match ws with
  | [] => None
  | (k', v) :: ws =>
      match lastWrite k ws with
      | Some x => Some x
      | None => if String.eqb k' k then Some v else None
      end
  end.

(** The write that happens only when the value is there, as a list. *)
Definition optWrite (k : string) (o : option Value) : list (string * Value) :=
  match o with
  | Some v => [(k, v)]
  | None => []
  end.

(** The writes that Read makes for the transformation of the response. *)
Definition transformationWriteList (t : option Transformation)
  : list (string * Value) :=
  match t with
  | Some transformation =>
      match tr_TransformationProperties transformation with
      | Some tp =>
          (optWrite "streaming_units" (VInt <$> StreamingUnits tp)
           ++ [("transformation_query", ptrString (Query tp))])%list
      | None => []
      end
  | None => []
  end.

(** The writes that Read makes for the properties object of the response. *)
Definition propertiesWriteList (p : option StreamingJobProperties)
  : list (string * Value) :=
  match p with
  | Some props =>
      ([ ("compatibility_level", VString (CompatibilityLevel props));
         ("data_locale", ptrString (DataLocale props)) ]
       ++ optWrite "events_late_arrival_max_delay_in_seconds"
            (VInt <$> EventsLateArrivalMaxDelayInSeconds props)
       ++ optWrite "events_out_of_order_max_delay_in_seconds"
            (VInt <$> EventsOutOfOrderMaxDelayInSeconds props)
       ++ optWrite "stream_analytics_cluster_id"
            ((λ cluster, ptrString (ci_ID cluster)) <$> Cluster props)
       ++ [ ("events_out_of_order_policy",
             VString (EventsOutOfOrderPolicy props));
            ("output_error_policy", VString (OutputErrorPolicy props));
            ("job_id", ptrString (JobID props)) ]
       ++ transformationWriteList (Transformation_ props))%list
  | None => []
  end.

(** The writes of a Read of the response, in the order of the source. *)
Definition readWriteList (id : StreamingJobId) (resp : StreamingJob)
  : list (string * Value) :=
  ([ ("name", VString (Name id));
     ("resource_group_name", VString (ResourceGroup id)) ]
   ++ optWrite "location"
        ((λ l, VString (azure_NormalizeLocation l)) <$> job_Location resp)
   ++ [ ("identity",
         sliceValue (flattenStreamAnalyticsJobIdentity (job_Identity resp))) ]
   ++ propertiesWriteList (job_StreamingJobProperties resp)
   ++ [ ("tags", VMap (tags_Flatten (job_Tags resp))) ])%list.

(** The response has every optional object, field and pointer that Read
    looks at: none of them is nil. *)
Definition completeResponse (resp : StreamingJob) : bool :=
  match job_Location resp, job_Identity resp,
        job_StreamingJobProperties resp with
  | Some _, Some _, Some props =>
      match JobID props, DataLocale props,
            EventsLateArrivalMaxDelayInSeconds props,
            EventsOutOfOrderMaxDelayInSeconds props,
            Cluster props, Transformation_ props with
      | Some _, Some _, Some _, Some _, Some cluster, Some transformation =>
          match ci_ID cluster, tr_TransformationProperties transformation with
          | Some _, Some tp =>
              match StreamingUnits tp, Query tp with
              | Some _, Some _ => true
              | _, _ => false
              end
          | _, _ => false
          end
      | _, _, _, _, _, _ => false
      end
  | _, _, _ => false
  end.

(** [writes_within K m]: whatever [m] does, it leaves the new-resource flag
    and the subscription alone and changes no attribute outside [K]. *)
Definition writes_within {A : Type} (K : list string) (m : M W A) : Prop :=
  ∀ s r s', m s = (r, s') →
    rd_IsNewResource (rd s') = rd_IsNewResource (rd s)
    ∧ account_SubscriptionId s' = account_SubscriptionId s
    ∧ ∀ k, k ∉ K → rd_attrs (rd s') !! k = rd_attrs (rd s) !! k.

(** [returns Q m]: from every state [m] returns normally, with a value that
    satisfies [Q]. *)
Definition returns {A : Type} (Q : A → Prop) (m : M W A) : Prop :=
  ∀ s, ∃ a s', m s = (Ok a, s') ∧ Q a.

End Reconciler.

(** ** Import *)

Section Importer.

Context {C : Collaborators} {W : Type}.

(** The function handed to the importer in [resourceStreamAnalyticsJob]:
    it parses the identifier and returns the parser's error. *)
Definition importerIDValidation (id : string) : option error :=
  match parse_StreamingJobID id with
  | inl err => Some err
  | inr _ => None
  end.

(** Modelled from the spec: [pluginsdk.ImporterValidatingResourceId] is not
    under src/; a malformed identifier string is a validation error that is
    rejected before any network call, so the importer runs the validation
    function on the identifier and fails with its error. *)
Definition ImporterValidatingResourceId (validateFunc : string -> option error)
  : M W unit :=
  d ← getData;
  match validateFunc (rd_Id d) with
  | Some err =>
      fail (Errorf "parsing Resource ID %q: %+v" [AStr (rd_Id d); AErr err])
  | None => ret tt
  end.

(** The [Importer] field of [resourceStreamAnalyticsJob]. *)
Definition resourceStreamAnalyticsJob_Importer : M W unit :=
  ImporterValidatingResourceId importerIDValidation.

End Importer.

(** ** The schema of the resource *)

(** The SDK's enumeration constants that the schema names. *)
Definition OneFullStopZero : string := "1.0".
Definition Adjust : string := "Adjust".
Definition Drop : string := "Drop".
Definition OutputErrorPolicyDrop : string := "Drop".
Definition OutputErrorPolicyStop : string := "Stop".

(** [pluginsdk.ValueType], the types the schema uses. *)
Inductive ValueType : Type :=
| TypeString
| TypeInt
| TypeList.

(** The validation functions the schema names, with their arguments. *)
Inductive ValidateFunc : Type :=
| StringIsNotEmpty
| StringInSlice (valid : list string) (ignoreCase : bool)
| IntBetween (min max : Z)
| StreamAnalyticsJobStreamingUnits.

(** [pluginsdk.Schema], the fields the resource sets; [s_MaxItems] is 0 when
    the field is not given, [s_Elem] is the schema of the nested resource. *)
#[warnings="-register-all"]
Inductive Schema : Type := mkSchema {
  s_Type : ValueType;
  s_Required : bool;
  s_Optional : bool;
  s_Computed : bool;
  s_ForceNew : bool;
  s_ValidateFunc : option ValidateFunc;
  s_Default : option Value;
  s_MaxItems : nat;
  s_Elem : list (string * Schema)
}.

(** An entry of the schema map: written out in the resource, or taken from a
    helper of another package. *)
Inductive SchemaEntry : Type :=
| Field (f : Schema)
| FromHelper (helper : string).

(** The [Schema] map of [resourceStreamAnalyticsJob], in source order. *)
Definition resourceStreamAnalyticsJob_Schema : list (string * SchemaEntry) :=
  [ ("name",
     Field (mkSchema TypeString true false false true
              (Some StringIsNotEmpty) None 0 []));
    ("resource_group_name", FromHelper "azure.SchemaResourceGroupName");
    ("location", FromHelper "azure.SchemaLocation");
    ("stream_analytics_cluster_id",
     Field (mkSchema TypeString false true false false
              (Some StringIsNotEmpty) None 0 []));
    ("compatibility_level",
     Field (mkSchema TypeString false true true false
              (Some (StringInSlice [OneFullStopZero; "1.1"] false)) None 0 []));
    ("data_locale",
     Field (mkSchema TypeString false true true false
              (Some StringIsNotEmpty) None 0 []));
    ("events_late_arrival_max_delay_in_seconds",
     Field (mkSchema TypeInt false true false false
              (Some (IntBetween (-1) 1814399)) (Some (VInt 5)) 0 []));
    ("events_out_of_order_max_delay_in_seconds",
     Field (mkSchema TypeInt false true false false
              (Some (IntBetween 0 599)) (Some (VInt 0)) 0 []));
    ("events_out_of_order_policy",
     Field (mkSchema TypeString false true false false
              (Some (StringInSlice [Adjust; Drop] false))
              (Some (VString Adjust)) 0 []));
    ("output_error_policy",
     Field (mkSchema TypeString false true false false
              (Some (StringInSlice [OutputErrorPolicyDrop;
                                    OutputErrorPolicyStop] false))
              (Some (VString OutputErrorPolicyDrop)) 0 []));
    ("streaming_units",
     Field (mkSchema TypeInt true false false false
              (Some StreamAnalyticsJobStreamingUnits) None 0 []));
    ("transformation_query",
     Field (mkSchema TypeString true false false false
              (Some StringIsNotEmpty) None 0 []));
    ("identity",
     Field (mkSchema TypeList false true false false None None 1
              [ ("type",
                 mkSchema TypeString true false false false
                   (Some (StringInSlice ["SystemAssigned"] false)) None 0 []);
                ("principal_id",
                 mkSchema TypeString false false true false None None 0 []);
                ("tenant_id",
                 mkSchema TypeString false false true false None None 0 []) ]));
    ("job_id",
     Field (mkSchema TypeString false false true false None None 0 []));
    ("tags", FromHelper "tags.Schema") ].

(** The attribute names the schema declares. *)
Definition schemaKeys : list string :=
  map fst resourceStreamAnalyticsJob_Schema.

(** The entry of the schema map under a key. *)
Fixpoint schemaLookup (k : string) (m : list (string * SchemaEntry))
  : option SchemaEntry :=
  match m with
  | [] => None
  | (k', e) :: m => if String.eqb k k' then Some e else schemaLookup k m
  end.

(** The verdict of the validation functions on a value. Their bodies are
    not under src/: what follows takes them as a parameter. *)
Definition Validator : Type := ValidateFunc → Value → bool.

(** A validator keeps to the arguments of [IntBetween]: it accepts no integer
    outside the two bounds. *)
Definition IntBetween_sound (validates : Validator) : Prop :=
  ∀ min max z, validates (IntBetween min max) (VInt z) = true → min ≤ z ≤ max.

(** A validator accepts the integers within the bounds of [IntBetween] and
    the strings listed for [StringInSlice]. *)
Definition accepts_listed (validates : Validator) : Prop :=
  (∀ min max z, min ≤ z ≤ max → validates (IntBetween min max) (VInt z) = true)
  ∧ (∀ valid ignoreCase s,
       s ∈ valid → validates (StringInSlice valid ignoreCase) (VString s) = true).

(** A value has the type of a field. *)
Definition hasType (t : ValueType) (v : Value) : bool :=
  match t, v with
  | TypeString, VString _ => true
  | TypeInt, VInt _ => true
  | TypeList, VList _ => true
  | _, _ => false
  end.

(** The value passes the validation function that the schema gives the
    attribute, if it gives one. *)
Definition fieldValid (validates : Validator) (k : string) (v : Value) : bool :=
  match schemaLookup k resourceStreamAnalyticsJob_Schema with
  | Some (Field f) =>
      match s_ValidateFunc f with
      | Some vf => validates vf v
      | None => true
      end
  | _ => true
  end.

(** ** The Service Fabric managed cluster test *)

Module servicefabricmanaged.

(** [managedcluster.ManagedClusterId]. *)
Record ManagedClusterId : Type := mkManagedClusterId {
  mc_SubscriptionId : string;
  mc_ResourceGroup : string;
  mc_ClusterName : string
}.

(** What [ManagedClusterClient.Get] returns beside the error: the possibly
    nil [*http.Response]. *)
Record GetResponse : Type := mkGetResponse {
  HttpResponse_ : option HttpResponse
}.

(** Modelled from the spec: [response.WasNotFound] is not under src/; a
    not-found response is one that exists and carries status 404. *)
Definition response_WasNotFound (resp : option HttpResponse) : bool :=
  match resp with
  | Some r => StatusCode r =? 404
  | None => false
  end.

Section Exists.

(** [managedcluster.ParseManagedClusterID], the identifier's [String]
    method and the client's [Get] against the current remote state. *)
Variable ParseManagedClusterID : string -> error + ManagedClusterId.
Variable ManagedClusterId_String : ManagedClusterId -> string.
Variable ManagedClusterClient_Get :
  ManagedClusterId -> GetResponse * option error.

(** [ClusterResource.Exists]; [(&b, nil)] is [Ok b], [(nil, err)] is
    [Err err]. *)
Definition Exists (stateID : string) : Outcome bool :=
  match ParseManagedClusterID stateID with
  | inl err => Err (Errorf "while parsing resource ID: %+v" [AErr err])
  | inr resourceID =>
    let '(resp, err) := ManagedClusterClient_Get resourceID in
    match err with
    | Some err =>
        if response_WasNotFound (HttpResponse_ resp) then Ok false
        else Err (Errorf "while checking for cluster's %q existence: %+v"
                    [AStr (ManagedClusterId_String resourceID); AErr err])
    | None =>
        match HttpResponse_ resp with
        | None => Panic NilDereference
        | Some r => Ok (StatusCode r =? 200)
        end
    end
  end.

End Exists.

(** An HCL block: its attribute assignments in source order. *)
Definition Block : Type := list (string * Value).

(** [ClusterResource.nodeType]: the node_type block for the arguments. *)
Definition nodeType (name : string) (primary : bool)
    (diskSize instanceCount : Z) : Block :=
  [ ("data_disk_size_gb", VInt diskSize);
    ("name", VString name);
    ("primary", VBool primary);
    ("application_port_range", VString "7000-9000");
    ("ephemeral_port_range", VString "10000-20000");
    ("vm_size", VString "Standard_DS2_v2");
    ("vm_image_publisher", VString "MicrosoftWindowsServer");
    ("vm_image_sku", VString "2016-Datacenter");
    ("vm_image_offer", VString "WindowsServer");
    ("vm_image_version", VString "latest");
    ("vm_instance_count", VInt instanceCount) ].

(** The configuration [ClusterResource.basic] renders, as far as the
    scenario inspects it: the node_type blocks and the tags. *)
Record ClusterConfig : Type := mkClusterConfig {
  cfg_node_type : list Block;
  cfg_tags : list (string * string)
}.

(** [ClusterResource.basic] for the given node_type blocks. *)
Definition basic (nodeTypeData : list Block) : ClusterConfig :=
  {| cfg_node_type := nodeTypeData; cfg_tags := [("Test", "value")] |}.

(** A check of a test step. *)
Inductive Check : Type :=
| ExistsInAzure
| KeyHasValue (key value : string).

(** A step of [data.ResourceTest]. *)
Inductive TestStep : Type :=
| ConfigStep (config : ClusterConfig) (checks : list Check)
| ImportStep (ignore : list string).

Definition nodeTypeData1 : Block := nodeType "test1" true 130 5.
Definition nodeTypeData1Altered : Block := nodeType "test1" true 140 5.
Definition nodeTypeData2 : Block := nodeType "test2" false 130 5.
Definition nodeTypeDataBoth : list Block := [nodeTypeData1; nodeTypeData2].

(** The steps of [TestAccServiceFabricManagedCluster_full]. *)
Definition TestAccServiceFabricManagedCluster_full : list TestStep :=
  [ ConfigStep (basic [nodeTypeData1])
      [ ExistsInAzure;
        KeyHasValue "tags.%" "1";
        KeyHasValue "tags.Test" "value" ];
    ImportStep ["password"];
    ConfigStep (basic nodeTypeDataBoth)
      [ ExistsInAzure;
        KeyHasValue "node_type.#" "2";
        KeyHasValue "node_type.0.name" "test1";
        KeyHasValue "node_type.1.name" "test2" ];
    ConfigStep (basic [nodeTypeData1])
      [ ExistsInAzure;
        KeyHasValue "node_type.#" "1";
        KeyHasValue "node_type.0.name" "test1" ];
    ConfigStep (basic [nodeTypeData1Altered])
      [ ExistsInAzure;
        KeyHasValue "node_type.#" "1";
        KeyHasValue "node_type.0.data_disk_size_gb" "140" ] ].

(** *** The cluster resource the scenario drives *)

(** The value of an attribute in a block. *)
Fixpoint blockGet (k : string) (b : Block) : option Value :=
  match b with
  | [] => None
  | (k', v) :: b => if String.eqb k k' then Some v else blockGet k b
  end.

(** Two blocks name the same entry. *)
Definition sameEntry (a b : Block) : bool :=
  match blockGet "name" a, blockGet "name" b with
  | Some (VString x), Some (VString y) => String.eqb x y
  | _, _ => false
  end.

(** Modelled from the spec: the update of one remote entry is not under
    src/; an update changes only the fields supplied, the other fields keep
    their prior remote values. *)
Definition updateEntry (old supplied : Block) : Block :=
  (map (fun kv => match blockGet (fst kv) supplied with
                  | Some v => (fst kv, v)
                  | None => kv
                  end) old
   ++ List.filter (fun kv => match blockGet (fst kv) old with
                             | Some _ => false
                             | None => true
                             end) supplied)%list.

(** Every assignment of the block is the one that a lookup of its key
    finds: no key is assigned twice with different values. *)
Definition functional (b : Block) : Prop :=
  Forall (λ kv, blockGet (fst kv) b = Some (snd kv)) b.

(** Every assignment of an entry to a key that the supplied block has
    carries the supplied value. *)
Definition agrees (supplied r : Block) : Prop :=
  Forall (λ kv, ∀ v, blockGet (fst kv) supplied = Some v → snd kv = v) r.

(** Modelled from the spec: the cluster resource (its create, update and
    read) is not under src/; nested-list entries are identified by name
    independently of their order: an entry of the configuration that is
    already remote is updated in place, a new one is added, and a remote
    entry that the configuration no longer has is removed. *)
Definition reconcileNodeTypes (remoteEntries supplied : list Block)
  : list Block :=
  map (fun b => match find (sameEntry b) remoteEntries with
                | Some old => updateEntry old b
                | None => b
                end) supplied.

(** The state of the managed cluster as the scenario observes it. *)
Record ClusterState : Type := mkClusterState {
  st_present : bool;
  st_node_type : list Block;
  st_tags : list (string * string)
}.

Definition absent : ClusterState :=
  {| st_present := false; st_node_type := []; st_tags := [] |}.

(** Modelled from the spec: applying a configuration (create when absent,
    update otherwise, then read back) is not under src/; the state read back
    equals the non-computed part of the desired configuration. *)
Definition apply (s : ClusterState) (c : ClusterConfig) : ClusterState :=
  {| st_present := true;
     st_node_type := reconcileNodeTypes (st_node_type s) (cfg_node_type c);
     st_tags := cfg_tags c |}.

(** The string under which the test framework shows a primitive value. *)
Definition render (v : Value) : string :=
  match v with
  | VString s => s
  | VInt z => pretty z
  | VBool true => "true"
  | VBool false => "false"
  | _ => ""
  end.

(** The flat key/value view of one block, under a key prefix. *)
Definition flatBlock (pfx : string) (b : Block) : list (string * string) :=
  map (fun kv => (pfx ++ "." ++ fst kv, render (snd kv)))%string b.

(** The flat view of a list of blocks: the count under [#], then the blocks
    under their indexes. *)
Fixpoint flatBlocks (pfx : string) (i : nat) (bs : list Block)
  : list (string * string) :=
  match bs with
  | [] => []
  | b :: bs =>
      (flatBlock (pfx ++ "." ++ pretty i)%string b
       ++ flatBlocks pfx (S i) bs)%list
  end.

(** The flat attribute view that [Key(..).HasValue(..)] looks into. *)
Definition flatState (s : ClusterState) : gmap string string :=
  list_to_map
    ((("node_type.#", pretty (length (st_node_type s)))
      :: flatBlocks "node_type" 0 (st_node_type s))
     ++ ("tags.%", pretty (length (st_tags s)))
     :: map (fun kv => ("tags." ++ fst kv, snd kv)%string) (st_tags s))%list.

(** The identifier of the cluster under test and the client's answer for
    it: 200 once the cluster is present, a 404 error before. *)
Definition testClusterId : ManagedClusterId :=
  {| mc_SubscriptionId := "sub"; mc_ResourceGroup := "acctestRG-sfmc";
     mc_ClusterName := "testacc-sfmc" |}.

Definition testClusterGet (s : ClusterState) (_ : ManagedClusterId)
  : GetResponse * option error :=
  if st_present s
  then ({| HttpResponse_ := Some {| StatusCode := 200 |} |}, None)
  else ({| HttpResponse_ := Some {| StatusCode := 404 |} |},
        Some (Raw "ResourceNotFound")).

(** Whether a check passes on a state. [ExistsInAzure] runs [Exists]. *)
Definition checkPasses (s : ClusterState) (c : Check) : bool :=
  match c with
  | ExistsInAzure =>
      match Exists (fun _ => inr testClusterId) mc_ClusterName
              (testClusterGet s) "id" with
      | Ok true => true
      | _ => false
      end
  | KeyHasValue k v => bool_decide (flatState s !! k = Some v)
  end.

(** Runs the steps from a state: the state after every configuration step
    together with whether all its checks pass. An import step leaves the
    state as it is. *)
Fixpoint runSteps (s : ClusterState) (steps : list TestStep)
  : list (ClusterState * bool) :=
  match steps with
  | [] => []
  | ConfigStep c checks :: steps =>
      let s' := apply s c in
      (s', forallb (checkPasses s') checks) :: runSteps s' steps
  | ImportStep _ :: steps => runSteps s steps
  end.

End servicefabricmanaged.

(** ** A concrete instance: an in-memory cloud *)

(** The instance below runs the reconcilers on concrete inputs: collaborators
    with the documented behaviour of the helpers, and a management API that
    keeps the jobs in a map and can be told to fail an operation. *)
Module Sample.

(** Splits a string at every occurrence of a character. *)
Fixpoint splitOn (c : ascii) (s : string) : list string :=
  match s with
  | EmptyString => [EmptyString]
  | String a s =>
      if Ascii.eqb a c then EmptyString :: splitOn c s
      else match splitOn c s with
           | seg :: segs => String a seg :: segs
           | [] => [String a EmptyString]
           end
  end.

(** The canonical encoding of a job identifier. *)
Definition encodeID (id : StreamingJobId) : string :=
  ("/subscriptions/" ++ SubscriptionId id
   ++ "/resourceGroups/" ++ ResourceGroup id
   ++ "/providers/Microsoft.StreamAnalytics/streamingjobs/" ++ Name id)%string.

(** A parser of the canonical encoding: the eight segments with the fixed
    keys and non-empty values, anything else is rejected. *)
Definition parseID (s : string) : error + StreamingJobId :=
  match splitOn "/"%char s with
  | [ ""; "subscriptions"; sub; "resourceGroups"; rg; "providers";
      "Microsoft.StreamAnalytics"; "streamingjobs"; name ] =>
      if (String.eqb sub "" || String.eqb rg "" || String.eqb name "")%bool
      then inl (Raw "ID was missing a segment value")
      else inr (NewStreamingJobID sub rg name)
  | _ => inl (Raw "parsing the StreamingJob ID: unexpected segments")
  end.

(** Lower case of an ASCII letter. *)
Definition lowerAscii (a : ascii) : ascii :=
  let n := nat_of_ascii a in
  if ((65 <=? n) && (n <=? 90))%nat then ascii_of_nat (n + 32) else a.

(** Location names without spaces and in lower case. *)
Fixpoint normalizeLocation (s : string) : string :=
  match s with
  | EmptyString => EmptyString
  | String a s =>
      if Ascii.eqb a " "%char then normalizeLocation s
      else String (lowerAscii a) (normalizeLocation s)
  end.

Definition expandTags (t : gmap string Value) : gmap string (option string) :=
  (fun v => Some (servicefabricmanaged.render v)) <$> t.

Definition flattenTags (t : gmap string (option string)) : gmap string Value :=
  omap (fun v => VString <$> v) t.

#[global] Instance collaborators : Collaborators := {|
  parse_StreamingJobID := parseID;
  id_ID := encodeID;
  azure_NormalizeLocation := normalizeLocation;
  tags_Expand := expandTags;
  tags_Flatten := flattenTags;
  set_err := fun _ _ => None
|}.

(** The cloud: the jobs by resource group and name, and the operations that
    are made to fail, each with the status and message of its failure. *)
Record Cloud : Type := mkCloud {
  jobs : gmap string StreamingJob;
  faults : gmap string (Z * string)
}.

Definition jobKey (resourceGroup name : string) : string :=
  (resourceGroup ++ "/" ++ name)%string.

(** The empty job carrying only a response status. *)
Definition statusOnly (status : Z) : StreamingJob :=
  {| Response := Some {| StatusCode := status |};
     job_StreamingJobProperties := None;
     job_Identity := None;
     job_Tags := ∅;
     job_Location := None;
     job_ID := None;
     job_Name := None |}.

Definition withResponse (status : Z) (j : StreamingJob) : StreamingJob :=
  {| Response := Some {| StatusCode := status |};
     job_StreamingJobProperties := job_StreamingJobProperties j;
     job_Identity := job_Identity j;
     job_Tags := job_Tags j;
     job_Location := job_Location j;
     job_ID := job_ID j;
     job_Name := job_Name j |}.

Definition withID (id : string) (j : StreamingJob) : StreamingJob :=
  {| Response := Response j;
     job_StreamingJobProperties := job_StreamingJobProperties j;
     job_Identity := job_Identity j;
     job_Tags := job_Tags j;
     job_Location := job_Location j;
     job_ID := Some id;
     job_Name := job_Name j |}.

Definition emptyTransformation : Transformation :=
  {| tr_Name := None; tr_TransformationProperties := None |}.

Definition cloudGet (w : Cloud) (resourceGroup name expand : string)
  : StreamingJob * option error :=
  match faults w !! "Get" with
  | Some (status, msg) => (statusOnly status, Some (Raw msg))
  | None =>
      match jobs w !! jobKey resourceGroup name with
      | Some j => (withResponse 200 j, None)
      | None => (statusOnly 404, Some (Raw "ResourceNotFound"))
      end
  end.

Definition cloudCreateOrReplace (w : Cloud) (props : StreamingJob)
    (resourceGroup name : string) : (unit * option error) * Cloud :=
  match faults w !! "CreateOrReplace" with
  | Some (_, msg) => ((tt, Some (Raw msg)), w)
  | None =>
      ((tt, None),
       mkCloud (<[jobKey resourceGroup name :=
                    withID (jobKey resourceGroup name) props]> (jobs w))
               (faults w))
  end.

Definition cloudWait (w : Cloud) (_ : unit) : option error * Cloud :=
  match faults w !! "WaitForCompletionRef" with
  | Some (_, msg) => (Some (Raw msg), w)
  | None => (None, w)
  end.

Definition cloudUpdate (w : Cloud) (props : StreamingJob)
    (resourceGroup name : string) : (StreamingJob * option error) * Cloud :=
  match faults w !! "Update" with
  | Some (status, msg) => ((statusOnly status, Some (Raw msg)), w)
  | None =>
      match jobs w !! jobKey resourceGroup name with
      | None => ((statusOnly 404, Some (Raw "ResourceNotFound")), w)
      | Some old =>
          let j :=
            match job_StreamingJobProperties old with
            | Some oldProps =>
                match Transformation_ oldProps with
                | Some t =>
                    match withTransformation props t with
                    | Ok j => j
                    | _ => props
                    end
                | None => props
                end
            | None => props
            end in
          let j := withID (jobKey resourceGroup name) j in
          ((withResponse 200 j, None),
           mkCloud (<[jobKey resourceGroup name := j]> (jobs w)) (faults w))
      end
  end.

Definition cloudTransformationsUpdate (w : Cloud) (t : Transformation)
    (resourceGroup name transformationName : string)
  : (Transformation * option error) * Cloud :=
  match faults w !! "TransformationsUpdate" with
  | Some (_, msg) => ((emptyTransformation, Some (Raw msg)), w)
  | None =>
      match jobs w !! jobKey resourceGroup name with
      | None => ((emptyTransformation, Some (Raw "ResourceNotFound")), w)
      | Some old =>
          match withTransformation old t with
          | Ok j =>
              ((t, None),
               mkCloud (<[jobKey resourceGroup name := j]> (jobs w)) (faults w))
          | _ => ((emptyTransformation, Some (Raw "no properties")), w)
          end
      end
  end.

Definition cloudDelete (w : Cloud) (resourceGroup name : string)
  : (unit * option error) * Cloud :=
  match faults w !! "Delete" with
  | Some (_, msg) => ((tt, Some (Raw msg)), w)
  | None =>
      ((tt, None),
       mkCloud (delete (jobKey resourceGroup name) (jobs w)) (faults w))
  end.

#[global] Instance api : ManagementApi Cloud unit := {|
  Jobs_Get := cloudGet;
  Jobs_CreateOrReplace := cloudCreateOrReplace;
  Future_WaitForCompletionRef := cloudWait;
  Jobs_Update := cloudUpdate;
  Transformations_Update := cloudTransformationsUpdate;
  Jobs_Delete := cloudDelete
|}.

(** A desired configuration of a job named job1 in group rg1. *)
Definition config1 : gmap string Value :=
  <["name" := VString "job1"]>
  (<["resource_group_name" := VString "rg1"]>
  (<["location" := VString "West Europe"]>
  (<["streaming_units" := VInt 3]>
  (<["transformation_query" := VString "SELECT 1"]>
  (<["events_out_of_order_policy" := VString "Adjust"]>
  (<["output_error_policy" := VString "Drop"]>
  (<["events_late_arrival_max_delay_in_seconds" := VInt 5]> ∅))))))).

Definition id1 : StreamingJobId := NewStreamingJobID "sub1" "rg1" "job1".

(** A job as the cloud holds it. *)
Definition job1 : StreamingJob :=
  {| Response := None;
     job_StreamingJobProperties :=
       Some {| Sku := Some {| sku_Name := Standard |};
               JobID := Some "0000-1111";
               CompatibilityLevel := "1.1";
               DataLocale := None;
               EventsLateArrivalMaxDelayInSeconds := Some 5;
               EventsOutOfOrderMaxDelayInSeconds := None;
               EventsOutOfOrderPolicy := "Adjust";
               OutputErrorPolicy := "Drop";
               Cluster := None;
               Transformation_ :=
                 Some {| tr_Name := Some "main";
                         tr_TransformationProperties :=
                           Some {| StreamingUnits := Some 3;
                                   Query := Some "SELECT 1" |} |} |};
     job_Identity := None;
     job_Tags := ∅;
     job_Location := None;
     job_ID := Some "rg1/job1";
     job_Name := Some "JOB1" |}.

Definition emptyCloud : Cloud := mkCloud ∅ ∅.
Definition cloud1 : Cloud := mkCloud (<["rg1/job1" := job1]> ∅) ∅.

(** [cloud1] with one operation made to fail. *)
Definition failing (op : string) (status : Z) (msg : string) : Cloud :=
  mkCloud (jobs cloud1) (<[op := (status, msg)]> ∅).

(** A fresh invocation of Create for [config1]. *)
Definition newResource (w : Cloud) : St Cloud :=
  mkSt w [] (mkResourceData "" true config1) "sub1".

(** An invocation on the already created job. *)
Definition existingResource (w : Cloud) (attrs : gmap string Value) : St Cloud :=
  mkSt w [] (mkResourceData (encodeID id1) false attrs) "sub1".

(** An invocation with an identifier string of the given form. *)
Definition withIdString (w : Cloud) (id : string) : St Cloud :=
  mkSt w [] (mkResourceData id false config1) "sub1".

(** A cloud with one operation made to fail. *)
Definition withFault (w : Cloud) (op : string) (status : Z) (msg : string)
  : Cloud :=
  mkCloud (jobs w) (<[op := (status, msg)]> (faults w)).

(** A job in which every optional object and field is present. *)
Definition job2 : StreamingJob :=
  {| Response := None;
     job_StreamingJobProperties :=
       Some {| Sku := Some {| sku_Name := Standard |};
               JobID := Some "0000-2222";
               CompatibilityLevel := "1.1";
               DataLocale := Some "en-US";
               EventsLateArrivalMaxDelayInSeconds := Some 5;
               EventsOutOfOrderMaxDelayInSeconds := Some 0;
               EventsOutOfOrderPolicy := "Adjust";
               OutputErrorPolicy := "Drop";
               Cluster := Some {| ci_ID := Some "cluster1" |};
               Transformation_ :=
                 Some {| tr_Name := Some "main";
                         tr_TransformationProperties :=
                           Some {| StreamingUnits := Some 3;
                                   Query := Some "SELECT 1" |} |} |};
     job_Identity :=
       Some {| TenantID := Some "t-1"; PrincipalID := Some "p-1";
               Type_ := Some "SystemAssigned" |};
     job_Tags := ∅;
     job_Location := Some "West Europe";
     job_ID := Some "rg1/job1";
     job_Name := Some "job1" |}.

Definition cloud2 : Cloud := mkCloud (<["rg1/job1" := job2]> ∅) ∅.

(** A job held without its properties object, and one whose transformation
    has no name. *)
Definition jobWithoutProperties : StreamingJob :=
  {| Response := None;
     job_StreamingJobProperties := None;
     job_Identity := None;
     job_Tags := ∅;
     job_Location := None;
     job_ID := Some "rg1/job1";
     job_Name := Some "job1" |}.

(** A job whose transformation has no properties, and one whose
    transformation has no name. *)
Definition jobNilTransformationProperties : StreamingJob :=
  {| Response := None;
     job_StreamingJobProperties :=
       Some {| Sku := None;
               JobID := Some "0000-3333";
               CompatibilityLevel := "1.1";
               DataLocale := None;
               EventsLateArrivalMaxDelayInSeconds := None;
               EventsOutOfOrderMaxDelayInSeconds := None;
               EventsOutOfOrderPolicy := "Adjust";
               OutputErrorPolicy := "Drop";
               Cluster := None;
               Transformation_ :=
                 Some {| tr_Name := Some "main";
                         tr_TransformationProperties := None |} |};
     job_Identity := None;
     job_Tags := ∅;
     job_Location := None;
     job_ID := Some "rg1/job1";
     job_Name := Some "job1" |}.

Definition jobNamelessTransformation : StreamingJob :=
  {| Response := None;
     job_StreamingJobProperties :=
       Some {| Sku := None;
               JobID := Some "0000-4444";
               CompatibilityLevel := "1.1";
               DataLocale := None;
               EventsLateArrivalMaxDelayInSeconds := None;
               EventsOutOfOrderMaxDelayInSeconds := None;
               EventsOutOfOrderPolicy := "Adjust";
               OutputErrorPolicy := "Drop";
               Cluster := None;
               Transformation_ :=
                 Some {| tr_Name := None;
                         tr_TransformationProperties :=
                           Some {| StreamingUnits := Some 3;
                                   Query := Some "SELECT 1" |} |} |};
     job_Identity := None;
     job_Tags := ∅;
     job_Location := None;
     job_ID := Some "rg1/job1";
     job_Name := Some "job1" |}.

(** A job that the cloud holds without a transformation. *)
Definition jobWithoutTransformation : StreamingJob :=
  {| Response := None;
     job_StreamingJobProperties :=
       Some {| Sku := Some {| sku_Name := Standard |};
               JobID := Some "0000-5555";
               CompatibilityLevel := "1.1";
               DataLocale := None;
               EventsLateArrivalMaxDelayInSeconds := Some 5;
               EventsOutOfOrderMaxDelayInSeconds := Some 0;
               EventsOutOfOrderPolicy := "Adjust";
               OutputErrorPolicy := "Drop";
               Cluster := None;
               Transformation_ := None |};
     job_Identity := None;
     job_Tags := ∅;
     job_Location := Some "West Europe";
     job_ID := Some "rg1/job1";
     job_Name := Some "job1" |}.

(** [job1] as the cloud answers it when it leaves the ID out. *)
Definition jobWithoutID : StreamingJob :=
  {| Response := None;
     job_StreamingJobProperties := job_StreamingJobProperties job1;
     job_Identity := None;
     job_Tags := ∅;
     job_Location := None;
     job_ID := None;
     job_Name := Some "JOB1" |}.

(** [config1] with an identity block. *)
Definition config2 : gmap string Value :=
  <["identity" := VList [VMap (<["type" := VString "SystemAssigned"]> ∅)]]>
    config1.

(** The identity that [config2] asks for. *)
Definition identity2 : option Identity :=
  Some {| TenantID := None; PrincipalID := None;
          Type_ := Some "SystemAssigned" |}.

(** The cloud holding the given job as job1 of group rg1. *)
Definition cloudWith (j : StreamingJob) : Cloud :=
  mkCloud (<["rg1/job1" := j]> ∅) ∅.

(** Collaborators whose schema writer accepts the writes of the listed
    attributes only. *)
Definition acceptingOnly (accepted : list string) : Collaborators := {|
  parse_StreamingJobID := parseID;
  id_ID := encodeID;
  azure_NormalizeLocation := normalizeLocation;
  tags_Expand := expandTags;
  tags_Flatten := flattenTags;
  set_err := fun k _ =>
    if existsb (String.eqb k) accepted then None
    else Some (Raw "rejected by the schema writer")
|}.

(** Lower case of an ASCII string, for case-insensitive comparison. *)
Fixpoint toLower (s : string) : string :=
  match s with
  | EmptyString => EmptyString
  | String a s =>
      let n := nat_of_ascii a in
      String (if ((65 <=? n) && (n <=? 90))%nat then ascii_of_nat (n + 32) else a)
             (toLower s)
  end.

(** A validator for the examples: a string that is not empty, a string that
    is one of the listed ones (compared without case when asked to), an
    integer between the two bounds, bounds included; as a stand-in for the
    rule of the streaming units, any integer from 1 on. *)
Definition validates : Validator :=
  λ f v,
    match f, v with
    | StringIsNotEmpty, VString s => negb (String.eqb s "")
    | StringInSlice valid ignoreCase, VString s =>
        existsb (λ x, if ignoreCase
                      then String.eqb (toLower x) (toLower s)
                      else String.eqb x s) valid
    | IntBetween min max, VInt z => (min <=? z) && (z <=? max)
    | StreamAnalyticsJobStreamingUnits, VInt z => 1 <=? z
    | _, _ => false
    end.

End Sample.

(** * Verified properties *)

Local Open Scope list_scope.

(** ** Identity flattening and expansion *)

(** C10: [flattenStreamAnalyticsJobIdentity] is total; it returns nil for a
    nil identity and otherwise a list of exactly one map whose keys are exactly
    type, tenant_id and principal_id, each holding the contents of the
    corresponding pointer, or the empty string when that pointer is nil. *)
Theorem flattenStreamAnalyticsJobIdentity_shape :
  flattenStreamAnalyticsJobIdentity None = None ∧
  ∀ i : Identity, ∃ m : gmap string Value,
    flattenStreamAnalyticsJobIdentity (Some i) = Some [VMap m]
    ∧ dom m = ({["type"; "tenant_id"; "principal_id"]} : gset string)
    ∧ m !! "type" = Some (VString (default "" (Type_ i)))
    ∧ m !! "tenant_id" = Some (VString (default "" (TenantID i)))
    ∧ m !! "principal_id" = Some (VString (default "" (PrincipalID i))).
Proof.
  split; [reflexivity|].
  intros [tenant principal type].
  eexists. split; [reflexivity|].
  split.
  - rewrite !dom_insert_L, dom_empty_L. set_solver.
  - destruct tenant, principal, type; simpl; repeat split;
      by simplify_map_eq.
Qed.

(** The call-site guard of [expandStreamAnalyticsJobIdentity]: when
    [d.GetOk] reports a list attribute as set, the list is not empty. *)
Lemma getOkList_nonempty (d : ResourceData) (k : string) (l : list Value) :
  getOkList d k = (l, true) → l ≠ [].
Proof.
  unfold getOkList. intros H Hl.
  destruct (getList d k); inversion H; subst; discriminate.
Qed.

(** [expandStreamAnalyticsJobIdentity] returns an identity or panics. *)
Lemma expandStreamAnalyticsJobIdentity_outcome (identity : list Value) :
  (∃ i, expandStreamAnalyticsJobIdentity identity = Ok (Some i))
  ∨ ∃ p, expandStreamAnalyticsJobIdentity identity = Panic p.
Proof.
  destruct identity as [|[| | | | |m] l]; simpl; eauto.
  destruct (m !! "type") as [[]|]; eauto.
Qed.

(** C9, as the code has it: [expandStreamAnalyticsJobIdentity] indexes element
    0 unconditionally (an empty list is an index-out-of-range panic); the list
    that [d.GetOk] reports as set is not empty; on a non-empty list the
    out-of-range panic does not happen; and when the first element is a map
    holding a string under type, the result is a non-nil Identity whose Type
    is that string. *)
Theorem expandStreamAnalyticsJobIdentity_first_element
    (identity : list Value) (b : gmap string Value) (rest : list Value)
    (s : string) :
  identity = VMap b :: rest →
  b !! "type" = Some (VString s) →
  expandStreamAnalyticsJobIdentity [] = Panic IndexOutOfRange
  ∧ (∀ d l, getOkList d "identity" = (l, true) →
            l ≠ [] ∧ expandStreamAnalyticsJobIdentity l ≠ Panic IndexOutOfRange)
  ∧ expandStreamAnalyticsJobIdentity identity ≠ Panic IndexOutOfRange
  ∧ ∃ i : Identity,
      expandStreamAnalyticsJobIdentity identity = Ok (Some i)
      ∧ Type_ i = Some s.
Proof.
  intros -> Hb. split; [reflexivity|]. split.
  - intros d l Hl. apply getOkList_nonempty in Hl. split; [done|].
    destruct l as [|[| | | | |m] l]; simpl; try done.
    by destruct (m !! "type") as [[]|].
  - simpl. rewrite Hb. split; [done|]. eexists. split; reflexivity.
Qed.

(** C9 at a list holding one identity block of type SystemAssigned. *)
Lemma expandStreamAnalyticsJobIdentity_first_element_witness :
  ∃ i : Identity,
    expandStreamAnalyticsJobIdentity
      [VMap (<["type" := VString "SystemAssigned"]> ∅)] = Ok (Some i)
    ∧ Type_ i = Some "SystemAssigned".
Proof.
  apply (expandStreamAnalyticsJobIdentity_first_element
           [VMap (<["type" := VString "SystemAssigned"]> ∅)]
           (<["type" := VString "SystemAssigned"]> ∅) [] "SystemAssigned").
  - reflexivity.
  - reflexivity.
Defined.

(** C9 as stated fails: a non-empty list whose first element is not a map, or
    is a map without a string under type, makes the function panic on a type
    assertion instead of returning an Identity. *)
Lemma expandStreamAnalyticsJobIdentity_nonempty_panics :
  [VNil] ≠ [] ∧ [VMap ∅] ≠ []
  ∧ expandStreamAnalyticsJobIdentity [VNil] = Panic TypeAssertion
  ∧ expandStreamAnalyticsJobIdentity [VMap ∅] = Panic TypeAssertion
  ∧ ¬ (∀ identity : list Value, identity ≠ [] →
         ∃ i, expandStreamAnalyticsJobIdentity identity = Ok (Some i)).
Proof.
  repeat split; try done.
  intros H. destruct (H [VNil]) as [i Hi]; [done|]. discriminate Hi.
Qed.

(** X1: expanding what [flattenStreamAnalyticsJobIdentity] returns for an
    identity gives back an identity with the same type (the empty string for
    a nil type) and without tenant and principal id: the computed ids do not
    survive the round trip to the payload. *)
Theorem expand_after_flatten (i : Identity) :
  ∃ l, flattenStreamAnalyticsJobIdentity (Some i) = Some l
       ∧ expandStreamAnalyticsJobIdentity l =
           Ok (Some {| TenantID := None; PrincipalID := None;
                       Type_ := Some (default "" (Type_ i)) |}).
Proof.
  destruct i as [tenant principal type]. eexists. split; [reflexivity|].
  unfold expandStreamAnalyticsJobIdentity. rewrite lookup_insert_eq.
  by destruct type.
Qed.

(** X2: flattening what [expandStreamAnalyticsJobIdentity] returns for a list
    whose first block holds a string under type gives one block with that
    type and empty tenant and principal ids, whatever else the block and the
    rest of the list held. *)
Theorem flatten_after_expand (b : gmap string Value) (rest : list Value)
    (s : string) :
  b !! "type" = Some (VString s) →
  ∃ i, expandStreamAnalyticsJobIdentity (VMap b :: rest) = Ok (Some i)
       ∧ flattenStreamAnalyticsJobIdentity (Some i) =
           Some [VMap (<["type" := VString s]>
                       (<["tenant_id" := VString ""]>
                        (<["principal_id" := VString ""]> ∅)))].
Proof.
  intros Hb. eexists. split.
  - simpl. rewrite Hb. reflexivity.
  - reflexivity.
Qed.

(** X2 at a block that also carries computed ids. *)
Lemma flatten_after_expand_witness :
  ∃ i, expandStreamAnalyticsJobIdentity
         [VMap (<["type" := VString "SystemAssigned"]>
                (<["principal_id" := VString "p-1"]> ∅))] = Ok (Some i)
       ∧ flattenStreamAnalyticsJobIdentity (Some i) =
           Some [VMap (<["type" := VString "SystemAssigned"]>
                       (<["tenant_id" := VString ""]>
                        (<["principal_id" := VString ""]> ∅)))].
Proof.
  apply (flatten_after_expand
           (<["type" := VString "SystemAssigned"]>
            (<["principal_id" := VString "p-1"]> ∅)) [] "SystemAssigned").
  reflexivity.
Defined.

(** ** Exists *)

Section ExistsProperties.

Import servicefabricmanaged.

Variable ParseManagedClusterID : string -> error + ManagedClusterId.
Variable ManagedClusterId_String : ManagedClusterId -> string.
Variable ManagedClusterClient_Get :
  ManagedClusterId -> GetResponse * option error.

Local Abbreviation exists_ :=
  (Exists ParseManagedClusterID ManagedClusterId_String
     ManagedClusterClient_Get).

(** C4, as the code has it: for an identifier that parses, a Get that fails
    with a not-found response yields false; a Get that fails otherwise
    yields an error; and a Get that returns without error yields true
    exactly when the status is 200, false for every other status. *)
Theorem Exists_by_response (stateID : string) (resourceID : ManagedClusterId)
    (resp : GetResponse) (err : option error) :
  ParseManagedClusterID stateID = inr resourceID →
  ManagedClusterClient_Get resourceID = (resp, err) →
  (∀ e, err = Some e → response_WasNotFound (HttpResponse_ resp) = true →
        exists_ stateID = Ok false)
  ∧ (∀ e, err = Some e → response_WasNotFound (HttpResponse_ resp) = false →
          exists_ stateID =
            Err (Errorf "while checking for cluster's %q existence: %+v"
                   [AStr (ManagedClusterId_String resourceID); AErr e]))
  ∧ (∀ r, err = None → HttpResponse_ resp = Some r →
          exists_ stateID = Ok (StatusCode r =? 200)
          ∧ (exists_ stateID = Ok true ↔ StatusCode r = 200)).
Proof.
  intros Hparse Hget. unfold Exists. rewrite Hparse, Hget.
  split; [|split].
  - intros e -> ->. reflexivity.
  - intros e -> ->. reflexivity.
  - intros r -> ->. split; [reflexivity|]. split.
    + intros [= Heq]. by apply Z.eqb_eq.
    + intros ->. reflexivity.
Qed.

End ExistsProperties.

(** C4 at a cluster whose Get answers 200. *)
Lemma Exists_by_response_witness :
  servicefabricmanaged.Exists
    (fun _ => inr servicefabricmanaged.testClusterId)
    servicefabricmanaged.mc_ClusterName
    (servicefabricmanaged.testClusterGet
       (servicefabricmanaged.mkClusterState true [] [])) "id" = Ok true.
Proof.
  pose proof (Exists_by_response
                (fun _ => inr servicefabricmanaged.testClusterId)
                servicefabricmanaged.mc_ClusterName
                (servicefabricmanaged.testClusterGet
                   (servicefabricmanaged.mkClusterState true [] []))
                "id" servicefabricmanaged.testClusterId
                (servicefabricmanaged.mkGetResponse (Some (mkHttpResponse 200)))
                None eq_refl eq_refl) as (_ & _ & H).
  exact (proj1 (H (mkHttpResponse 200) eq_refl eq_refl)).
Defined.

(** C4 as stated fails: a response with the 2xx status 204 does not yield
    true; without an error from the client the answer is false, and with an
    error it is an error. *)
Lemma Exists_status_204_not_true :
  let get204 (err : option error) :=
    fun _ : servicefabricmanaged.ManagedClusterId =>
      (servicefabricmanaged.mkGetResponse (Some (mkHttpResponse 204)), err) in
  let exists_ err :=
    servicefabricmanaged.Exists
      (fun _ => inr servicefabricmanaged.testClusterId)
      servicefabricmanaged.mc_ClusterName (get204 err) "id" in
  exists_ None = Ok false
  ∧ exists_ (Some (Raw "unexpected status 204")) =
      Err (Errorf "while checking for cluster's %q existence: %+v"
             [AStr "testacc-sfmc"; AErr (Raw "unexpected status 204")])
  ∧ ∀ err, exists_ err ≠ Ok true.
Proof.
  repeat split. intros [e|]; discriminate.
Qed.

Section ExistsOutcomes.

Import servicefabricmanaged.

Variable ParseManagedClusterID : string -> error + ManagedClusterId.
Variable ManagedClusterId_String : ManagedClusterId -> string.
Variable ManagedClusterClient_Get :
  ManagedClusterId -> GetResponse * option error.

(** X3: [Exists] answers true exactly when the identifier parses and the Get
    returns no error with status 200; it answers false exactly when the
    identifier parses and the Get either fails with a not-found response or
    returns no error with a status other than 200; and it panics exactly when
    the Get returns neither an error nor a response. *)
Theorem Exists_outcomes (stateID : string) :
  let result :=
    Exists ParseManagedClusterID ManagedClusterId_String
      ManagedClusterClient_Get stateID in
  (result = Ok true ↔
     ∃ resourceID resp r,
       ParseManagedClusterID stateID = inr resourceID
       ∧ ManagedClusterClient_Get resourceID = (resp, None)
       ∧ HttpResponse_ resp = Some r ∧ StatusCode r = 200)
  ∧ (result = Ok false ↔
       ∃ resourceID resp err,
         ParseManagedClusterID stateID = inr resourceID
         ∧ ManagedClusterClient_Get resourceID = (resp, err)
         ∧ ((err ≠ None ∧ response_WasNotFound (HttpResponse_ resp) = true)
            ∨ (err = None
               ∧ ∃ r, HttpResponse_ resp = Some r ∧ StatusCode r ≠ 200)))
  ∧ ((∃ p, result = Panic p) ↔
       ∃ resourceID resp,
         ParseManagedClusterID stateID = inr resourceID
         ∧ ManagedClusterClient_Get resourceID = (resp, None)
         ∧ HttpResponse_ resp = None).
Proof.
  intros result. subst result. unfold Exists.
  destruct (ParseManagedClusterID stateID) as [e|resourceID] eqn:Hparse;
    [|destruct (ManagedClusterClient_Get resourceID) as [resp [e|]] eqn:Hget;
      [destruct (response_WasNotFound (HttpResponse_ resp)) eqn:Hnf
      |destruct (HttpResponse_ resp) as [r|] eqn:Hr;
       [destruct (Z.eqb_spec (StatusCode r) 200)|]]];
    (split; [|split]); split; intros H.
  all: try discriminate H.
  all: try match type of H with
           | ∃ p, _ = Panic p => destruct H as [? H]; discriminate H
           end.
  all: try (repeat match goal with
                   | H : ∃ _, _ |- _ => destruct H
                   | H : _ ∧ _ |- _ => destruct H
                   | H : _ ∨ _ |- _ => destruct H
                   | H : inr _ = inr _ |- _ => injection H as <-
                   end; congruence).
  - exists resourceID, resp, (Some e). split; [done|]. split; [done|].
    left. by split.
  - exists resourceID, resp, r. by repeat split.
  - exists resourceID, resp, None. split; [done|]. split; [done|].
    right. split; [done|]. by exists r.
  - by exists resourceID, resp.
  - by exists NilDereference.
Qed.

End ExistsOutcomes.

(** ** The schema *)

(** The attributes that Read may write are the attributes that the schema
    declares. *)
Lemma readFields_schemaKeys (k : string) : k ∈ readFields ↔ k ∈ schemaKeys.
Proof.
  unfold readFields, propertyFields, schemaKeys,
    resourceStreamAnalyticsJob_Schema.
  cbn [map fst app]. rewrite !elem_of_cons, !elem_of_nil. tauto.
Qed.

(** X4: for every validator that accepts the integers within the bounds of
    [IntBetween] and the strings listed for [StringInSlice], every default
    that the schema gives has the type of its field and passes the
    validation function of its field. *)
Theorem schema_defaults_valid (validates : Validator) (k : string)
    (f : Schema) (v : Value) :
  accepts_listed validates →
  (k, Field f) ∈ resourceStreamAnalyticsJob_Schema →
  s_Default f = Some v →
  hasType (s_Type f) v = true
  ∧ ∃ vf, s_ValidateFunc f = Some vf ∧ validates vf v = true.
Proof.
  intros [Hint Hslice] Hin Hdefault. apply list_elem_of_In in Hin.
  unfold resourceStreamAnalyticsJob_Schema in Hin. simpl in Hin.
  repeat match type of Hin with
         | _ ∨ _ => destruct Hin as [Hin|Hin]
         end;
    try contradiction; try discriminate Hin;
    injection Hin as <- <-; simpl in Hdefault; try discriminate Hdefault;
    injection Hdefault as <-; (split; [reflexivity|]);
    eexists; (split; [reflexivity|]).
  - apply Hint. lia.
  - apply Hint. lia.
  - apply Hslice. apply elem_of_cons. by left.
  - apply Hslice. apply elem_of_cons. by left.
Qed.

(** The validator of the examples accepts what is listed. *)
Lemma Sample_validates_accepts_listed : accepts_listed Sample.validates.
Proof.
  split.
  - intros min max z [H1 H2]. unfold Sample.validates.
    apply andb_true_iff. split; by apply Z.leb_le.
  - intros valid [] s Hin; unfold Sample.validates; apply existsb_exists;
      exists s; (split; [by apply list_elem_of_In|]); apply String.eqb_refl.
Qed.

(** The validator of the examples keeps to the bounds. *)
Lemma Sample_validates_IntBetween_sound : IntBetween_sound Sample.validates.
Proof.
  intros min max z H. unfold Sample.validates in H.
  apply andb_true_iff in H as [H1%Z.leb_le H2%Z.leb_le]. lia.
Qed.

(** X4 at the late-arrival delay, whose default is 5. *)
Lemma schema_defaults_valid_witness :
  hasType TypeInt (VInt 5) = true
  ∧ ∃ vf, Some (IntBetween (-1) 1814399) = Some vf
          ∧ Sample.validates vf (VInt 5) = true.
Proof.
  apply (schema_defaults_valid Sample.validates
           "events_late_arrival_max_delay_in_seconds"
           (mkSchema TypeInt false true false false
              (Some (IntBetween (-1) 1814399)) (Some (VInt 5)) 0 [])
           (VInt 5)).
  - exact Sample_validates_accepts_listed.
  - unfold resourceStreamAnalyticsJob_Schema. apply list_elem_of_In. simpl.
    do 6 right. left. reflexivity.
  - reflexivity.
Defined.

(** ** The reconciler of the Stream Analytics job *)

(** Unfolds the monad operations and the logged primitives. *)
Ltac unfold_m :=
  unfold mbind, M_bind, mret, M_ret, bind, ret, fail, panic, lift, getData,
    getSubscriptionId, SetId, dSet, jobsGet, jobsCreateOrReplace,
    waitForCompletionRef, jobsUpdate, transformationsUpdate, jobsDelete in *.

Section ReconcilerProperties.

Context {C : Collaborators} {W Future : Type} {Api : ManagementApi W Future}.

(** *** Running a computation one statement at a time *)

Lemma bind_run {A B : Type} (m : M W A) (f : A → M W B) (s : St W) :
  (m ≫= f) s =
    match m s with
    | (Ok a, s1) => f a s1
    | (Err e, s1) => (Err e, s1)
    | (Panic p, s1) => (Panic p, s1)
    end.
Proof. reflexivity. Qed.

Lemma getSubscriptionId_run (s : St W) :
  getSubscriptionId s = (Ok (account_SubscriptionId s), s).
Proof. reflexivity. Qed.

Lemma getData_run (s : St W) : getData s = (Ok (rd s), s).
Proof. reflexivity. Qed.

Lemma jobsGet_run (resourceGroup name expand : string) (s : St W) :
  jobsGet resourceGroup name expand s =
    (Ok (Jobs_Get (remote s) resourceGroup name expand),
     log (CJobsGet resourceGroup name expand) s).
Proof. reflexivity. Qed.

Lemma lift_run {A : Type} (o : Outcome A) (s : St W) :
  (lift o : M W A) s = (o, s).
Proof. reflexivity. Qed.

Lemma ret_run {A : Type} (a : A) (s : St W) : (ret a : M W A) s = (Ok a, s).
Proof. reflexivity. Qed.

Lemma fail_run {A : Type} (e : error) (s : St W) :
  (fail e : M W A) s = (Err e, s).
Proof. reflexivity. Qed.

Lemma panic_run {A : Type} (p : PanicReason) (s : St W) :
  (panic p : M W A) s = (Panic p, s).
Proof. reflexivity. Qed.

Lemma dSet_run (k : string) (v : Value) (s : St W) :
  (∀ k v, set_err k v = None) →
  dSet k v s =
    (Ok None,
     setData (mkResourceData (rd_Id (rd s)) (rd_IsNewResource (rd s))
                (<[k := v]> (rd_attrs (rd s)))) s).
Proof. intros Hset. unfold dSet. by rewrite Hset. Qed.

(** A conditional write, run. *)
Lemma optSet_run {A : Type} (o : option A) (k : string) (g : A → Value)
    (s : St W) :
  (∀ k v, set_err k v = None) →
  (match o with
   | Some x => dSet k (g x)
   | None => ret None
   end) s =
    (Ok None,
     setData (mkResourceData (rd_Id (rd s)) (rd_IsNewResource (rd s))
                (setOpt k (g <$> o) (rd_attrs (rd s)))) s).
Proof.
  intros Hset. destruct o; simpl; [by apply dSet_run|].
  rewrite ret_run. by destruct s as [w c [i n a] sub].
Qed.

(** *** What a computation may issue *)

Lemma issues_nothing {A : Type} (P : Call → Prop) (m : M W A) :
  (∀ s r s', m s = (r, s') → calls s' = calls s ∧ remote s' = remote s) →
  issues P m.
Proof.
  intros H s r s' Hm. destruct (H _ _ _ Hm) as [Hc Hr].
  exists []. rewrite app_nil_r. auto.
Qed.

Lemma issues_ret {A : Type} P (a : A) : issues P (ret a : M W A).
Proof. apply issues_nothing. intros s r s' [= <- <-]. auto. Qed.

Lemma issues_fail {A : Type} P (e : error) : issues P (fail e : M W A).
Proof. apply issues_nothing. intros s r s' [= <- <-]. auto. Qed.

Lemma issues_panic {A : Type} P (p : PanicReason) : issues P (panic p : M W A).
Proof. apply issues_nothing. intros s r s' [= <- <-]. auto. Qed.

Lemma issues_lift {A : Type} P (o : Outcome A) : issues P (lift o : M W A).
Proof. apply issues_nothing. intros s r s' [= <- <-]. auto. Qed.

Lemma issues_getData P : issues P (getData : M W ResourceData).
Proof. apply issues_nothing. intros s r s' [= <- <-]. auto. Qed.

Lemma issues_getSubscriptionId P : issues P (getSubscriptionId : M W string).
Proof. apply issues_nothing. intros s r s' [= <- <-]. auto. Qed.

Lemma issues_SetId P (id : string) : issues P (SetId id : M W unit).
Proof. apply issues_nothing. intros s r s' [= <- <-]. auto. Qed.

Lemma issues_dSet P (k : string) (v : Value) :
  issues P (dSet k v : M W (option error)).
Proof.
  apply issues_nothing. intros s r s'. unfold dSet.
  destruct (set_err k v); intros [= <- <-]; auto.
Qed.

Lemma issues_bind {A B : Type} P (m : M W A) (f : A → M W B) :
  issues P m → (∀ a, issues P (f a)) → issues P (m ≫= f).
Proof.
  intros Hm Hf s r s'. unfold mbind, M_bind, bind.
  destruct (m s) as [[a|e|p] s1] eqn:Em.
  - intros Hfa.
    destruct (Hm _ _ _ Em) as (l1 & Hc1 & HP1 & Hr1).
    destruct (Hf a _ _ _ Hfa) as (l2 & Hc2 & HP2 & Hr2).
    exists (l1 ++ l2). rewrite Hc2, Hc1, app_assoc.
    split; [done|]. split; [by apply Forall_app|].
    intros [H1 H2]%Forall_app. rewrite Hr2, Hr1; auto.
  - intros [= <- <-]. eauto.
  - intros [= <- <-]. eauto.
Qed.


Lemma issues_call {A : Type} P (c : Call) (m : M W A) :
  P c →
  (∀ s r s', m s = (r, s') →
     calls s' = calls s ++ [c]
     ∧ (is_mutating c = false → remote s' = remote s)) →
  issues P m.
Proof.
  intros Hc H s r s' Hm. destruct (H _ _ _ Hm) as [Hl Hr].
  exists [c]. split; [done|]. split; [by constructor|].
  intros Hmut. apply Hr. by inversion Hmut.
Qed.

Lemma issues_jobsGet P (resourceGroup name expand : string) :
  P (CJobsGet resourceGroup name expand) →
  issues P (jobsGet resourceGroup name expand).
Proof.
  intros HP. apply (issues_call P _ _ HP).
  intros s r s' [= <- <-]. auto.
Qed.

Lemma issues_jobsCreateOrReplace P props (resourceGroup name : string) :
  P (CJobsCreateOrReplace props resourceGroup name) →
  issues P (jobsCreateOrReplace props resourceGroup name).
Proof.
  intros HP. apply (issues_call P _ _ HP).
  intros s r s'. unfold jobsCreateOrReplace.
  destruct (Jobs_CreateOrReplace _ _ _ _) as [x w].
  intros [= <- <-]. split; [done|]. discriminate.
Qed.

Lemma issues_waitForCompletionRef P (future : Future) :
  P CWaitForCompletionRef → issues P (waitForCompletionRef future).
Proof.
  intros HP. apply (issues_call P _ _ HP).
  intros s r s'. unfold waitForCompletionRef.
  destruct (Future_WaitForCompletionRef _ _) as [x w].
  intros [= <- <-]. split; [done|]. discriminate.
Qed.

Lemma issues_jobsUpdate P props (resourceGroup name : string) :
  P (CJobsUpdate props resourceGroup name) →
  issues P (jobsUpdate props resourceGroup name).
Proof.
  intros HP. apply (issues_call P _ _ HP).
  intros s r s'. unfold jobsUpdate.
  destruct (Jobs_Update _ _ _ _) as [x w].
  intros [= <- <-]. split; [done|]. discriminate.
Qed.

Lemma issues_transformationsUpdate P t (resourceGroup name tname : string) :
  P (CTransformationsUpdate t resourceGroup name tname) →
  issues P (transformationsUpdate t resourceGroup name tname).
Proof.
  intros HP. apply (issues_call P _ _ HP).
  intros s r s'. unfold transformationsUpdate.
  destruct (Transformations_Update _ _ _ _ _) as [x w].
  intros [= <- <-]. split; [done|]. discriminate.
Qed.

Lemma issues_jobsDelete P (resourceGroup name : string) :
  P (CJobsDelete resourceGroup name) →
  issues P (jobsDelete resourceGroup name).
Proof.
  intros HP. apply (issues_call P _ _ HP).
  intros s r s'. unfold jobsDelete.
  destruct (Jobs_Delete _ _ _) as [x w].
  intros [= <- <-]. split; [done|]. discriminate.
Qed.

Lemma issues_weaken {A : Type} (P Q : Call → Prop) (m : M W A) :
  (∀ c, P c → Q c) → issues P m → issues Q m.
Proof.
  intros HPQ Hm s r s' Hs. destruct (Hm _ _ _ Hs) as (l & Hc & HP & Hr).
  exists l. split; [done|]. split; [|done].
  eapply Forall_impl; eauto.
Qed.

(** Decomposes a goal [issues P m] along the structure of [m]. *)
Ltac issues_step :=
  first
    [ apply issues_bind; [|intros]
    | apply issues_ret | apply issues_fail | apply issues_panic
    | apply issues_lift | apply issues_getData | apply issues_getSubscriptionId
    | apply issues_SetId | apply issues_dSet
    | apply issues_jobsGet | apply issues_jobsCreateOrReplace
    | apply issues_waitForCompletionRef | apply issues_jobsUpdate
    | apply issues_transformationsUpdate | apply issues_jobsDelete
    | match goal with
      | |- issues _ (match ?x with _ => _ end) => destruct x
      | |- issues _ (let '(_, _) := ?x in _) => destruct x
      end ].

Ltac issues_solve := repeat issues_step; try done.

(** Read issues nothing but Gets. *)
Lemma Read_issues_gets :
  issues (λ c, is_mutating c = false) resourceStreamAnalyticsJobRead.
Proof.
  unfold resourceStreamAnalyticsJobRead, tags_FlattenAndSet.
  issues_solve.
Qed.

(** Read issues only calls that satisfy a predicate holding of every Get. *)
Lemma Read_issues (P : Call → Prop) :
  (∀ resourceGroup name expand, P (CJobsGet resourceGroup name expand)) →
  issues P resourceStreamAnalyticsJobRead.
Proof.
  intros HP. apply (issues_weaken (λ c, is_mutating c = false)); [|apply Read_issues_gets].
  intros [] Hc; try discriminate. apply HP.
Qed.

(** The statements of [resourceStreamAnalyticsJobCreateUpdate] after the
    probe issue calls only. *)
Ltac issues_all :=
  repeat first [ apply Read_issues; intros | issues_step ]; try done.

(** *** Read, Delete and import *)

(** C7: given an identifier string that the parser rejects, Read, Delete and
    import return the validation error and leave the state as it was, the call
    log included: no network call is made. *)
Theorem malformed_identifier_rejected (st : St W) (e : error) :
  parse_StreamingJobID (rd_Id (rd st)) = inl e →
  resourceStreamAnalyticsJobRead st = (Err e, st)
  ∧ resourceStreamAnalyticsJobDelete st = (Err e, st)
  ∧ importerIDValidation (rd_Id (rd st)) = Some e
  ∧ resourceStreamAnalyticsJob_Importer st =
      (Err (Errorf "parsing Resource ID %q: %+v" [AStr (rd_Id (rd st)); AErr e]),
       st).
Proof.
  intros Hparse.
  unfold resourceStreamAnalyticsJobRead, resourceStreamAnalyticsJobDelete,
    resourceStreamAnalyticsJob_Importer, ImporterValidatingResourceId,
    importerIDValidation.
  unfold_m. simpl. rewrite Hparse. simpl. auto.
Qed.

(** C3: when the Get of Read fails and the response is a not-found one, Read
    returns without error and clears the identifier (nothing else of the
    resource data changes, and the Get is the only call); when the Get fails
    in any other way, Read returns an error. *)
Theorem Read_not_found_clears_id (st : St W) (id : StreamingJobId)
    (resp : StreamingJob) (e : error) :
  parse_StreamingJobID (rd_Id (rd st)) = inr id →
  Jobs_Get (remote st) (ResourceGroup id) (Name id) "transformation"
    = (resp, Some e) →
  (ResponseWasNotFound (Response resp) = true →
     resourceStreamAnalyticsJobRead st =
       (Ok tt,
        mkSt (remote st)
          (calls st ++ [CJobsGet (ResourceGroup id) (Name id) "transformation"])
          (mkResourceData "" (rd_IsNewResource (rd st)) (rd_attrs (rd st)))
          (account_SubscriptionId st)))
  ∧ (ResponseWasNotFound (Response resp) = false →
       resourceStreamAnalyticsJobRead st =
         (Err (Errorf "retrieving %s: %+v" [AId id; AErr e]),
          log (CJobsGet (ResourceGroup id) (Name id) "transformation") st)).
Proof.
  intros Hparse Hget.
  unfold resourceStreamAnalyticsJobRead. unfold_m. simpl.
  rewrite Hparse. simpl. rewrite Hget.
  split; intros ->; reflexivity.
Qed.

Lemma lookup_setOpt_eq (k : string) (o : option Value) (m : gmap string Value) :
  setOpt k o m !! k = match o with Some v => Some v | None => m !! k end.
Proof. destruct o; simpl; [apply lookup_insert_eq|done]. Qed.

Lemma lookup_setOpt_ne (k k' : string) (o : option Value)
    (m : gmap string Value) :
  k ≠ k' → setOpt k o m !! k' = m !! k'.
Proof. intros Hne. destruct o; simpl; [by apply lookup_insert_ne|done]. Qed.

(** The writes for the transformation, run. *)
Lemma transformation_block_run (t : option Transformation) (s : St W) :
  (∀ k v, set_err k v = None) →
  (match t with
   | Some transformation =>
       match tr_TransformationProperties transformation with
       | None => panic NilDereference
       | Some tp =>
           _ ← match StreamingUnits tp with
               | Some units => dSet "streaming_units" (VInt units)
               | None => ret None
               end;
           dSet "transformation_query" (ptrString (Query tp))
       end
   | None => ret None
   end) s =
    (match t with
     | Some transformation =>
         match tr_TransformationProperties transformation with
         | None => Panic NilDereference
         | Some _ => Ok None
         end
     | None => Ok None
     end,
     setData (mkResourceData (rd_Id (rd s)) (rd_IsNewResource (rd s))
                (transformationWrites t (rd_attrs (rd s)))) s).
Proof.
  intros Hset. destruct s as [w c [i n a] sub].
  destruct t as [[tname [tp|]]|]; simpl; try reflexivity.
  rewrite bind_run, (optSet_run _ _ VInt _ Hset). cbv beta iota.
  cbn [rd rd_Id rd_IsNewResource rd_attrs setData log remote calls
       account_SubscriptionId].
  by rewrite (dSet_run _ _ _ Hset).
Qed.

(** The writes for the properties object, run. *)
Lemma properties_block_run (p : option StreamingJobProperties) (s : St W) :
  (∀ k v, set_err k v = None) →
  (match p with
   | Some props =>
       _ ← dSet "compatibility_level" (VString (CompatibilityLevel props));
       _ ← dSet "data_locale" (ptrString (DataLocale props));
       _ ← match EventsLateArrivalMaxDelayInSeconds props with
           | Some n => dSet "events_late_arrival_max_delay_in_seconds" (VInt n)
           | None => ret None
           end;
       _ ← match EventsOutOfOrderMaxDelayInSeconds props with
           | Some n => dSet "events_out_of_order_max_delay_in_seconds" (VInt n)
           | None => ret None
           end;
       _ ← match Cluster props with
           | Some cluster =>
               dSet "stream_analytics_cluster_id" (ptrString (ci_ID cluster))
           | None => ret None
           end;
       _ ← dSet "events_out_of_order_policy"
             (VString (EventsOutOfOrderPolicy props));
       _ ← dSet "output_error_policy" (VString (OutputErrorPolicy props));
       _ ← dSet "job_id" (ptrString (JobID props));
       match Transformation_ props with
       | Some transformation =>
           match tr_TransformationProperties transformation with
           | None => panic NilDereference
           | Some tp =>
               _ ← match StreamingUnits tp with
                   | Some units => dSet "streaming_units" (VInt units)
                   | None => ret None
                   end;
               dSet "transformation_query" (ptrString (Query tp))
           end
       | None => ret None
       end
   | None => ret None
   end) s =
    (match p with
     | Some props =>
         match Transformation_ props with
         | Some transformation =>
             match tr_TransformationProperties transformation with
             | None => Panic NilDereference
             | Some _ => Ok None
             end
         | None => Ok None
         end
     | None => Ok None
     end,
     setData (mkResourceData (rd_Id (rd s)) (rd_IsNewResource (rd s))
                (propertiesWrites p (rd_attrs (rd s)))) s).
Proof.
  intros Hset. destruct s as [w c [i n a] sub].
  destruct p as [props|]; simpl; [|reflexivity].
  rewrite bind_run, (dSet_run _ _ _ Hset). cbv beta iota. cbn [rd rd_Id rd_IsNewResource rd_attrs setData log remote calls
    account_SubscriptionId].
  rewrite bind_run, (dSet_run _ _ _ Hset). cbv beta iota. cbn [rd rd_Id rd_IsNewResource rd_attrs setData log remote calls
    account_SubscriptionId].
  rewrite bind_run, (optSet_run _ _ VInt _ Hset). cbv beta iota. cbn [rd rd_Id rd_IsNewResource rd_attrs setData log remote calls
    account_SubscriptionId].
  rewrite bind_run, (optSet_run _ _ VInt _ Hset). cbv beta iota. cbn [rd rd_Id rd_IsNewResource rd_attrs setData log remote calls
    account_SubscriptionId].
  rewrite bind_run,
    (optSet_run _ _ (λ cluster, ptrString (ci_ID cluster)) _ Hset).
  cbv beta iota. cbn [rd rd_Id rd_IsNewResource rd_attrs setData log remote calls
    account_SubscriptionId].
  rewrite bind_run, (dSet_run _ _ _ Hset). cbv beta iota. cbn [rd rd_Id rd_IsNewResource rd_attrs setData log remote calls
    account_SubscriptionId].
  rewrite bind_run, (dSet_run _ _ _ Hset). cbv beta iota. cbn [rd rd_Id rd_IsNewResource rd_attrs setData log remote calls
    account_SubscriptionId].
  rewrite bind_run, (dSet_run _ _ _ Hset). cbv beta iota. cbn [rd rd_Id rd_IsNewResource rd_attrs setData log remote calls
    account_SubscriptionId].
  rewrite (transformation_block_run _ _ Hset).
  reflexivity.
Qed.

(** Read on an answered Get, with every write accepted: the outcome and the
    resulting state in closed form. *)
Lemma Read_run (st : St W) (id : StreamingJobId) (resp : StreamingJob) :
  (∀ k v, set_err k v = None) →
  parse_StreamingJobID (rd_Id (rd st)) = inr id →
  Jobs_Get (remote st) (ResourceGroup id) (Name id) "transformation"
    = (resp, None) →
  resourceStreamAnalyticsJobRead st =
    (if nilTransformationProperties resp then Panic NilDereference else Ok tt,
     mkSt (remote st)
       (calls st ++ [CJobsGet (ResourceGroup id) (Name id) "transformation"])
       (mkResourceData (rd_Id (rd st)) (rd_IsNewResource (rd st))
          (if nilTransformationProperties resp
           then readWritesBeforeTags id resp (rd_attrs (rd st))
           else readWrites id resp (rd_attrs (rd st))))
       (account_SubscriptionId st)).
Proof.
  intros Hset Hparse Hget.
  unfold resourceStreamAnalyticsJobRead, tags_FlattenAndSet.
  rewrite bind_run, getData_run. cbv beta iota.
  rewrite Hparse.
  rewrite bind_run, jobsGet_run, Hget. cbv beta iota.
  destruct st as [w c [i n a] sub].
  unfold readWrites, readWritesBeforeTags, nilTransformationProperties. cbn [rd rd_Id rd_IsNewResource rd_attrs setData log remote calls
    account_SubscriptionId].
  rewrite bind_run, (dSet_run _ _ _ Hset). cbv beta iota. cbn [rd rd_Id rd_IsNewResource rd_attrs setData log remote calls
    account_SubscriptionId].
  rewrite bind_run, (dSet_run _ _ _ Hset). cbv beta iota. cbn [rd rd_Id rd_IsNewResource rd_attrs setData log remote calls
    account_SubscriptionId].
  rewrite bind_run,
    (optSet_run _ _ (λ l, VString (azure_NormalizeLocation l)) _ Hset).
  cbv beta iota. cbn [rd rd_Id rd_IsNewResource rd_attrs setData log remote calls
    account_SubscriptionId].
  rewrite bind_run, (dSet_run _ _ _ Hset). cbv beta iota. cbn [rd rd_Id rd_IsNewResource rd_attrs setData log remote calls
    account_SubscriptionId].
  rewrite bind_run, (properties_block_run _ _ Hset). cbn [rd rd_Id rd_IsNewResource rd_attrs setData log remote calls
    account_SubscriptionId].
  destruct (job_StreamingJobProperties resp) as [props|]; cbv beta iota.
  - destruct (Transformation_ props) as [[tname [tp|]]|]; cbv beta iota;
      cbn [tr_TransformationProperties]; try reflexivity;
      rewrite bind_run, (dSet_run _ _ _ Hset); reflexivity.
  - rewrite bind_run, (dSet_run _ _ _ Hset). reflexivity.
Qed.

(** C5, as the code has it: a successful Read (every write accepted) keeps the
    identifier; takes name and resource_group_name from the parsed identifier;
    always writes identity and tags from the response; writes location, the
    two delays and streaming_units only when the response has them, keeping
    the previous value otherwise; writes compatibility_level, data_locale,
    the two policies and job_id whenever the properties object is there, a
    nil pointer being written as nil; writes stream_analytics_cluster_id
    whenever the cluster object is there and transformation_query whenever
    the transformation is there; writes none of the property attributes when
    the properties object is missing; and touches no other attribute. *)
Theorem Read_populates_state (st st' : St W) (id : StreamingJobId)
    (resp : StreamingJob) :
  (∀ k v, set_err k v = None) →
  parse_StreamingJobID (rd_Id (rd st)) = inr id →
  Jobs_Get (remote st) (ResourceGroup id) (Name id) "transformation"
    = (resp, None) →
  resourceStreamAnalyticsJobRead st = (Ok tt, st') →
  let a := rd_attrs (rd st) in
  let a' := rd_attrs (rd st') in
  rd_Id (rd st') = rd_Id (rd st)
  ∧ a' !! "name" = Some (VString (Name id))
  ∧ a' !! "resource_group_name" = Some (VString (ResourceGroup id))
  ∧ a' !! "location" =
      match job_Location resp with
      | Some l => Some (VString (azure_NormalizeLocation l))
      | None => a !! "location"
      end
  ∧ a' !! "identity" =
      Some (sliceValue (flattenStreamAnalyticsJobIdentity (job_Identity resp)))
  ∧ a' !! "tags" = Some (VMap (tags_Flatten (job_Tags resp)))
  ∧ match job_StreamingJobProperties resp with
    | None => Forall (λ k, a' !! k = a !! k) propertyFields
    | Some props =>
        a' !! "compatibility_level" = Some (VString (CompatibilityLevel props))
        ∧ a' !! "data_locale" = Some (ptrString (DataLocale props))
        ∧ a' !! "events_late_arrival_max_delay_in_seconds" =
            match EventsLateArrivalMaxDelayInSeconds props with
            | Some n => Some (VInt n)
            | None => a !! "events_late_arrival_max_delay_in_seconds"
            end
        ∧ a' !! "events_out_of_order_max_delay_in_seconds" =
            match EventsOutOfOrderMaxDelayInSeconds props with
            | Some n => Some (VInt n)
            | None => a !! "events_out_of_order_max_delay_in_seconds"
            end
        ∧ a' !! "stream_analytics_cluster_id" =
            match Cluster props with
            | Some cluster => Some (ptrString (ci_ID cluster))
            | None => a !! "stream_analytics_cluster_id"
            end
        ∧ a' !! "events_out_of_order_policy" =
            Some (VString (EventsOutOfOrderPolicy props))
        ∧ a' !! "output_error_policy" = Some (VString (OutputErrorPolicy props))
        ∧ a' !! "job_id" = Some (ptrString (JobID props))
        ∧ match Transformation_ props with
          | None =>
              a' !! "streaming_units" = a !! "streaming_units"
              ∧ a' !! "transformation_query" = a !! "transformation_query"
          | Some transformation =>
              ∃ tp, tr_TransformationProperties transformation = Some tp
                    ∧ a' !! "streaming_units" =
                        match StreamingUnits tp with
                        | Some units => Some (VInt units)
                        | None => a !! "streaming_units"
                        end
                    ∧ a' !! "transformation_query" = Some (ptrString (Query tp))
          end
    end
  ∧ ∀ k, k ∉ readFields → a' !! k = a !! k.
Proof.
  intros Hset Hparse Hget Hrun a a'.
  rewrite (Read_run _ _ _ Hset Hparse Hget) in Hrun.
  assert (Hframe : ∀ k, k ∉ readFields → Forall (λ f, f ≠ k) readFields).
  { intros k Hk. apply Forall_forall. intros f Hf ->. done. }
  destruct (nilTransformationProperties resp) eqn:Hnil; [discriminate Hrun|].
  injection Hrun as <-. subst a a'.
  cbn [rd rd_attrs rd_Id]. generalize (rd_attrs (rd st)). intros a.
  split; [done|].
  unfold nilTransformationProperties in Hnil.
  unfold readWrites, readWritesBeforeTags.
  destruct (job_StreamingJobProperties resp) as [props|];
    [destruct (Transformation_ props) as [t|] eqn:Ht;
     [destruct (tr_TransformationProperties t) as [tp|] eqn:Htp;
      [|discriminate Hnil]|]|];
    unfold propertiesWrites, transformationWrites;
    rewrite ?Ht, ?Htp.
  all: unfold propertyFields.
  all: repeat match goal with
              | |- _ ∧ _ => split
              | |- ∃ _, _ => eexists
              | |- Forall _ (_ :: _) => apply Forall_cons
              | |- Forall _ [] => apply Forall_nil
              end.
  all: try match goal with
           | |- tr_TransformationProperties _ = Some _ => exact Htp
           end.
  all: try match goal with
           | |- ∀ k, k ∉ readFields → _ =>
               intros k Hk%Hframe; unfold readFields, propertyFields in Hk;
               simpl in Hk;
               repeat match goal with
                      | H : Forall _ (_ :: _) |- _ =>
                          apply Forall_cons in H; destruct H
                      end;
               repeat first [ rewrite lookup_insert_ne by done
                            | rewrite lookup_setOpt_ne by done ];
               done
           end.
  all: repeat first [ rewrite lookup_insert_eq
                    | rewrite lookup_setOpt_eq
                    | rewrite lookup_insert_ne by discriminate
                    | rewrite lookup_setOpt_ne by discriminate ].
  all: try done.
  all: match goal with
       | |- context [fmap _ ?o] => by destruct o
       end.
Qed.

(** Delete wraps the error of the delete call and the error of waiting for
    its completion with the identifier and the operation, and issues nothing
    after a failed call. *)
Lemma Delete_wraps_api_errors (st : St W) (id : StreamingJobId) :
  parse_StreamingJobID (rd_Id (rd st)) = inr id →
  let c := CJobsDelete (ResourceGroup id) (Name id) in
  match Jobs_Delete (remote st) (ResourceGroup id) (Name id) with
  | ((_, Some e), w) =>
      resourceStreamAnalyticsJobDelete st =
        (Err (Errorf "deleting %s: %+v" [AId id; AErr e]),
         setRemote w (log c st))
  | ((future, None), w) =>
      match Future_WaitForCompletionRef w future with
      | (Some e, w') =>
          resourceStreamAnalyticsJobDelete st =
            (Err (Errorf "waiting for deletion of %s: %+v" [AId id; AErr e]),
             setRemote w' (log CWaitForCompletionRef (setRemote w (log c st))))
      | (None, w') =>
          resourceStreamAnalyticsJobDelete st =
            (Ok tt,
             setRemote w' (log CWaitForCompletionRef (setRemote w (log c st))))
      end
  end.
Proof.
  intros Hparse c. unfold resourceStreamAnalyticsJobDelete.
  rewrite bind_run, getData_run. cbv beta iota. rewrite Hparse.
  rewrite bind_run. unfold jobsDelete. cbv beta.
  destruct (Jobs_Delete _ _ _) as [[future [e|]] w]; cbv beta iota; [done|].
  rewrite bind_run. unfold waitForCompletionRef. cbv beta. simpl.
  destruct (Future_WaitForCompletionRef w future) as [[e|] w']; done.
Qed.

(** *** Create-or-Update *)

(** On a new resource the probe is one Get against the candidate identifier
    and nothing else. *)
Lemma probeExisting_new (d : ResourceData) (id : StreamingJobId) (s : St W) :
  rd_IsNewResource d = true →
  probeExisting d id s =
    (probeOutcome id (Jobs_Get (remote s) (ResourceGroup id) (Name id) ""),
     log (CJobsGet (ResourceGroup id) (Name id) "") s).
Proof.
  intros Hnew. unfold probeExisting, probeOutcome. rewrite Hnew.
  rewrite bind_run, jobsGet_run.
  destruct (Jobs_Get _ _ _ _) as [existing [err|]]; simpl.
  - unfold_m. simpl. destruct (ResponseWasNotFound _); simpl; [|done].
    destruct (job_ID existing) as [i|]; [|done].
    by destruct (String.eqb i "").
  - unfold_m. simpl. destruct (job_ID existing) as [i|]; [|done].
    by destruct (String.eqb i "").
Qed.

(** On an existing resource there is no probe. *)
Lemma probeExisting_existing (d : ResourceData) (id : StreamingJobId) (s : St W) :
  rd_IsNewResource d = false → probeExisting d id s = (Ok tt, s).
Proof. intros Hnew. unfold probeExisting. by rewrite Hnew. Qed.

(** The job properties that Create-or-Update sends do not carry a
    transformation until one is attached. *)
Lemma buildProps_no_transformation (d : ResourceData) (id : StreamingJobId)
    (i : option Identity) :
  ∃ p, job_StreamingJobProperties (withIdentity (buildProps d id) i) = Some p
       ∧ job_StreamingJobProperties (buildProps d id) = Some p
       ∧ Transformation_ p = None.
Proof. eexists. repeat split. Qed.


(** The [d.GetOk("identity")] block computes the payload and touches nothing. *)
Lemma payload_run (d : ResourceData) (id : StreamingJobId) (s : St W) :
  (let '(identity, ok) := getOkList d "identity" in
   if ok then
     i ← lift (expandStreamAnalyticsJobIdentity identity);
     ret (withIdentity (buildProps d id) i)
   else ret (buildProps d id) : M W StreamingJob) s
  = (payloadOutcome d id, s).
Proof.
  unfold payloadOutcome.
  destruct (getOkList d "identity") as [identity [|]]; [|reflexivity].
  rewrite bind_run, lift_run.
  by destruct (expandStreamAnalyticsJobIdentity identity).
Qed.

(** A payload that was built carries the properties object of the
    configuration, without a transformation. *)
Lemma payloadOutcome_Ok (d : ResourceData) (id : StreamingJobId)
    (props : StreamingJob) :
  payloadOutcome d id = Ok props →
  job_StreamingJobProperties props = job_StreamingJobProperties (buildProps d id)
  ∧ ∃ p, job_StreamingJobProperties props = Some p ∧ Transformation_ p = None.
Proof.
  unfold payloadOutcome.
  destruct (getOkList d "identity") as [identity [|]].
  - destruct (expandStreamAnalyticsJobIdentity identity); intros [= <-].
    split; [reflexivity|]. eexists. split; reflexivity.
  - intros [= <-]. split; [reflexivity|]. eexists. split; reflexivity.
Qed.

(** Building the payload returns a payload or panics. *)
Lemma payloadOutcome_not_Err (d : ResourceData) (id : StreamingJobId)
    (e : error) : payloadOutcome d id ≠ Err e.
Proof.
  unfold payloadOutcome.
  destruct (getOkList d "identity") as [identity [|]]; [|done].
  by destruct (expandStreamAnalyticsJobIdentity_outcome identity)
    as [[i ->]|[p ->]].
Qed.

(** Create-or-Update with an existing identifier, statement by statement,
    from the answers of the API: the parent update, the Get that reads the
    job back, the update of the transformation under the name read back,
    and the final Read. *)
Lemma CreateUpdate_existing_run (st : St W) (props : StreamingJob) :
  rd_IsNewResource (rd st) = false →
  let resourceGroup := getString (rd st) "resource_group_name" in
  let name := getString (rd st) "name" in
  let id := NewStreamingJobID (account_SubscriptionId st) resourceGroup name in
  let transformation := buildTransformation (rd st) in
  payloadOutcome (rd st) id = Ok props →
  let after l w := mkSt w (calls st ++ l) (rd st) (account_SubscriptionId st) in
  let update := CJobsUpdate props resourceGroup name in
  let get := CJobsGet resourceGroup name "transformation" in
  resourceStreamAnalyticsJobCreateUpdate st =
    match Jobs_Update (remote st) props resourceGroup name with
    | ((_, Some e), w) =>
        (Err (Errorf "updating %s: %+v" [AId id; AErr e]), after [update] w)
    | ((_, None), w) =>
        match Jobs_Get w resourceGroup name "transformation" with
        | (_, Some e) => (Err e, after [update; get] w)
        | (job, None) =>
            match job_StreamingJobProperties job with
            | None => (Panic NilDereference, after [update; get] w)
            | Some jobProps =>
                match Transformation_ jobProps with
                | None =>
                    resourceStreamAnalyticsJobRead (after [update; get] w)
                | Some readTransformation =>
                    match tr_Name readTransformation with
                    | None => (Panic NilDereference, after [update; get] w)
                    | Some readName =>
                        let tupdate :=
                          CTransformationsUpdate transformation resourceGroup
                            name readName in
                        match Transformations_Update w transformation
                                resourceGroup name readName with
                        | ((_, Some e), w2) =>
                            (Err (Errorf "updating transformation for %s: %+v"
                                    [AId id; AErr e]),
                             after [update; get; tupdate] w2)
                        | ((_, None), w2) =>
                            resourceStreamAnalyticsJobRead
                              (after [update; get; tupdate] w2)
                        end
                    end
                end
            end
        end
    end.
Proof.
  intros Hnew resourceGroup name id transformation Hpayload after update get.
  unfold resourceStreamAnalyticsJobCreateUpdate.
  rewrite bind_run, getSubscriptionId_run. cbv beta iota.
  rewrite bind_run, getData_run. cbv beta iota zeta.
  rewrite bind_run, (probeExisting_existing _ _ _ Hnew). cbv beta iota.
  fold resourceGroup name. fold id. fold transformation.
  rewrite Hnew. rewrite bind_run, payload_run, Hpayload. cbv beta iota.
  rewrite bind_run, bind_run. unfold jobsUpdate. cbv beta.
  cbn [ResourceGroup Name id]. fold update.
  destruct (Jobs_Update (remote st) props resourceGroup name)
    as [[updated [e|]] w]; cbv beta iota.
  { rewrite fail_run. reflexivity. }
  rewrite bind_run, jobsGet_run.
  replace (remote (setRemote w (log update st))) with w by reflexivity.
  fold get.
  assert (Hs : log get (setRemote w (log update st)) = after [update; get] w).
  { unfold log, setRemote, after. simpl. by rewrite <- app_assoc. }
  rewrite Hs.
  destruct (Jobs_Get w resourceGroup name "transformation") as [job [e|]];
    cbv beta iota.
  { by rewrite fail_run. }
  destruct (job_StreamingJobProperties job) as [jobProps|];
    [|by rewrite panic_run].
  destruct (Transformation_ jobProps) as [t|]; [|by rewrite ret_run].
  destruct (tr_Name t) as [tname|]; [|by rewrite panic_run].
  rewrite bind_run. unfold transformationsUpdate. cbv beta.
  replace (remote (after [update; get] w)) with w by reflexivity.
  destruct (Transformations_Update w transformation resourceGroup name tname)
    as [[tr [e|]] w2]; cbv beta iota zeta.
  - rewrite fail_run. unfold after, log, setRemote. simpl.
    by rewrite <- !app_assoc.
  - rewrite ret_run. cbv beta iota. f_equal.
    unfold after, log, setRemote. simpl. by rewrite <- !app_assoc.
Qed.


(** Create on a new resource whose probe found nothing, statement by
    statement, from the answers of the API: the create call, the wait for
    its completion, the identifier and the final Read. *)
Lemma CreateUpdate_new_run (st : St W) (props0 props : StreamingJob) :
  rd_IsNewResource (rd st) = true →
  let resourceGroup := getString (rd st) "resource_group_name" in
  let name := getString (rd st) "name" in
  let id := NewStreamingJobID (account_SubscriptionId st) resourceGroup name in
  probeOutcome id (Jobs_Get (remote st) resourceGroup name "") = Ok tt →
  payloadOutcome (rd st) id = Ok props0 →
  withTransformation props0 (buildTransformation (rd st)) = Ok props →
  let probe := CJobsGet resourceGroup name "" in
  let create := CJobsCreateOrReplace props resourceGroup name in
  let after l w := mkSt w (calls st ++ l) (rd st) (account_SubscriptionId st) in
  resourceStreamAnalyticsJobCreateUpdate st =
    match Jobs_CreateOrReplace (remote st) props resourceGroup name with
    | ((_, Some e), w) =>
        (Err (Errorf "creating %s: %+v" [AId id; AErr e]),
         after [probe; create] w)
    | ((future, None), w) =>
        match Future_WaitForCompletionRef w future with
        | (Some e, w') =>
            (Err (Errorf "waiting for creation of %s: %+v" [AId id; AErr e]),
             after [probe; create; CWaitForCompletionRef] w')
        | (None, w') =>
            resourceStreamAnalyticsJobRead
              (mkSt w' (calls st ++ [probe; create; CWaitForCompletionRef])
                 (mkResourceData (id_ID id) true (rd_attrs (rd st)))
                 (account_SubscriptionId st))
        end
    end.
Proof.
  intros Hnew resourceGroup name id Hprobe Hpayload Hprops probe create after.
  unfold resourceStreamAnalyticsJobCreateUpdate.
  rewrite bind_run, getSubscriptionId_run. cbv beta iota.
  rewrite bind_run, getData_run. cbv beta iota zeta.
  rewrite bind_run, (probeExisting_new _ _ _ Hnew).
  cbn [ResourceGroup Name]. fold resourceGroup name. fold id.
  rewrite Hprobe. cbv beta iota.
  rewrite Hnew. rewrite bind_run, payload_run, Hpayload. cbv beta iota.
  rewrite bind_run, bind_run, lift_run, Hprops. cbv beta iota.
  rewrite bind_run. unfold jobsCreateOrReplace. cbv beta.
  cbn [ResourceGroup Name id remote log]. fold probe create.
  destruct (Jobs_CreateOrReplace _ _ _ _) as [[future [e|]] w];
    cbv beta iota.
  { rewrite fail_run. unfold after, setRemote, log. simpl.
    by rewrite <- !app_assoc. }
  rewrite bind_run. unfold waitForCompletionRef. cbv beta.
  cbn [remote setRemote].
  destruct (Future_WaitForCompletionRef w future) as [[e|] w'];
    cbv beta iota.
  { rewrite fail_run. unfold after, setRemote, log. simpl.
    by rewrite <- !app_assoc. }
  unfold SetId. cbv beta iota.
  cbn [rd setRemote log setData calls account_SubscriptionId remote].
  rewrite Hnew. f_equal. unfold setData, setRemote, log. simpl.
  by rewrite <- !app_assoc.
Qed.

(** On a new resource whose probe found nothing, a payload that cannot be
    built panics right after the probe. *)
Lemma CreateUpdate_new_panic (st : St W) (p : PanicReason) :
  rd_IsNewResource (rd st) = true →
  let resourceGroup := getString (rd st) "resource_group_name" in
  let name := getString (rd st) "name" in
  let id := NewStreamingJobID (account_SubscriptionId st) resourceGroup name in
  probeOutcome id (Jobs_Get (remote st) resourceGroup name "") = Ok tt →
  payloadOutcome (rd st) id = Panic p →
  resourceStreamAnalyticsJobCreateUpdate st =
    (Panic p, log (CJobsGet resourceGroup name "") st).
Proof.
  intros Hnew resourceGroup name id Hprobe Hpayload.
  unfold resourceStreamAnalyticsJobCreateUpdate.
  rewrite bind_run, getSubscriptionId_run. cbv beta iota.
  rewrite bind_run, getData_run. cbv beta iota zeta.
  rewrite bind_run, (probeExisting_new _ _ _ Hnew).
  cbn [ResourceGroup Name]. fold resourceGroup name. fold id.
  rewrite Hprobe. cbv beta iota.
  rewrite bind_run, payload_run, Hpayload. reflexivity.
Qed.

(** The transformation can always be attached to a payload that was built. *)
Lemma withTransformation_payload (d : ResourceData) (id : StreamingJobId)
    (props0 : StreamingJob) (t : Transformation) :
  payloadOutcome d id = Ok props0 →
  ∃ props, withTransformation props0 t = Ok props.
Proof.
  intros (_ & p & Hp & _)%payloadOutcome_Ok.
  unfold withTransformation. rewrite Hp. eauto.
Qed.

(** C1: on a new resource, Create first issues the existence probe, a Get
    against the candidate identifier, before any other call; and when the
    probe finds a resource (the Get answers, or fails as not found, with a
    non-empty ID), Create returns the already-exists error, the probe is the
    only call of the invocation, and the remote state and the resource data
    are unchanged. *)
Theorem Create_probes_first (st : St W) (r : Outcome unit) (st' : St W) :
  rd_IsNewResource (rd st) = true →
  resourceStreamAnalyticsJobCreateUpdate st = (r, st') →
  let resourceGroup := getString (rd st) "resource_group_name" in
  let name := getString (rd st) "name" in
  let probe := CJobsGet resourceGroup name "" in
  (∃ rest, calls st' = calls st ++ probe :: rest)
  ∧ ∀ existing err existingID,
      Jobs_Get (remote st) resourceGroup name "" = (existing, err) →
      err = None ∨ ResponseWasNotFound (Response existing) = true →
      job_ID existing = Some existingID →
      existingID ≠ "" →
      r = Err (ImportAsExistsError "azurerm_stream_analytics_job" existingID)
      ∧ calls st' = calls st ++ [probe]
      ∧ Forall (λ c, is_mutating c = false) [probe]
      ∧ remote st' = remote st
      ∧ rd st' = rd st.
Proof.
  intros Hnew Hrun resourceGroup name probe.
  unfold resourceStreamAnalyticsJobCreateUpdate in Hrun.
  rewrite bind_run, getSubscriptionId_run in Hrun. cbv beta iota in Hrun.
  rewrite bind_run, getData_run in Hrun. cbv beta iota zeta in Hrun.
  rewrite bind_run, (probeExisting_new _ _ _ Hnew) in Hrun.
  cbn [ResourceGroup Name] in Hrun.
  fold resourceGroup name in Hrun. fold probe in Hrun.
  split.
  - destruct (probeOutcome _ _) as [[]|e|p].
    + match type of Hrun with
      | ?k _ = _ => assert (Hk : issues (λ _, True) k)
      end.
      { rewrite Hnew. issues_all. }
      destruct (Hk _ _ _ Hrun) as (l & Hl & _).
      exists l. rewrite Hl. simpl. by rewrite <- app_assoc.
    + injection Hrun as <- <-. by exists [].
    + injection Hrun as <- <-. by exists [].
  - intros existing err existingID Hget Herr Hid Hne.
    rewrite Hget in Hrun. unfold probeOutcome in Hrun. simpl in Hrun.
    rewrite Hid in Hrun.
    assert (Heqb : String.eqb existingID "" = false)
      by (by apply String.eqb_neq).
    rewrite Heqb in Hrun. simpl in Hrun.
    destruct Herr as [-> | Hnf].
    + injection Hrun as <- <-. repeat split; auto.
    + rewrite Hnf in Hrun. simpl in Hrun.
      destruct err; injection Hrun as <- <-; repeat split; auto.
Qed.



(** Create wraps the error of the create call and the error of waiting for
    its completion with the identifier and the operation, and issues nothing
    after a failed call. (No identity block is configured here.) *)
Lemma Create_wraps_api_errors (st : St W) (props : StreamingJob) :
  rd_IsNewResource (rd st) = true →
  getList (rd st) "identity" = [] →
  let resourceGroup := getString (rd st) "resource_group_name" in
  let name := getString (rd st) "name" in
  let id := NewStreamingJobID (account_SubscriptionId st) resourceGroup name in
  probeOutcome id (Jobs_Get (remote st) resourceGroup name "") = Ok tt →
  withTransformation (buildProps (rd st) id) (buildTransformation (rd st))
    = Ok props →
  let s1 := log (CJobsCreateOrReplace props resourceGroup name)
              (log (CJobsGet resourceGroup name "") st) in
  match Jobs_CreateOrReplace (remote st) props resourceGroup name with
  | ((_, Some e), w) =>
      resourceStreamAnalyticsJobCreateUpdate st =
        (Err (Errorf "creating %s: %+v" [AId id; AErr e]), setRemote w s1)
  | ((future, None), w) =>
      match Future_WaitForCompletionRef w future with
      | (Some e, w') =>
          resourceStreamAnalyticsJobCreateUpdate st =
            (Err (Errorf "waiting for creation of %s: %+v" [AId id; AErr e]),
             setRemote w' (log CWaitForCompletionRef (setRemote w s1)))
      | (None, w') =>
          resourceStreamAnalyticsJobCreateUpdate st =
            resourceStreamAnalyticsJobRead
              (setData (mkResourceData (id_ID id) true (rd_attrs (rd st)))
                 (setRemote w' (log CWaitForCompletionRef (setRemote w s1))))
      end
  end.
Proof.
  intros Hnew Hid resourceGroup name id Hprobe Hprops s1.
  unfold resourceStreamAnalyticsJobCreateUpdate.
  rewrite bind_run, getSubscriptionId_run. cbv beta iota.
  rewrite bind_run, getData_run. cbv beta iota zeta.
  rewrite bind_run, (probeExisting_new _ _ _ Hnew).
  cbn [ResourceGroup Name]. fold resourceGroup name. fold id.
  rewrite Hprobe. cbv beta iota.
  rewrite Hnew. unfold getOkList. rewrite Hid.
  rewrite bind_run, ret_run. cbv beta iota.
  rewrite bind_run, bind_run, lift_run, Hprops. cbv beta iota.
  rewrite bind_run. unfold jobsCreateOrReplace. cbv beta.
  cbn [ResourceGroup Name id remote log].
  destruct (Jobs_CreateOrReplace _ _ _ _) as [[future [e|]] w];
    cbv beta iota; [done|].
  rewrite bind_run. unfold waitForCompletionRef. cbv beta.
  cbn [remote setRemote].
  destruct (Future_WaitForCompletionRef w future) as [[e|] w'];
    cbv beta iota; [done|].
  unfold SetId. cbv beta iota. subst s1.
  cbn [rd setRemote log]. rewrite Hnew. reflexivity.
Qed.

(** The update of the transformation wraps its error with the identifier and
    the operation. (No identity block is configured here.) *)
Lemma Update_transformation_error_wrapped (st : St W)
    (updated job : StreamingJob) (w : W) (jobProps : StreamingJobProperties)
    (t : Transformation) (tname : string) :
  rd_IsNewResource (rd st) = false →
  getList (rd st) "identity" = [] →
  let resourceGroup := getString (rd st) "resource_group_name" in
  let name := getString (rd st) "name" in
  let id := NewStreamingJobID (account_SubscriptionId st) resourceGroup name in
  let props := buildProps (rd st) id in
  let transformation := buildTransformation (rd st) in
  Jobs_Update (remote st) props resourceGroup name = ((updated, None), w) →
  Jobs_Get w resourceGroup name "transformation" = (job, None) →
  job_StreamingJobProperties job = Some jobProps →
  Transformation_ jobProps = Some t →
  tr_Name t = Some tname →
  ∀ e, snd (fst (Transformations_Update w transformation resourceGroup name
                   tname)) = Some e →
       fst (resourceStreamAnalyticsJobCreateUpdate st) =
         Err (Errorf "updating transformation for %s: %+v" [AId id; AErr e]).
Proof.
  intros Hnew Hid resourceGroup name id props transformation Hupd Hget Hjp
    Ht Hn e He.
  unfold resourceStreamAnalyticsJobCreateUpdate.
  rewrite bind_run, getSubscriptionId_run. cbv beta iota.
  rewrite bind_run, getData_run. cbv beta iota zeta.
  rewrite bind_run, (probeExisting_existing _ _ _ Hnew). cbv beta iota.
  fold resourceGroup name. fold id. fold props. fold transformation.
  rewrite Hnew. unfold getOkList. rewrite Hid.
  rewrite bind_run, ret_run. cbv beta iota.
  rewrite bind_run, bind_run. unfold jobsUpdate. cbv beta.
  cbn [ResourceGroup Name id]. rewrite Hupd. cbv beta iota.
  rewrite bind_run, jobsGet_run.
  replace (remote (setRemote w (log (CJobsUpdate props resourceGroup name) st)))
    with w by reflexivity.
  rewrite Hget. cbv beta iota. rewrite Hjp, Ht, Hn.
  rewrite bind_run. unfold transformationsUpdate. cbv beta.
  cbn [remote log setRemote].
  destruct (Transformations_Update w transformation resourceGroup name tname)
    as [[tr terr] w2].
  simpl in He. subst terr. reflexivity.
Qed.

(** C6 at the one place where it fails: on the update path, when the parent
    update succeeded and the Get that reads the job back fails, the error of
    the API is returned to the caller as it is, without the identifier and
    the operation around it. (No identity block is configured here.) *)
Theorem Update_readback_error_unwrapped (st : St W) (updated job : StreamingJob)
    (w : W) (e : error) :
  rd_IsNewResource (rd st) = false →
  getList (rd st) "identity" = [] →
  let resourceGroup := getString (rd st) "resource_group_name" in
  let name := getString (rd st) "name" in
  let id := NewStreamingJobID (account_SubscriptionId st) resourceGroup name in
  let props := buildProps (rd st) id in
  Jobs_Update (remote st) props resourceGroup name = ((updated, None), w) →
  Jobs_Get w resourceGroup name "transformation" = (job, Some e) →
  resourceStreamAnalyticsJobCreateUpdate st =
    (Err e,
     mkSt w
       (calls st ++ [CJobsUpdate props resourceGroup name;
                     CJobsGet resourceGroup name "transformation"])
       (rd st) (account_SubscriptionId st)).
Proof.
  intros Hnew Hid resourceGroup name id props Hupd Hget.
  unfold resourceStreamAnalyticsJobCreateUpdate.
  rewrite bind_run, getSubscriptionId_run. cbv beta iota.
  rewrite bind_run, getData_run. cbv beta iota zeta.
  rewrite bind_run, (probeExisting_existing _ _ _ Hnew). cbv beta iota.
  fold resourceGroup name. fold id. fold props.
  rewrite Hnew. unfold getOkList. rewrite Hid.
  rewrite bind_run, ret_run. cbv beta iota.
  rewrite bind_run, bind_run. unfold jobsUpdate. cbv beta.
  cbn [ResourceGroup Name id]. rewrite Hupd. cbv beta iota.
  rewrite bind_run, jobsGet_run.
  replace (remote (setRemote w (log (CJobsUpdate props resourceGroup name) st)))
    with w by reflexivity.
  rewrite Hget. cbv beta iota. rewrite fail_run.
  unfold log, setRemote. simpl. by rewrite <- app_assoc.
Qed.

(** *** What a computation may write *)

Lemma writes_within_data {A : Type} K (m : M W A) :
  (∀ s r s', m s = (r, s') →
     rd_IsNewResource (rd s') = rd_IsNewResource (rd s)
     ∧ rd_attrs (rd s') = rd_attrs (rd s)
     ∧ account_SubscriptionId s' = account_SubscriptionId s) →
  writes_within K m.
Proof.
  intros H s r s' Hm. destruct (H _ _ _ Hm) as (Hn & Ha & Hs).
  rewrite Ha. auto.
Qed.

Lemma writes_within_ret {A : Type} K (a : A) : writes_within K (ret a : M W A).
Proof. apply writes_within_data. intros s r s' [= <- <-]. auto. Qed.

Lemma writes_within_fail {A : Type} K (e : error) :
  writes_within K (fail e : M W A).
Proof. apply writes_within_data. intros s r s' [= <- <-]. auto. Qed.

Lemma writes_within_panic {A : Type} K (p : PanicReason) :
  writes_within K (panic p : M W A).
Proof. apply writes_within_data. intros s r s' [= <- <-]. auto. Qed.

Lemma writes_within_lift {A : Type} K (o : Outcome A) :
  writes_within K (lift o : M W A).
Proof. apply writes_within_data. intros s r s' [= <- <-]. auto. Qed.

Lemma writes_within_getData K : writes_within K (getData : M W ResourceData).
Proof. apply writes_within_data. intros s r s' [= <- <-]. auto. Qed.

Lemma writes_within_getSubscriptionId K :
  writes_within K (getSubscriptionId : M W string).
Proof. apply writes_within_data. intros s r s' [= <- <-]. auto. Qed.

Lemma writes_within_SetId K (id : string) :
  writes_within K (SetId id : M W unit).
Proof. apply writes_within_data. intros s r s' [= <- <-]. auto. Qed.

Lemma writes_within_jobsGet K (resourceGroup name expand : string) :
  writes_within K (jobsGet resourceGroup name expand).
Proof. apply writes_within_data. intros s r s' [= <- <-]. auto. Qed.

Lemma writes_within_jobsCreateOrReplace K props (resourceGroup name : string) :
  writes_within K (jobsCreateOrReplace props resourceGroup name).
Proof.
  apply writes_within_data. intros s r s'. unfold jobsCreateOrReplace.
  destruct (Jobs_CreateOrReplace _ _ _ _) as [x w]. intros [= <- <-]. auto.
Qed.

Lemma writes_within_waitForCompletionRef K (future : Future) :
  writes_within K (waitForCompletionRef future).
Proof.
  apply writes_within_data. intros s r s'. unfold waitForCompletionRef.
  destruct (Future_WaitForCompletionRef _ _) as [x w]. intros [= <- <-]. auto.
Qed.

Lemma writes_within_jobsUpdate K props (resourceGroup name : string) :
  writes_within K (jobsUpdate props resourceGroup name).
Proof.
  apply writes_within_data. intros s r s'. unfold jobsUpdate.
  destruct (Jobs_Update _ _ _ _) as [x w]. intros [= <- <-]. auto.
Qed.

Lemma writes_within_transformationsUpdate K t
    (resourceGroup name tname : string) :
  writes_within K (transformationsUpdate t resourceGroup name tname).
Proof.
  apply writes_within_data. intros s r s'. unfold transformationsUpdate.
  destruct (Transformations_Update _ _ _ _ _) as [x w]. intros [= <- <-]. auto.
Qed.

Lemma writes_within_jobsDelete K (resourceGroup name : string) :
  writes_within K (jobsDelete resourceGroup name).
Proof.
  apply writes_within_data. intros s r s'. unfold jobsDelete.
  destruct (Jobs_Delete _ _ _) as [x w]. intros [= <- <-]. auto.
Qed.

Lemma writes_within_dSet K (k : string) (v : Value) :
  k ∈ K → writes_within K (dSet k v : M W (option error)).
Proof.
  intros Hk s r s'. unfold dSet.
  destruct (set_err k v); intros [= <- <-]; simpl; [auto|].
  split; [done|]. split; [done|].
  intros k' Hk'. apply lookup_insert_ne. by intros ->.
Qed.

Lemma writes_within_bind {A B : Type} K (m : M W A) (f : A → M W B) :
  writes_within K m → (∀ a, writes_within K (f a)) → writes_within K (m ≫= f).
Proof.
  intros Hm Hf s r s'. rewrite bind_run.
  destruct (m s) as [[a|e|p] s1] eqn:Em.
  - intros Hfa.
    destruct (Hm _ _ _ Em) as (Hn1 & Hs1 & Ha1).
    destruct (Hf a _ _ _ Hfa) as (Hn2 & Hs2 & Ha2).
    rewrite Hn2, Hn1, Hs2, Hs1. split; [done|]. split; [done|].
    intros k Hk. rewrite Ha2, Ha1; auto.
  - intros [= <- <-]. eauto.
  - intros [= <- <-]. eauto.
Qed.

(** Decomposes a goal [writes_within K m] along the structure of [m]. *)
Ltac writes_step :=
  first
    [ apply writes_within_bind; [|intros]
    | apply writes_within_ret | apply writes_within_fail
    | apply writes_within_panic | apply writes_within_lift
    | apply writes_within_getData | apply writes_within_getSubscriptionId
    | apply writes_within_SetId | apply writes_within_jobsGet
    | apply writes_within_jobsCreateOrReplace
    | apply writes_within_waitForCompletionRef | apply writes_within_jobsUpdate
    | apply writes_within_transformationsUpdate | apply writes_within_jobsDelete
    | apply writes_within_dSet;
      apply list_elem_of_In; unfold readFields, propertyFields; simpl; tauto
    | match goal with
      | |- writes_within _ (match ?x with _ => _ end) => destruct x
      | |- writes_within _ (let '(_, _) := ?x in _) => destruct x
      end ].

Lemma Read_writes_within :
  writes_within readFields resourceStreamAnalyticsJobRead.
Proof.
  unfold resourceStreamAnalyticsJobRead, tags_FlattenAndSet.
  repeat writes_step.
Qed.

Lemma CreateUpdate_writes_within :
  writes_within readFields resourceStreamAnalyticsJobCreateUpdate.
Proof.
  unfold resourceStreamAnalyticsJobCreateUpdate, probeExisting.
  repeat first [ apply Read_writes_within | writes_step ].
Qed.

(** X5: whatever its outcome, and whether the schema writer accepts the
    writes or not, Read changes no attribute that the schema does not
    declare, and it leaves the new-resource flag alone. *)
Theorem Read_writes_declared_attributes_only (st : St W) (r : Outcome unit)
    (st' : St W) (k : string) :
  resourceStreamAnalyticsJobRead st = (r, st') →
  k ∉ schemaKeys →
  rd_attrs (rd st') !! k = rd_attrs (rd st) !! k
  ∧ rd_IsNewResource (rd st') = rd_IsNewResource (rd st).
Proof.
  intros Hrun Hk. destruct (Read_writes_within _ _ _ Hrun) as (Hn & _ & Ha).
  split; [|done]. apply Ha. by rewrite readFields_schemaKeys.
Qed.

(** X6: whatever its outcome, Create-or-Update changes no attribute that the
    schema does not declare, and it leaves the new-resource flag alone: the
    only attribute writes it makes are those of the Read at its end. *)
Theorem CreateUpdate_writes_declared_attributes_only (st : St W)
    (r : Outcome unit) (st' : St W) (k : string) :
  resourceStreamAnalyticsJobCreateUpdate st = (r, st') →
  k ∉ schemaKeys →
  rd_attrs (rd st') !! k = rd_attrs (rd st) !! k
  ∧ rd_IsNewResource (rd st') = rd_IsNewResource (rd st).
Proof.
  intros Hrun Hk.
  destruct (CreateUpdate_writes_within _ _ _ Hrun) as (Hn & _ & Ha).
  split; [|done]. apply Ha. by rewrite readFields_schemaKeys.
Qed.

(** X7: whatever its outcome, Read leaves the remote state as it is and
    issues at most one call: none when the identifier does not parse, and
    otherwise exactly one Get, of the parsed resource group and name, that
    asks for the transformation to be expanded. *)
Theorem Read_issues_one_get (st : St W) (r : Outcome unit) (st' : St W) :
  resourceStreamAnalyticsJobRead st = (r, st') →
  remote st' = remote st
  ∧ match parse_StreamingJobID (rd_Id (rd st)) with
    | inl e => calls st' = calls st ∧ r = Err e
    | inr id =>
        calls st' =
          calls st ++ [CJobsGet (ResourceGroup id) (Name id) "transformation"]
    end.
Proof.
  intros Hrun.
  split.
  { destruct (Read_issues_gets _ _ _ Hrun) as (l & _ & Hl & Hr). auto. }
  unfold resourceStreamAnalyticsJobRead, tags_FlattenAndSet in Hrun.
  rewrite bind_run, getData_run in Hrun. cbv beta iota in Hrun.
  destruct (parse_StreamingJobID (rd_Id (rd st))) as [e|id].
  { rewrite fail_run in Hrun. by injection Hrun as <- <-. }
  rewrite bind_run, jobsGet_run in Hrun.
  destruct (Jobs_Get _ _ _ _) as [resp err]. cbv beta iota in Hrun.
  match type of Hrun with
  | ?k _ = _ => assert (Hk : issues (λ _, False) k)
  end.
  { issues_solve. }
  destruct (Hk _ _ _ Hrun) as (l & Hl & HF & _).
  destruct l as [|c l]; [|by inversion HF].
  by rewrite Hl, app_nil_r.
Qed.

(** *** Writes that the schema writer rejects *)

Lemma returns_ret {A : Type} (Q : A → Prop) (a : A) :
  Q a → returns Q (ret a : M W A).
Proof. intros HQ s. by exists a, s. Qed.

Lemma returns_dSet (k : string) (v : Value) :
  returns (λ _, True) (dSet k v : M W (option error)).
Proof.
  intros s. unfold dSet. destruct (set_err k v); eexists _, _; by split.
Qed.

Lemma returns_dSet_accepted (k : string) (v : Value) :
  set_err k v = None → returns (λ x, x = None) (dSet k v : M W (option error)).
Proof. intros H s. unfold dSet. rewrite H. eexists _, _. by split. Qed.

Lemma returns_bind {A B : Type} (Q : A → Prop) (R : B → Prop) (m : M W A)
    (f : A → M W B) :
  returns Q m → (∀ a, Q a → returns R (f a)) → returns R (m ≫= f).
Proof.
  intros Hm Hf s. destruct (Hm s) as (a & s1 & Em & HQ).
  destruct (Hf a HQ s1) as (b & s2 & Ef & HR).
  exists b, s2. rewrite bind_run, Em. by split.
Qed.

(** Solves [returns Q m] for a block of unchecked writes. *)
Ltac returns_any :=
  repeat first
    [ apply returns_dSet
    | apply returns_ret; exact I
    | match goal with
      | |- returns _ (match ?x with _ => _ end) => destruct x
      | |- returns _ (_ ≫= _) =>
          eapply (returns_bind (λ _, True)); [|intros ? _]
      end ].

(** X8: Read checks the error of two writes only, the one of identity and
    the one of tags. When the schema writer accepts those two, Read of an
    answered Get returns without error whichever of its other writes are
    rejected (unless the response names a transformation without
    properties, which makes it panic). *)
Theorem Read_discards_errors_of_unchecked_writes (st : St W)
    (id : StreamingJobId) (resp : StreamingJob) :
  (∀ v, set_err "identity" v = None) →
  (∀ v, set_err "tags" v = None) →
  parse_StreamingJobID (rd_Id (rd st)) = inr id →
  Jobs_Get (remote st) (ResourceGroup id) (Name id) "transformation"
    = (resp, None) →
  nilTransformationProperties resp = false →
  fst (resourceStreamAnalyticsJobRead st) = Ok tt.
Proof.
  intros Hid Htags Hparse Hget Hnil.
  unfold resourceStreamAnalyticsJobRead, tags_FlattenAndSet.
  rewrite bind_run, getData_run. cbv beta iota. rewrite Hparse.
  rewrite bind_run, jobsGet_run, Hget. cbv beta iota.
  match goal with
  | |- fst (?k ?s) = _ => assert (Hk : returns (λ _ : unit, True) k)
  end.
  { eapply (returns_bind (λ _, True)); [apply returns_dSet|intros _ _].
    eapply (returns_bind (λ _, True)); [apply returns_dSet|intros _ _].
    eapply (returns_bind (λ _, True)); [returns_any|intros _ _].
    eapply returns_bind; [apply returns_dSet_accepted, Hid|intros err ->].
    eapply (returns_bind (λ _, True)).
    - unfold nilTransformationProperties in Hnil.
      destruct (job_StreamingJobProperties resp) as [props|];
        [|returns_any].
      do 8 (eapply (returns_bind (λ _, True)); [returns_any|intros _ _]).
      destruct (Transformation_ props) as [[tname [tp|]]|];
        cbn [tr_TransformationProperties] in *; [|discriminate Hnil|];
        returns_any.
    - intros _ _.
      eapply returns_bind; [apply returns_dSet_accepted, Htags|intros err ->].
      by apply returns_ret. }
  match goal with
  | |- fst (?k ?s) = _ => destruct (Hk s) as ([] & s' & -> & _)
  end.
  reflexivity.
Qed.

(** What one write does to the state. *)
Lemma dSet_cases (k : string) (v : Value) (s : St W) :
  ∃ s', dSet k v s = (Ok (set_err k v), s')
        ∧ remote s' = remote s ∧ calls s' = calls s
        ∧ rd_Id (rd s') = rd_Id (rd s)
        ∧ ∀ k', k' ≠ k → rd_attrs (rd s') !! k' = rd_attrs (rd s) !! k'.
Proof.
  unfold dSet. destruct (set_err k v); eexists; (split; [reflexivity|]);
    simpl; repeat split; auto.
  intros k' Hk'. by apply lookup_insert_ne.
Qed.

(** X9: when the schema writer rejects the write of identity, Read of an
    answered Get returns that error, wrapped as the error of setting
    identity, and writes neither identity nor tags nor any attribute of the
    properties object. *)
Theorem Read_identity_write_rejected (st : St W) (id : StreamingJobId)
    (resp : StreamingJob) (e : error) :
  parse_StreamingJobID (rd_Id (rd st)) = inr id →
  Jobs_Get (remote st) (ResourceGroup id) (Name id) "transformation"
    = (resp, None) →
  set_err "identity"
    (sliceValue (flattenStreamAnalyticsJobIdentity (job_Identity resp)))
    = Some e →
  ∃ st',
    resourceStreamAnalyticsJobRead st =
      (Err (Errorf "setting `identity`: %v" [AErr e]), st')
    ∧ Forall (λ k, rd_attrs (rd st') !! k = rd_attrs (rd st) !! k)
        ("identity" :: "tags" :: propertyFields).
Proof.
  intros Hparse Hget Hrej.
  unfold resourceStreamAnalyticsJobRead.
  rewrite bind_run, getData_run. cbv beta iota. rewrite Hparse.
  rewrite bind_run, jobsGet_run, Hget. cbv beta iota.
  set (s0 := log (CJobsGet (ResourceGroup id) (Name id) "transformation") st).
  rewrite bind_run.
  destruct (dSet_cases "name" (VString (Name id)) s0)
    as (s1 & -> & _ & _ & _ & Ha1). cbv beta iota.
  rewrite bind_run.
  destruct (dSet_cases "resource_group_name" (VString (ResourceGroup id)) s1)
    as (s2 & -> & _ & _ & _ & Ha2). cbv beta iota.
  rewrite bind_run.
  assert (Hloc : ∃ x s3,
            (match job_Location resp with
             | Some l => dSet "location" (VString (azure_NormalizeLocation l))
             | None => ret None
             end : M W (option error)) s2 = (Ok x, s3)
            ∧ ∀ k', k' ≠ "location" →
                    rd_attrs (rd s3) !! k' = rd_attrs (rd s2) !! k').
  { destruct (job_Location resp) as [l|].
    - destruct (dSet_cases "location" (VString (azure_NormalizeLocation l)) s2)
        as (s3 & -> & _ & _ & _ & Ha3). eauto.
    - exists None, s2. by rewrite ret_run. }
  destruct Hloc as (x & s3 & -> & Ha3). cbv beta iota.
  rewrite bind_run. unfold dSet at 1. rewrite Hrej. cbv beta iota.
  rewrite fail_run. exists s3. split; [reflexivity|].
  unfold propertyFields.
  repeat (apply Forall_cons; split;
          [rewrite Ha3, Ha2, Ha1 by discriminate; reflexivity|]).
  by apply Forall_nil.
Qed.

(** *** The writes of Read as a list *)

Lemma applyWrites_app (ws1 ws2 : list (string * Value)) (m : gmap string Value) :
  applyWrites (ws1 ++ ws2) m = applyWrites ws2 (applyWrites ws1 m).
Proof.
  revert m. induction ws1 as [|[k v] ws1 IH]; intros m; simpl; [done|].
  apply IH.
Qed.

Lemma applyWrites_optWrite (k : string) (o : option Value)
    (m : gmap string Value) :
  applyWrites (optWrite k o) m = setOpt k o m.
Proof. by destruct o. Qed.

(** A lookup after a list of writes sees the last write to the key, and the
    old value when there is none. *)
Lemma lookup_applyWrites (ws : list (string * Value)) (m : gmap string Value)
    (k : string) :
  applyWrites ws m !! k =
    match lastWrite k ws with
    | Some v => Some v
    | None => m !! k
    end.
Proof.
  revert m. induction ws as [|[k' v] ws IH]; intros m; simpl; [done|].
  rewrite IH. destruct (lastWrite k ws); [done|].
  destruct (String.eqb_spec k' k) as [->|Hne].
  - apply lookup_insert_eq.
  - by apply lookup_insert_ne.
Qed.

(** Applying the same writes a second time changes nothing. *)
Lemma applyWrites_idempotent (ws : list (string * Value))
    (m : gmap string Value) :
  applyWrites ws (applyWrites ws m) = applyWrites ws m.
Proof.
  apply map_eq. intros k. rewrite !lookup_applyWrites.
  by destruct (lastWrite k ws).
Qed.

(** The closed form of the writes of Read is the source's list of writes,
    applied in order. *)
Lemma readWrites_as_list (id : StreamingJobId) (resp : StreamingJob)
    (m : gmap string Value) :
  readWrites id resp m = applyWrites (readWriteList id resp) m.
Proof.
  unfold readWrites, readWritesBeforeTags, readWriteList.
  rewrite !applyWrites_app, applyWrites_optWrite. simpl.
  f_equal.
  generalize (<["identity" :=
                 sliceValue
                   (flattenStreamAnalyticsJobIdentity (job_Identity resp))]>
              (setOpt "location"
                 ((λ l, VString (azure_NormalizeLocation l))
                    <$> job_Location resp)
                 (<["resource_group_name" := VString (ResourceGroup id)]>
                  (<["name" := VString (Name id)]> m)))).
  intros m'.
  unfold propertiesWrites, propertiesWriteList.
  destruct (job_StreamingJobProperties resp) as [props|]; [|done].
  rewrite !applyWrites_app, !applyWrites_optWrite. simpl.
  unfold transformationWrites, transformationWriteList.
  destruct (Transformation_ props) as [[tname [tp|]]|]; simpl; try done.
  by rewrite applyWrites_app, applyWrites_optWrite.
Qed.

(** X10: Read is idempotent on the resource data. With every write accepted,
    a Read that succeeded on an answered Get succeeds again when it is run
    on the state it left, with one more Get and without changing the
    resource data or the remote state. *)
Theorem Read_idempotent (st st1 : St W) (id : StreamingJobId)
    (resp : StreamingJob) :
  (∀ k v, set_err k v = None) →
  parse_StreamingJobID (rd_Id (rd st)) = inr id →
  Jobs_Get (remote st) (ResourceGroup id) (Name id) "transformation"
    = (resp, None) →
  resourceStreamAnalyticsJobRead st = (Ok tt, st1) →
  ∃ st2, resourceStreamAnalyticsJobRead st1 = (Ok tt, st2)
         ∧ rd st2 = rd st1
         ∧ remote st2 = remote st
         ∧ calls st2 =
             calls st
             ++ [CJobsGet (ResourceGroup id) (Name id) "transformation";
                 CJobsGet (ResourceGroup id) (Name id) "transformation"].
Proof.
  intros Hset Hparse Hget Hrun.
  rewrite (Read_run _ _ _ Hset Hparse Hget) in Hrun.
  destruct (nilTransformationProperties resp) eqn:Hnil; [discriminate Hrun|].
  injection Hrun as <-.
  eexists. split.
  - rewrite (Read_run _ id resp Hset); [|exact Hparse|exact Hget].
    rewrite Hnil. reflexivity.
  - cbn [rd rd_attrs rd_Id rd_IsNewResource remote calls].
    rewrite !readWrites_as_list, applyWrites_idempotent.
    repeat split. by rewrite <- app_assoc.
Qed.

(** X11: with every write accepted, a successful Read of a response in which
    every optional object, field and pointer is present leaves a value that
    is not nil under every attribute that the schema declares. *)
Theorem Read_populates_every_declared_attribute (st st' : St W)
    (id : StreamingJobId) (resp : StreamingJob) (k : string) :
  (∀ k v, set_err k v = None) →
  parse_StreamingJobID (rd_Id (rd st)) = inr id →
  Jobs_Get (remote st) (ResourceGroup id) (Name id) "transformation"
    = (resp, None) →
  completeResponse resp = true →
  resourceStreamAnalyticsJobRead st = (Ok tt, st') →
  k ∈ schemaKeys →
  ∃ v, rd_attrs (rd st') !! k = Some v ∧ v ≠ VNil.
Proof.
  intros Hset Hparse Hget Hcomplete Hrun Hk.
  rewrite (Read_run _ _ _ Hset Hparse Hget) in Hrun.
  destruct (nilTransformationProperties resp) eqn:Hnil; [discriminate Hrun|].
  injection Hrun as <-. cbn [rd rd_attrs].
  rewrite readWrites_as_list, lookup_applyWrites.
  unfold completeResponse in Hcomplete.
  unfold readWriteList, propertiesWriteList, transformationWriteList.
  destruct (job_Location resp) as [l|]; [|discriminate Hcomplete].
  destruct (job_Identity resp) as [i|]; [|discriminate Hcomplete].
  destruct (job_StreamingJobProperties resp) as [props|];
    [|discriminate Hcomplete].
  destruct (JobID props); [|discriminate Hcomplete].
  destruct (DataLocale props); [|discriminate Hcomplete].
  destruct (EventsLateArrivalMaxDelayInSeconds props);
    [|discriminate Hcomplete].
  destruct (EventsOutOfOrderMaxDelayInSeconds props);
    [|discriminate Hcomplete].
  destruct (Transformation_ props) as [[tname [tp|]]|];
    cbn [tr_TransformationProperties] in *;
    [|destruct (Cluster props) as [[[cid|]]|]; discriminate Hcomplete..].
  destruct (Cluster props) as [[[cid|]]|]; cbn [ci_ID] in *;
    try discriminate Hcomplete.
  destruct (StreamingUnits tp); [|discriminate Hcomplete].
  destruct (Query tp); [|discriminate Hcomplete].
  apply list_elem_of_In in Hk.
  unfold schemaKeys, resourceStreamAnalyticsJob_Schema in Hk. simpl in Hk.
  repeat match type of Hk with
         | _ ∨ _ => destruct Hk as [<-|Hk]
         end; [..|contradiction]; vm_compute;
    (eexists; split; [reflexivity|discriminate]).
Qed.

(** X12: with every write accepted, Read of an answered Get panics exactly
    when the response names a transformation whose properties are nil; it
    has then already written the attributes that come before, and tags is
    left as it was. *)
Theorem Read_panics_on_nil_transformation_properties (st : St W)
    (id : StreamingJobId) (resp : StreamingJob) :
  (∀ k v, set_err k v = None) →
  parse_StreamingJobID (rd_Id (rd st)) = inr id →
  Jobs_Get (remote st) (ResourceGroup id) (Name id) "transformation"
    = (resp, None) →
  let '(r, st') := resourceStreamAnalyticsJobRead st in
  (r = Panic NilDereference ↔ nilTransformationProperties resp = true)
  ∧ (r = Ok tt ↔ nilTransformationProperties resp = false)
  ∧ (nilTransformationProperties resp = true →
       rd_attrs (rd st') !! "name" = Some (VString (Name id))
       ∧ (∃ props, job_StreamingJobProperties resp = Some props
                   ∧ rd_attrs (rd st') !! "job_id"
                     = Some (ptrString (JobID props)))
       ∧ rd_attrs (rd st') !! "tags" = rd_attrs (rd st) !! "tags").
Proof.
  intros Hset Hparse Hget.
  rewrite (Read_run _ _ _ Hset Hparse Hget).
  destruct (nilTransformationProperties resp) eqn:Hnil.
  - split; [done|]. split; [done|]. intros _. cbn [rd rd_attrs].
    unfold nilTransformationProperties in Hnil.
    unfold readWritesBeforeTags, propertiesWrites, transformationWrites.
    destruct (job_StreamingJobProperties resp) as [props|];
      [|discriminate Hnil].
    destruct (Transformation_ props) as [[tname [tp|]]|];
      cbn [tr_TransformationProperties] in *; try discriminate Hnil.
    split; [|split; [exists props; split; [done|]|]];
      repeat first [ rewrite lookup_insert_eq
                   | rewrite lookup_insert_ne by discriminate
                   | rewrite lookup_setOpt_ne by discriminate ];
      reflexivity.
  - split; [done|]. split; [done|]. discriminate.
Qed.

(** *** More of Create-or-Update *)

(** X13: when the existence probe of a Create fails and the response is not
    a not-found one, Create returns that error wrapped as the error of
    checking for presence; the probe is its only call, and the remote state
    and the resource data are as before. *)
Theorem Create_probe_failure (st : St W) (existing : StreamingJob) (e : error) :
  rd_IsNewResource (rd st) = true →
  let resourceGroup := getString (rd st) "resource_group_name" in
  let name := getString (rd st) "name" in
  let id := NewStreamingJobID (account_SubscriptionId st) resourceGroup name in
  Jobs_Get (remote st) resourceGroup name "" = (existing, Some e) →
  ResponseWasNotFound (Response existing) = false →
  resourceStreamAnalyticsJobCreateUpdate st =
    (Err (Errorf "checking for presence of existing %s: %+v"
            [AId id; AErr e]),
     log (CJobsGet resourceGroup name "") st).
Proof.
  intros Hnew resourceGroup name id Hget Hnf.
  unfold resourceStreamAnalyticsJobCreateUpdate.
  rewrite bind_run, getSubscriptionId_run. cbv beta iota.
  rewrite bind_run, getData_run. cbv beta iota zeta.
  rewrite bind_run, (probeExisting_new _ _ _ Hnew).
  cbn [ResourceGroup Name]. fold resourceGroup name. fold id.
  rewrite Hget. unfold probeOutcome. cbn [fst snd]. rewrite Hnf.
  reflexivity.
Qed.

(** The probe lets Create go on exactly when the Get answered, or failed as
    not found, and carries no ID or an empty one. *)
Lemma probeOutcome_passes (id : StreamingJobId) (existing : StreamingJob)
    (err : option error) :
  err = None ∨ ResponseWasNotFound (Response existing) = true →
  job_ID existing = None ∨ job_ID existing = Some "" →
  probeOutcome id (existing, err) = Ok tt.
Proof.
  intros Herr Hid. unfold probeOutcome. cbn [fst snd].
  assert (Hfound : match job_ID existing with
                   | Some existingID =>
                       if negb (String.eqb existingID "")
                       then Err (ImportAsExistsError
                                   "azurerm_stream_analytics_job" existingID)
                       else Ok tt
                   | None => Ok tt
                   end = Ok tt)
    by (by destruct Hid as [->| ->]).
  rewrite Hfound. destruct Herr as [->|Hnf]; [done|].
  rewrite Hnf. by destruct err.
Qed.

(** X14: a probe that finds a job without an ID, or with an empty one, does
    not stop Create, and neither does a probe that fails as not found:
    Create goes on to build its payload. When the payload is built, the call
    after the probe is the create call, for the configured resource group
    and name, with the transformation attached to the payload; when the
    configured identity block is ill-formed, Create panics with the probe as
    its only call. *)
Theorem Create_goes_on_without_id (st : St W) (existing : StreamingJob)
    (err : option error) (r : Outcome unit) (st' : St W) :
  rd_IsNewResource (rd st) = true →
  let resourceGroup := getString (rd st) "resource_group_name" in
  let name := getString (rd st) "name" in
  let id := NewStreamingJobID (account_SubscriptionId st) resourceGroup name in
  Jobs_Get (remote st) resourceGroup name "" = (existing, err) →
  err = None ∨ ResponseWasNotFound (Response existing) = true →
  job_ID existing = None ∨ job_ID existing = Some "" →
  resourceStreamAnalyticsJobCreateUpdate st = (r, st') →
  match payloadOutcome (rd st) id with
  | Ok props0 =>
      ∃ props rest,
        withTransformation props0 (buildTransformation (rd st)) = Ok props
        ∧ calls st' =
            calls st ++ CJobsGet resourceGroup name ""
                     :: CJobsCreateOrReplace props resourceGroup name :: rest
  | Panic p =>
      r = Panic p ∧ calls st' = calls st ++ [CJobsGet resourceGroup name ""]
  | Err _ => False
  end.
Proof.
  intros Hnew resourceGroup name id Hget Herr Hid Hrun.
  assert (Hprobe : probeOutcome id (Jobs_Get (remote st) resourceGroup name "")
                   = Ok tt)
    by (rewrite Hget; by apply probeOutcome_passes).
  destruct (payloadOutcome (rd st) id) as [props0|e|p] eqn:Hpayload.
  - destruct (withTransformation_payload _ _ _ (buildTransformation (rd st))
                Hpayload) as [props Hprops].
    exists props.
    pose proof (CreateUpdate_new_run st props0 props Hnew Hprobe Hpayload
                  Hprops) as H.
    cbv zeta in H. fold resourceGroup name in H. rewrite H in Hrun.
    destruct (Jobs_CreateOrReplace _ _ _ _) as [[future [e|]] w].
    + injection Hrun as <- <-. by exists [].
    + destruct (Future_WaitForCompletionRef w future) as [[e|] w'].
      * injection Hrun as <- <-. by exists [CWaitForCompletionRef].
      * destruct (Read_issues_gets _ _ _ Hrun) as (l & Hl & _).
        exists (CWaitForCompletionRef :: l). split; [exact Hprops|].
        rewrite Hl. cbn [calls]. by rewrite <- app_assoc.
  - by apply payloadOutcome_not_Err in Hpayload.
  - rewrite (CreateUpdate_new_panic st p Hnew Hprobe Hpayload) in Hrun.
    by injection Hrun as <- <-.
Qed.

(** X15: on the update path, whatever payload was built, when the parent
    update went through and the job read back has no properties object, or
    names a transformation without a name, Create-or-Update panics on the
    nil pointer: the parent update has been applied, and neither the
    transformation update nor the final Read is run. *)
Theorem Update_readback_nil_pointer (st : St W)
    (props updated job : StreamingJob) (w : W) :
  rd_IsNewResource (rd st) = false →
  let resourceGroup := getString (rd st) "resource_group_name" in
  let name := getString (rd st) "name" in
  let id := NewStreamingJobID (account_SubscriptionId st) resourceGroup name in
  payloadOutcome (rd st) id = Ok props →
  Jobs_Update (remote st) props resourceGroup name = ((updated, None), w) →
  Jobs_Get w resourceGroup name "transformation" = (job, None) →
  job_StreamingJobProperties job = None
  ∨ (∃ jobProps t, job_StreamingJobProperties job = Some jobProps
                   ∧ Transformation_ jobProps = Some t ∧ tr_Name t = None) →
  resourceStreamAnalyticsJobCreateUpdate st =
    (Panic NilDereference,
     mkSt w
       (calls st ++ [CJobsUpdate props resourceGroup name;
                     CJobsGet resourceGroup name "transformation"])
       (rd st) (account_SubscriptionId st)).
Proof.
  intros Hnew resourceGroup name id Hpayload Hupd Hget Hjob.
  rewrite (CreateUpdate_existing_run st props Hnew Hpayload). cbv zeta.
  fold resourceGroup name. rewrite Hupd, Hget.
  by destruct Hjob as [->|(jobProps & t & -> & -> & ->)].
Qed.

(** X16: on the update path, whatever payload was built, when the job read
    back has no transformation, the configured transformation is not sent
    at all: after the parent update and the Get, Create-or-Update goes
    straight to the final Read. *)
Theorem Update_without_remote_transformation (st : St W)
    (props updated job : StreamingJob) (w : W)
    (jobProps : StreamingJobProperties) :
  rd_IsNewResource (rd st) = false →
  let resourceGroup := getString (rd st) "resource_group_name" in
  let name := getString (rd st) "name" in
  let id := NewStreamingJobID (account_SubscriptionId st) resourceGroup name in
  payloadOutcome (rd st) id = Ok props →
  Jobs_Update (remote st) props resourceGroup name = ((updated, None), w) →
  Jobs_Get w resourceGroup name "transformation" = (job, None) →
  job_StreamingJobProperties job = Some jobProps →
  Transformation_ jobProps = None →
  resourceStreamAnalyticsJobCreateUpdate st =
    resourceStreamAnalyticsJobRead
      (mkSt w
         (calls st ++ [CJobsUpdate props resourceGroup name;
                       CJobsGet resourceGroup name "transformation"])
         (rd st) (account_SubscriptionId st))
  ∧ ∀ r st', resourceStreamAnalyticsJobCreateUpdate st = (r, st') →
             Forall (λ c, match c with
                          | CTransformationsUpdate _ _ _ _ => False
                          | _ => True
                          end)
               (drop (length (calls st)) (calls st')).
Proof.
  intros Hnew resourceGroup name id Hpayload Hupd Hget Hjp Ht.
  assert (Heq : resourceStreamAnalyticsJobCreateUpdate st =
    resourceStreamAnalyticsJobRead
      (mkSt w
         (calls st ++ [CJobsUpdate props resourceGroup name;
                       CJobsGet resourceGroup name "transformation"])
         (rd st) (account_SubscriptionId st))).
  { rewrite (CreateUpdate_existing_run st props Hnew Hpayload). cbv zeta.
    fold resourceGroup name. by rewrite Hupd, Hget, Hjp, Ht. }
  split; [exact Heq|].
  intros r st' Hrun. rewrite Heq in Hrun.
  destruct (Read_issues_gets _ _ _ Hrun) as (l & Hl & HF & _).
  rewrite Hl. cbn [calls]. rewrite <- app_assoc, drop_app_length.
  repeat (apply Forall_cons; split; [done|]).
  eapply Forall_impl; [exact HF|]. by intros [].
Qed.

(** *** The numbers in the payload *)

(** The 32-bit conversion keeps a number exactly when it fits. *)
Lemma int32_exact_iff (z : Z) : int32 z = z ↔ - 2 ^ 31 ≤ z < 2 ^ 31.
Proof.
  unfold int32. split.
  - intros H. pose proof (Z.mod_pos_bound (z + 2 ^ 31) (2 ^ 32) eq_refl). lia.
  - intros H. rewrite Z.mod_small; lia.
Qed.

Lemma int32_range (z : Z) : - 2 ^ 31 ≤ int32 z < 2 ^ 31.
Proof.
  unfold int32.
  pose proof (Z.mod_pos_bound (z + 2 ^ 31) (2 ^ 32) eq_refl). lia.
Qed.

(** X17: the two delays and the streaming units that Create-or-Update sends
    are the configured numbers converted to 32 bits: what is sent always
    fits in 32 bits, and it is the configured number exactly when that one
    fits; a larger one is sent wrapped around. *)
Theorem payload_numbers_are_32_bit (d : ResourceData) (id : StreamingJobId) :
  ∃ props tp,
    job_StreamingJobProperties (buildProps d id) = Some props
    ∧ tr_TransformationProperties (buildTransformation d) = Some tp
    ∧ Forall (λ '(sent, configured),
                ∃ n, sent = Some n
                     ∧ - 2 ^ 31 ≤ n < 2 ^ 31
                     ∧ (n - configured) mod 2 ^ 32 = 0
                     ∧ (n = configured ↔ - 2 ^ 31 ≤ configured < 2 ^ 31))
        [ (EventsLateArrivalMaxDelayInSeconds props,
           getInt d "events_late_arrival_max_delay_in_seconds");
          (EventsOutOfOrderMaxDelayInSeconds props,
           getInt d "events_out_of_order_max_delay_in_seconds");
          (StreamingUnits tp, getInt d "streaming_units") ].
Proof.
  eexists _, _. split; [reflexivity|]. split; [reflexivity|].
  assert (H : ∀ z, ∃ n, Some (int32 z) = Some n
                        ∧ - 2 ^ 31 ≤ n < 2 ^ 31
                        ∧ (n - z) mod 2 ^ 32 = 0
                        ∧ (n = z ↔ - 2 ^ 31 ≤ z < 2 ^ 31)).
  { intros z. exists (int32 z). split; [done|]. split; [apply int32_range|].
    split; [|apply int32_exact_iff].
    unfold int32.
    rewrite (Z.mod_eq (z + 2 ^ 31) (2 ^ 32)) by lia.
    replace (z + 2 ^ 31 - 2 ^ 32 * ((z + 2 ^ 31) / 2 ^ 32) - 2 ^ 31 - z)
      with (- ((z + 2 ^ 31) / 2 ^ 32) * 2 ^ 32) by lia.
    apply Z.mod_mul. lia. }
  cbn [EventsLateArrivalMaxDelayInSeconds EventsOutOfOrderMaxDelayInSeconds
       StreamingUnits].
  repeat (apply Forall_cons; split; [apply H|]). by apply Forall_nil.
Qed.

(** X18: the bounds that the schema gives for the two delays keep them
    within 32 bits. For every validator that accepts no integer outside the
    bounds of [IntBetween], and a configuration whose two delays pass the
    validation functions that the schema gives them, the delays sent to the
    API are the configured ones, unchanged by the 32-bit conversion. *)
Theorem validated_delays_are_sent_unchanged (validates : Validator)
    (d : ResourceData) (id : StreamingJobId) :
  IntBetween_sound validates →
  fieldValid validates "events_late_arrival_max_delay_in_seconds"
    (VInt (getInt d "events_late_arrival_max_delay_in_seconds")) = true →
  fieldValid validates "events_out_of_order_max_delay_in_seconds"
    (VInt (getInt d "events_out_of_order_max_delay_in_seconds")) = true →
  ∃ props,
    job_StreamingJobProperties (buildProps d id) = Some props
    ∧ EventsLateArrivalMaxDelayInSeconds props
      = Some (getInt d "events_late_arrival_max_delay_in_seconds")
    ∧ EventsOutOfOrderMaxDelayInSeconds props
      = Some (getInt d "events_out_of_order_max_delay_in_seconds").
Proof.
  intros Hsound Hlate Hooo. eexists. split; [reflexivity|].
  cbn [EventsLateArrivalMaxDelayInSeconds EventsOutOfOrderMaxDelayInSeconds].
  unfold fieldValid in Hlate, Hooo. cbn in Hlate, Hooo.
  apply Hsound in Hlate. apply Hsound in Hooo.
  split; f_equal; apply int32_exact_iff; lia.
Qed.

(** *** Failures of the mutating calls *)

(** X19: Delete of an identifier that parses issues the delete call and, if
    that went through, waits for its completion, and nothing else; the error
    of either is returned wrapped with the identifier and the operation, and
    nothing is issued after a failed call. Whatever the outcome, Delete
    leaves the resource data, identifier included, as it was. *)
Theorem Delete_outcomes (st : St W) (id : StreamingJobId) :
  parse_StreamingJobID (rd_Id (rd st)) = inr id →
  let c := CJobsDelete (ResourceGroup id) (Name id) in
  (∀ future e w,
     Jobs_Delete (remote st) (ResourceGroup id) (Name id)
       = ((future, Some e), w) →
     resourceStreamAnalyticsJobDelete st =
       (Err (Errorf "deleting %s: %+v" [AId id; AErr e]),
        mkSt w (calls st ++ [c]) (rd st) (account_SubscriptionId st)))
  ∧ (∀ future w e w',
       Jobs_Delete (remote st) (ResourceGroup id) (Name id)
         = ((future, None), w) →
       Future_WaitForCompletionRef w future = (Some e, w') →
       resourceStreamAnalyticsJobDelete st =
         (Err (Errorf "waiting for deletion of %s: %+v" [AId id; AErr e]),
          mkSt w' (calls st ++ [c; CWaitForCompletionRef]) (rd st)
            (account_SubscriptionId st)))
  ∧ (∀ future w w',
       Jobs_Delete (remote st) (ResourceGroup id) (Name id)
         = ((future, None), w) →
       Future_WaitForCompletionRef w future = (None, w') →
       resourceStreamAnalyticsJobDelete st =
         (Ok tt,
          mkSt w' (calls st ++ [c; CWaitForCompletionRef]) (rd st)
            (account_SubscriptionId st)))
  ∧ ∀ r st', resourceStreamAnalyticsJobDelete st = (r, st') → rd st' = rd st.
Proof.
  intros Hparse c.
  pose proof (Delete_wraps_api_errors st id Hparse) as H. cbv zeta in H.
  fold c in H.
  split; [|split; [|split]].
  - intros future e w Hd. rewrite Hd in H. exact H.
  - intros future w e w' Hd Hw. rewrite Hd, Hw in H. rewrite H.
    unfold setRemote, log. simpl. by rewrite <- app_assoc.
  - intros future w w' Hd Hw. rewrite Hd, Hw in H. rewrite H.
    unfold setRemote, log. simpl. by rewrite <- app_assoc.
  - intros r st' Hrun.
    destruct (Jobs_Delete _ _ _) as [[future [e|]] w].
    + rewrite H in Hrun. by injection Hrun as <- <-.
    + destruct (Future_WaitForCompletionRef w future) as [[e|] w'];
        rewrite H in Hrun; by injection Hrun as <- <-.
Qed.

(** X20: on a Create whose probe let it go on and whose payload was built,
    the error of the create call and the error of waiting for its completion
    are returned wrapped with the identifier and the operation, nothing is
    issued after the failed call, and the identifier of the resource data is
    not set. When both go through, the identifier is set to the encoding of
    the candidate and the result is that of the Read run on it. The payload
    sent is the one built from the configuration, identity included, with
    the transformation attached. *)
Theorem Create_outcomes (st : St W) (props0 props : StreamingJob) :
  rd_IsNewResource (rd st) = true →
  let resourceGroup := getString (rd st) "resource_group_name" in
  let name := getString (rd st) "name" in
  let id := NewStreamingJobID (account_SubscriptionId st) resourceGroup name in
  probeOutcome id (Jobs_Get (remote st) resourceGroup name "") = Ok tt →
  payloadOutcome (rd st) id = Ok props0 →
  withTransformation props0 (buildTransformation (rd st)) = Ok props →
  let probe := CJobsGet resourceGroup name "" in
  let create := CJobsCreateOrReplace props resourceGroup name in
  (∀ future e w,
     Jobs_CreateOrReplace (remote st) props resourceGroup name
       = ((future, Some e), w) →
     resourceStreamAnalyticsJobCreateUpdate st =
       (Err (Errorf "creating %s: %+v" [AId id; AErr e]),
        mkSt w (calls st ++ [probe; create]) (rd st)
          (account_SubscriptionId st)))
  ∧ (∀ future w e w',
       Jobs_CreateOrReplace (remote st) props resourceGroup name
         = ((future, None), w) →
       Future_WaitForCompletionRef w future = (Some e, w') →
       resourceStreamAnalyticsJobCreateUpdate st =
         (Err (Errorf "waiting for creation of %s: %+v" [AId id; AErr e]),
          mkSt w' (calls st ++ [probe; create; CWaitForCompletionRef])
            (rd st) (account_SubscriptionId st)))
  ∧ (∀ future w w',
       Jobs_CreateOrReplace (remote st) props resourceGroup name
         = ((future, None), w) →
       Future_WaitForCompletionRef w future = (None, w') →
       resourceStreamAnalyticsJobCreateUpdate st =
         resourceStreamAnalyticsJobRead
           (mkSt w' (calls st ++ [probe; create; CWaitForCompletionRef])
              (mkResourceData (id_ID id) true (rd_attrs (rd st)))
              (account_SubscriptionId st))).
Proof.
  intros Hnew resourceGroup name id Hprobe Hpayload Hprops probe create.
  pose proof (CreateUpdate_new_run st props0 props Hnew Hprobe Hpayload Hprops)
    as H.
  cbv zeta in H. fold resourceGroup name in H. fold probe create in H.
  split; [|split].
  - intros future e w Hc. by rewrite Hc in H.
  - intros future w e w' Hc Hw. by rewrite Hc, Hw in H.
  - intros future w w' Hc Hw. by rewrite Hc, Hw in H.
Qed.

(** X21: on the update path, whatever payload was built, when the update of
    the transformation fails, its error is returned wrapped with the
    identifier and the operation; the calls of the invocation are the parent
    update, the Get and the failed update of the transformation, under the
    name read back, and the final Read is not run. *)
Theorem Update_transformation_failure (st : St W)
    (props updated job : StreamingJob) (w w2 : W)
    (jobProps : StreamingJobProperties)
    (t tr : Transformation) (tname : string) (e : error) :
  rd_IsNewResource (rd st) = false →
  let resourceGroup := getString (rd st) "resource_group_name" in
  let name := getString (rd st) "name" in
  let id := NewStreamingJobID (account_SubscriptionId st) resourceGroup name in
  let transformation := buildTransformation (rd st) in
  payloadOutcome (rd st) id = Ok props →
  Jobs_Update (remote st) props resourceGroup name = ((updated, None), w) →
  Jobs_Get w resourceGroup name "transformation" = (job, None) →
  job_StreamingJobProperties job = Some jobProps →
  Transformation_ jobProps = Some t →
  tr_Name t = Some tname →
  Transformations_Update w transformation resourceGroup name tname
    = ((tr, Some e), w2) →
  resourceStreamAnalyticsJobCreateUpdate st =
    (Err (Errorf "updating transformation for %s: %+v" [AId id; AErr e]),
     mkSt w2
       (calls st ++ [CJobsUpdate props resourceGroup name;
                     CJobsGet resourceGroup name "transformation";
                     CTransformationsUpdate transformation resourceGroup name
                       tname])
       (rd st) (account_SubscriptionId st)).
Proof.
  intros Hnew resourceGroup name id transformation Hpayload Hupd Hget Hjp
    Ht Hn Htu.
  rewrite (CreateUpdate_existing_run st props Hnew Hpayload). cbv zeta.
  fold resourceGroup name. fold transformation.
  by rewrite Hupd, Hget, Hjp, Ht, Hn, Htu.
Qed.

End ReconcilerProperties.

(** *** The reconciler on the in-memory cloud *)

(** C7 at an identifier string that is not a resource path. *)
Lemma malformed_identifier_rejected_witness :
  resourceStreamAnalyticsJobRead (Sample.withIdString Sample.cloud1 "job1")
    = (Err (Raw "parsing the StreamingJob ID: unexpected segments"),
       Sample.withIdString Sample.cloud1 "job1").
Proof.
  apply (malformed_identifier_rejected
           (Sample.withIdString Sample.cloud1 "job1")
           (Raw "parsing the StreamingJob ID: unexpected segments")).
  reflexivity.
Defined.

(** C3 at a cloud that does not hold the job: its Get answers 404. *)
Lemma Read_not_found_clears_id_witness :
  let st := Sample.existingResource Sample.emptyCloud Sample.config1 in
  ∃ st', resourceStreamAnalyticsJobRead st = (Ok tt, st')
         ∧ rd_Id (rd st') = "".
Proof.
  intros st.
  assert (Hparse : parse_StreamingJobID (rd_Id (rd st)) = inr Sample.id1)
    by (vm_compute; reflexivity).
  assert (Hget : Jobs_Get (remote st) "rg1" "job1" "transformation"
                 = (Sample.statusOnly 404, Some (Raw "ResourceNotFound")))
    by (vm_compute; reflexivity).
  destruct (Read_not_found_clears_id st Sample.id1 _ _ Hparse Hget) as [H _].
  eexists. split; [exact (H eq_refl)|reflexivity].
Defined.

(** C5 at a Read of the job that the cloud holds. *)
Lemma Read_populates_state_witness :
  let st := Sample.existingResource Sample.cloud1 Sample.config1 in
  let st' := snd (resourceStreamAnalyticsJobRead st) in
  rd_attrs (rd st') !! "name" = Some (VString "job1")
  ∧ rd_attrs (rd st') !! "job_id" = Some (VString "0000-1111").
Proof.
  intros st st'.
  assert (Hok : fst (resourceStreamAnalyticsJobRead st) = Ok tt)
    by (vm_compute; reflexivity).
  assert (Hrun : resourceStreamAnalyticsJobRead st = (Ok tt, st')).
  { subst st'. rewrite <- Hok. by destruct (resourceStreamAnalyticsJobRead st). }
  assert (Hget : Jobs_Get (remote st) (ResourceGroup Sample.id1)
                   (Name Sample.id1) "transformation"
                 = (Sample.withResponse 200 Sample.job1, None))
    by (vm_compute; reflexivity).
  assert (Hparse : parse_StreamingJobID (rd_Id (rd st)) = inr Sample.id1)
    by (vm_compute; reflexivity).
  assert (Hset : ∀ k v, @set_err Sample.collaborators k v = None)
    by reflexivity.
  destruct (Read_populates_state st st' Sample.id1 _ Hset Hparse Hget Hrun)
    as (_ & Hname & _ & _ & _ & _ & Hprops & _).
  split; [exact Hname|].
  hnf in Hprops.
  destruct Hprops as (_ & _ & _ & _ & _ & _ & _ & Hjob & _).
  exact Hjob.
Defined.

(** C5 as stated fails: the Read below succeeds on a response that has no
    location and no data locale and that spells the job name in capitals.
    The location attribute stays unset instead of being populated, the name
    attribute is the one of the identifier rather than the one of the
    response, and the previously known data locale is replaced by nil, as is
    the previously known identity. *)
Lemma Read_overwrites_known_values :
  let known : gmap string Value :=
    <["data_locale" := VString "en-US"]>
      (<["identity" :=
           VList [VMap (<["type" := VString "SystemAssigned"]> ∅)]]> ∅) in
  let st := Sample.existingResource Sample.cloud1 known in
  let resp := fst (Jobs_Get (remote st) "rg1" "job1" "transformation") in
  let '(r, st') := resourceStreamAnalyticsJobRead st in
  r = Ok tt
  ∧ job_Location resp = None
  ∧ rd_attrs (rd st') !! "location" = None
  ∧ job_Name resp = Some "JOB1"
  ∧ rd_attrs (rd st') !! "name" = Some (VString "job1")
  ∧ (DataLocale <$> job_StreamingJobProperties resp) = Some None
  ∧ rd_attrs (rd st) !! "data_locale" = Some (VString "en-US")
  ∧ rd_attrs (rd st') !! "data_locale" = Some VNil
  ∧ job_Identity resp = None
  ∧ rd_attrs (rd st') !! "identity" = Some VNil.
Proof. vm_compute. repeat split. Qed.

(** C1 at a Create of a job that the cloud already holds. *)
Lemma Create_probes_first_witness :
  let '(r, st') :=
    resourceStreamAnalyticsJobCreateUpdate (Sample.newResource Sample.cloud1) in
  r = Err (ImportAsExistsError "azurerm_stream_analytics_job" "rg1/job1")
  ∧ calls st' = [CJobsGet "rg1" "job1" ""]
  ∧ remote st' = Sample.cloud1.
Proof.
  destruct (resourceStreamAnalyticsJobCreateUpdate
              (Sample.newResource Sample.cloud1)) as [r st'] eqn:Hrun.
  destruct (Create_probes_first (Sample.newResource Sample.cloud1) r st'
              eq_refl Hrun) as [_ H].
  assert (Hget : Jobs_Get Sample.cloud1 "rg1" "job1" ""
                 = (Sample.withResponse 200 Sample.job1, None))
    by (vm_compute; reflexivity).
  destruct (H _ _ "rg1/job1" Hget (or_introl eq_refl) eq_refl)
    as (Hr & Hc & _ & Hw & _); [discriminate|].
  auto.
Defined.

(** C1 as stated fails: the cloud holds the job and the probe's Get answers
    200 without an error, so the probe finds the resource; but the answer
    carries no ID, and Create does not return the already-exists error: it
    issues the create call, which replaces the job, and succeeds. *)
Lemma Create_replaces_found_job_without_id :
  let st := Sample.newResource (Sample.cloudWith Sample.jobWithoutID) in
  let '(r, st') := resourceStreamAnalyticsJobCreateUpdate st in
  Jobs_Get (remote st) "rg1" "job1" ""
    = (Sample.withResponse 200 Sample.jobWithoutID, None)
  ∧ r = Ok tt
  ∧ (∃ props,
       calls st' = [ CJobsGet "rg1" "job1" "";
                     CJobsCreateOrReplace props "rg1" "job1";
                     CWaitForCompletionRef;
                     CJobsGet "rg1" "job1" "transformation" ])
  ∧ Sample.jobs (remote st') !! "rg1/job1"
    ≠ Sample.jobs (remote st) !! "rg1/job1".
Proof.
  vm_compute. split; [reflexivity|]. split; [reflexivity|].
  split; [eexists; reflexivity|]. discriminate.
Qed.



(** C6 at a cloud whose Get answers 500 after the update went through. *)
Lemma Update_readback_error_unwrapped_witness :
  let st := Sample.existingResource (Sample.failing "Get" 500 "boom")
              Sample.config1 in
  fst (resourceStreamAnalyticsJobCreateUpdate st) = Err (Raw "boom")
  ∧ ∀ format id, Raw "boom" ≠ Errorf format [AId id; AErr (Raw "boom")].
Proof.
  intros st. split; [|discriminate].
  pose (answer := Jobs_Update (remote st)
                    (buildProps (rd st) Sample.id1) "rg1" "job1").
  rewrite (Update_readback_error_unwrapped st (fst (fst answer))
             (Sample.statusOnly 500) (snd answer) (Raw "boom")
             eq_refl eq_refl).
  - reflexivity.
  - vm_compute. reflexivity.
  - vm_compute. reflexivity.
Defined.

(** ** The node_type lifecycle scenario *)

Section NodeTypes.

Import servicefabricmanaged.

(** A field is looked up in the first of two appended blocks that has it. *)
Lemma blockGet_app (k : string) (a b : Block) :
  blockGet k (a ++ b) =
    match blockGet k a with
    | Some v => Some v
    | None => blockGet k b
    end.
Proof.
  induction a as [|[k' v] a IH]; [done|]. cbn [app blockGet].
  by destruct (String.eqb k k').
Qed.

(** The field values of an updated entry: the supplied value where one is
    supplied, the prior value elsewhere. *)
Lemma blockGet_updateEntry (k : string) (old supplied : Block) :
  blockGet k (updateEntry old supplied) =
    match blockGet k supplied with
    | Some v => Some v
    | None => blockGet k old
    end.
Proof.
  unfold updateEntry. rewrite blockGet_app.
  assert (Hmap : blockGet k
            (map (λ kv, match blockGet (fst kv) supplied with
                        | Some v => (fst kv, v)
                        | None => kv
                        end) old) =
          match blockGet k old with
          | Some v0 => Some (default v0 (blockGet k supplied))
          | None => None
          end).
  { induction old as [|[k' v'] old IH]; [done|]. cbn [map blockGet fst].
    destruct (String.eqb k k') eqn:Hk.
    - apply String.eqb_eq in Hk as <-.
      destruct (blockGet k supplied) as [v|]; cbn [fst blockGet];
        by rewrite String.eqb_refl.
    - destruct (blockGet k' supplied) as [v|]; cbn [fst blockGet];
        by rewrite Hk. }
  rewrite Hmap. clear Hmap. destruct (blockGet k old) as [v0|] eqn:Hold.
  { by destruct (blockGet k supplied). }
  induction supplied as [|[k' v'] supplied IH]; [done|].
  cbn [List.filter fst blockGet].
  destruct (String.eqb k k') eqn:Hk.
  - apply String.eqb_eq in Hk as <-. rewrite Hold. cbn [blockGet].
    by rewrite String.eqb_refl.
  - destruct (blockGet k' old); cbn [blockGet]; [exact IH|].
    by rewrite Hk.
Qed.

(** Updating an entry that already holds the supplied values leaves it as it
    is. *)
Lemma updateEntry_stable (r supplied : Block) :
  functional supplied →
  (∀ k v, blockGet k supplied = Some v → blockGet k r = Some v) →
  Forall (λ kv, ∀ v, blockGet (fst kv) supplied = Some v → snd kv = v) r →
  updateEntry r supplied = r.
Proof.
  intros Hfun Hsup Hr. unfold updateEntry.
  assert (Hfilter : ∀ l,
            Forall (λ kv, blockGet (fst kv) supplied = Some (snd kv)) l →
            List.filter (λ kv, match blockGet (fst kv) r with
                               | Some _ => false
                               | None => true
                               end) l = []).
  { induction 1 as [|[k v] l Hkv _ IH]; [done|]. cbn [List.filter fst].
    cbn [fst snd] in Hkv. by rewrite (Hsup _ _ Hkv). }
  rewrite (Hfilter _ Hfun), app_nil_r. clear Hfilter Hsup Hfun.
  induction Hr as [|[k v] l Hkv _ IH]; [done|]. cbn [map fst].
  rewrite IH. cbn [fst snd] in Hkv.
  destruct (blockGet k supplied) as [v'|]; [|done].
  by rewrite (Hkv v' eq_refl).
Qed.

(** The entry that [reconcileNodeTypes] holds for a supplied block. *)
Lemma reconciled_entry (remoteEntries : list Block) (b : Block) :
  functional b →
  let r := match find (sameEntry b) remoteEntries with
           | Some old => updateEntry old b
           | None => b
           end in
  (∀ k v, blockGet k b = Some v → blockGet k r = Some v)
  ∧ agrees b r
  ∧ (∀ k, blockGet k b = None →
          blockGet k r = find (sameEntry b) remoteEntries ≫= blockGet k).
Proof.
  intros Hfun r. subst r.
  destruct (find (sameEntry b) remoteEntries) as [old|]; cbn [mbind option_bind].
  - split; [|split].
    + intros k v Hk. by rewrite blockGet_updateEntry, Hk.
    + unfold agrees, updateEntry. apply Forall_app. split.
      * apply Forall_forall. intros kv [kv0 [<- _]]%list_elem_of_In%in_map_iff.
        destruct (blockGet (fst kv0) b) as [v0|] eqn:Hkv; cbn [fst snd].
        -- intros v Hv. congruence.
        -- intros v Hv. congruence.
      * apply Forall_forall. intros kv [Hin _]%list_elem_of_In%filter_In.
        apply list_elem_of_In in Hin.
        unfold functional in Hfun. rewrite Forall_forall in Hfun.
        intros v Hv. rewrite (Hfun _ Hin) in Hv. congruence.
    + intros k Hk. by rewrite blockGet_updateEntry, Hk.
  - split; [done|]. split; [|done].
    unfold agrees. eapply Forall_impl; [exact Hfun|].
    intros kv Hkv v Hv. congruence.
Qed.

(** The blocks that [nodeType] renders assign every key once. *)
Lemma nodeType_functional (name : string) (primary : bool)
    (diskSize instanceCount : Z) :
  functional (nodeType name primary diskSize instanceCount).
Proof. unfold functional, nodeType. repeat constructor. Qed.

(** The disk size is the only field in which two blocks rendered for the
    same name, role and instance count can differ. *)
Lemma nodeType_disk_only (name : string) (primary : bool)
    (diskSize diskSize' instanceCount : Z) (k : string) :
  blockGet k (nodeType name primary diskSize' instanceCount) =
    if String.eqb k "data_disk_size_gb" then Some (VInt diskSize')
    else blockGet k (nodeType name primary diskSize instanceCount).
Proof.
  unfold nodeType. cbn [blockGet].
  by destruct (String.eqb k "data_disk_size_gb").
Qed.

(** An entry that holds the values of a rendered block is found under the
    name of the block. *)
Lemma sameEntry_nodeType (name name' : string) (primary : bool)
    (diskSize instanceCount : Z) (r : Block) :
  blockGet "name" r = Some (VString name') →
  sameEntry (nodeType name primary diskSize instanceCount) r
    = String.eqb name name'.
Proof. intros Hr. unfold sameEntry. by rewrite Hr. Qed.

(** C8: the node_type scenario, for any two entries with different names
    and from any prior state of the cluster: one entry, then two, then the
    first one alone again, then the same entry with another
    data_disk_size_gb. After every step the cluster holds as many entries as
    the configuration supplies, each with the field values supplied. Adding
    and removing the second entry leaves the first one as it was. Altering
    the disk size changes the data_disk_size_gb of the remaining entry and
    no other field of it, and the fields that no configuration supplies keep
    the values they had in the prior state throughout. *)
Theorem node_type_lifecycle (s0 : ClusterState) (name1 name2 : string)
    (primary1 primary2 : bool) (disk1 disk2 count1 count2 altered : Z) :
  name1 ≠ name2 →
  let e1 := nodeType name1 primary1 disk1 count1 in
  let e2 := nodeType name2 primary2 disk2 count2 in
  let e1' := nodeType name1 primary1 altered count1 in
  let s1 := apply s0 (basic [e1]) in
  let s2 := apply s1 (basic [e1; e2]) in
  let s3 := apply s2 (basic [e1]) in
  let s4 := apply s3 (basic [e1']) in
  ∃ r1 r2 r1',
    st_node_type s1 = [r1]
    ∧ st_node_type s2 = [r1; r2]
    ∧ st_node_type s3 = [r1]
    ∧ st_node_type s4 = [r1']
    ∧ (∀ k v, blockGet k e1 = Some v → blockGet k r1 = Some v)
    ∧ (∀ k v, blockGet k e2 = Some v → blockGet k r2 = Some v)
    ∧ (∀ k v, blockGet k e1' = Some v → blockGet k r1' = Some v)
    ∧ (∀ k, blockGet k r1' =
            if String.eqb k "data_disk_size_gb" then Some (VInt altered)
            else blockGet k r1)
    ∧ (∀ k, blockGet k e1 = None →
            blockGet k r1 = blockGet k r1'
            ∧ blockGet k r1
              = find (sameEntry e1) (st_node_type s0) ≫= blockGet k).
Proof.
  intros Hne e1 e2 e1' s1 s2 s3 s4.
  pose proof (reconciled_entry (st_node_type s0) e1
                (nodeType_functional _ _ _ _)) as Hr1.
  cbv zeta in Hr1.
  set (r1 := match find (sameEntry e1) (st_node_type s0) with
             | Some old => updateEntry old e1
             | None => e1
             end) in *.
  destruct Hr1 as (Hsup1 & Hagree1 & Hprior1).
  assert (Hname1 : blockGet "name" r1 = Some (VString name1))
    by (by apply Hsup1).
  assert (Hs1 : st_node_type s1 = [r1]) by reflexivity.
  assert (Hsame1 : sameEntry e1 r1 = true).
  { unfold e1. rewrite (sameEntry_nodeType _ _ _ _ _ _ Hname1).
    apply String.eqb_refl. }
  assert (Hstable : updateEntry r1 e1 = r1).
  { apply updateEntry_stable; [apply nodeType_functional|done..]. }
  assert (Hs2 : st_node_type s2 = [r1; e2]).
  { unfold s2, apply, reconcileNodeTypes, basic.
    cbn [st_node_type cfg_node_type map]. rewrite Hs1. cbn [find].
    rewrite Hsame1, Hstable.
    unfold e2 at 1. rewrite (sameEntry_nodeType _ _ _ _ _ _ Hname1).
    assert (Hneq : String.eqb name2 name1 = false)
      by (apply String.eqb_neq; congruence).
    by rewrite Hneq. }
  assert (Hs3 : st_node_type s3 = [r1]).
  { unfold s3, apply, reconcileNodeTypes, basic.
    cbn [st_node_type cfg_node_type map]. rewrite Hs2. cbn [find].
    by rewrite Hsame1, Hstable. }
  assert (Hs4 : st_node_type s4 = [updateEntry r1 e1']).
  { unfold s4, apply, reconcileNodeTypes, basic.
    cbn [st_node_type cfg_node_type map]. rewrite Hs3. cbn [find].
    unfold e1' at 1. rewrite (sameEntry_nodeType _ _ _ _ _ _ Hname1).
    by rewrite String.eqb_refl. }
  assert (Hdisk : ∀ k, blockGet k (updateEntry r1 e1') =
                       if String.eqb k "data_disk_size_gb"
                       then Some (VInt altered) else blockGet k r1).
  { intros k. rewrite blockGet_updateEntry. unfold e1'.
    rewrite (nodeType_disk_only name1 primary1 disk1 altered count1 k).
    destruct (String.eqb k "data_disk_size_gb"); [done|].
    fold e1. destruct (blockGet k e1) as [v|] eqn:Hk; [|done].
    symmetry. by apply Hsup1. }
  exists r1, e2, (updateEntry r1 e1').
  repeat split; try done.
  - intros k v Hk. by rewrite blockGet_updateEntry, Hk.
  - rewrite Hdisk. destruct (String.eqb k "data_disk_size_gb") eqn:Hk; [|done].
    apply String.eqb_eq in Hk as ->. discriminate.
  - by apply Hprior1.
Qed.

(** C8 at the steps of the managed cluster test, run from an absent
    cluster: the entries test1 and test2 with disk size 130, altered to 140;
    every check of the test passes. *)
Lemma node_type_lifecycle_witness :
  let run := runSteps absent TestAccServiceFabricManagedCluster_full in
  map snd run = [true; true; true; true]
  ∧ ∃ r1 r2 r1',
      map (λ x, st_node_type (fst x)) run = [[r1]; [r1; r2]; [r1]; [r1']]
      ∧ blockGet "data_disk_size_gb" r1 = Some (VInt 130)
      ∧ ∀ k, blockGet k r1' =
             if String.eqb k "data_disk_size_gb" then Some (VInt 140)
             else blockGet k r1.
Proof.
  intros run.
  destruct (node_type_lifecycle absent "test1" "test2" true false
              130 130 5 5 140)
    as (r1 & r2 & r1' & H1 & H2 & H3 & H4 & Hsup & _ & _ & Hdisk & _);
    [discriminate|].
  split; [vm_compute; reflexivity|].
  exists r1, r2, r1'. split; [|split; [by apply Hsup|exact Hdisk]].
  rewrite <- H4, <- H2, <- H1. reflexivity.
Defined.

End NodeTypes.

(** *** More of the reconciler on the in-memory cloud *)

(** X5 at a Read of the held job and an attribute that the schema does not
    declare. *)
Lemma Read_writes_declared_attributes_only_witness :
  let st := Sample.existingResource Sample.cloud2
              (<["not_in_schema" := VString "kept"]> Sample.config1) in
  rd_attrs (rd (snd (resourceStreamAnalyticsJobRead st))) !! "not_in_schema"
    = Some (VString "kept").
Proof.
  intros st.
  destruct (resourceStreamAnalyticsJobRead st) as [r st'] eqn:Hrun.
  destruct (Read_writes_declared_attributes_only st r st' "not_in_schema" Hrun)
    as [H _].
  - intros Hin. apply list_elem_of_In in Hin. vm_compute in Hin.
    repeat destruct Hin as [Hin|Hin]; try discriminate Hin. exact Hin.
  - exact H.
Defined.

(** X6 at a Create on the empty cloud and an attribute that the schema does
    not declare. *)
Lemma CreateUpdate_writes_declared_attributes_only_witness :
  let st := Sample.newResource Sample.emptyCloud in
  rd_attrs (rd (snd (resourceStreamAnalyticsJobCreateUpdate st)))
    !! "not_in_schema" = None.
Proof.
  intros st.
  destruct (resourceStreamAnalyticsJobCreateUpdate st) as [r st'] eqn:Hrun.
  destruct (CreateUpdate_writes_declared_attributes_only st r st'
              "not_in_schema" Hrun) as [H _].
  - intros Hin. apply list_elem_of_In in Hin. vm_compute in Hin.
    repeat destruct Hin as [Hin|Hin]; try discriminate Hin. exact Hin.
  - exact H.
Defined.

(** X7 at a Read of the held job. *)
Lemma Read_issues_one_get_witness :
  let st := Sample.existingResource Sample.cloud1 Sample.config1 in
  let st' := snd (resourceStreamAnalyticsJobRead st) in
  remote st' = Sample.cloud1
  ∧ calls st' = [CJobsGet "rg1" "job1" "transformation"].
Proof.
  intros st st'.
  destruct (resourceStreamAnalyticsJobRead st) as [r st0] eqn:Hrun.
  subst st'. cbn [snd].
  destruct (Read_issues_one_get st r st0 Hrun) as [Hr Hc].
  split; [exact Hr|exact Hc].
Defined.

(** X8 at a schema writer that accepts the writes of identity and tags and
    rejects every other one. *)
Lemma Read_discards_errors_of_unchecked_writes_witness :
  let st := Sample.existingResource Sample.cloud2 Sample.config1 in
  fst (@resourceStreamAnalyticsJobRead
         (Sample.acceptingOnly ["identity"; "tags"]) Sample.Cloud unit
         Sample.api st) = Ok tt.
Proof.
  intros st.
  apply (@Read_discards_errors_of_unchecked_writes
           (Sample.acceptingOnly ["identity"; "tags"]) Sample.Cloud unit
           Sample.api st Sample.id1 (Sample.withResponse 200 Sample.job2)).
  - intros v. reflexivity.
  - intros v. reflexivity.
  - vm_compute. reflexivity.
  - vm_compute. reflexivity.
  - reflexivity.
Defined.

(** X9 at a schema writer that rejects the write of identity. *)
Lemma Read_identity_write_rejected_witness :
  let st := Sample.existingResource Sample.cloud2 Sample.config1 in
  fst (@resourceStreamAnalyticsJobRead
         (Sample.acceptingOnly ["name"; "location"]) Sample.Cloud unit
         Sample.api st)
    = Err (Errorf "setting `identity`: %v"
             [AErr (Raw "rejected by the schema writer")]).
Proof.
  intros st.
  destruct (@Read_identity_write_rejected
              (Sample.acceptingOnly ["name"; "location"]) Sample.Cloud unit
              Sample.api st Sample.id1 (Sample.withResponse 200 Sample.job2)
              (Raw "rejected by the schema writer"))
    as (st' & Hrun & _).
  - vm_compute. reflexivity.
  - vm_compute. reflexivity.
  - reflexivity.
  - rewrite Hrun. reflexivity.
Defined.

(** X10 at two Reads of the held job. *)
Lemma Read_idempotent_witness :
  let st := Sample.existingResource Sample.cloud2 Sample.config1 in
  let st1 := snd (resourceStreamAnalyticsJobRead st) in
  let st2 := snd (resourceStreamAnalyticsJobRead st1) in
  rd st2 = rd st1 ∧ remote st2 = Sample.cloud2.
Proof.
  intros st st1 st2.
  assert (Hok : fst (resourceStreamAnalyticsJobRead st) = Ok tt)
    by (vm_compute; reflexivity).
  assert (Hrun : resourceStreamAnalyticsJobRead st = (Ok tt, st1)).
  { subst st1. rewrite <- Hok. by destruct (resourceStreamAnalyticsJobRead st). }
  assert (Hset : ∀ k v, @set_err Sample.collaborators k v = None)
    by reflexivity.
  assert (Hparse : parse_StreamingJobID (rd_Id (rd st)) = inr Sample.id1)
    by (vm_compute; reflexivity).
  assert (Hget : Jobs_Get (remote st) (ResourceGroup Sample.id1)
                   (Name Sample.id1) "transformation"
                 = (Sample.withResponse 200 Sample.job2, None))
    by (vm_compute; reflexivity).
  destruct (Read_idempotent st st1 Sample.id1 _ Hset Hparse Hget Hrun)
    as (s2 & Hrun2 & Hrd & Hremote & _).
  subst st2. rewrite Hrun2. split; [exact Hrd|exact Hremote].
Defined.

(** X11 at a Read of a job that has everything, for the attribute job_id. *)
Lemma Read_populates_every_declared_attribute_witness :
  let st := Sample.existingResource Sample.cloud2 ∅ in
  ∃ v, rd_attrs (rd (snd (resourceStreamAnalyticsJobRead st))) !! "job_id"
       = Some v ∧ v ≠ VNil.
Proof.
  intros st.
  assert (Hok : fst (resourceStreamAnalyticsJobRead st) = Ok tt)
    by (vm_compute; reflexivity).
  assert (Hrun : resourceStreamAnalyticsJobRead st
                 = (Ok tt, snd (resourceStreamAnalyticsJobRead st))).
  { rewrite <- Hok. by destruct (resourceStreamAnalyticsJobRead st). }
  assert (Hset : ∀ k v, @set_err Sample.collaborators k v = None)
    by reflexivity.
  assert (Hparse : parse_StreamingJobID (rd_Id (rd st)) = inr Sample.id1)
    by (vm_compute; reflexivity).
  assert (Hget : Jobs_Get (remote st) (ResourceGroup Sample.id1)
                   (Name Sample.id1) "transformation"
                 = (Sample.withResponse 200 Sample.job2, None))
    by (vm_compute; reflexivity).
  apply (Read_populates_every_declared_attribute st _ Sample.id1 _ "job_id"
           Hset Hparse Hget eq_refl Hrun).
  apply list_elem_of_In. vm_compute. tauto.
Defined.

(** X12 at a Read of a job whose transformation has no properties. *)
Lemma Read_panics_on_nil_transformation_properties_witness :
  let st := Sample.existingResource
              (Sample.cloudWith Sample.jobNilTransformationProperties)
              Sample.config1 in
  fst (resourceStreamAnalyticsJobRead st) = Panic NilDereference.
Proof.
  intros st.
  assert (Hset : ∀ k v, @set_err Sample.collaborators k v = None)
    by reflexivity.
  assert (Hparse : parse_StreamingJobID (rd_Id (rd st)) = inr Sample.id1)
    by (vm_compute; reflexivity).
  assert (Hget : Jobs_Get (remote st) (ResourceGroup Sample.id1)
                   (Name Sample.id1) "transformation"
                 = (Sample.withResponse 200
                      Sample.jobNilTransformationProperties, None))
    by (vm_compute; reflexivity).
  pose proof (Read_panics_on_nil_transformation_properties st Sample.id1 _
                Hset Hparse Hget) as H.
  destruct (resourceStreamAnalyticsJobRead st) as [r st'].
  destruct H as [H _]. apply H. reflexivity.
Defined.

(** X13 at a Create on a cloud whose Get answers 500. *)
Lemma Create_probe_failure_witness :
  let st := Sample.newResource
              (Sample.withFault Sample.emptyCloud "Get" 500 "boom") in
  resourceStreamAnalyticsJobCreateUpdate st =
    (Err (Errorf "checking for presence of existing %s: %+v"
            [AId Sample.id1; AErr (Raw "boom")]),
     log (CJobsGet "rg1" "job1" "") st).
Proof.
  intros st.
  apply (Create_probe_failure st (Sample.statusOnly 500) (Raw "boom")).
  - reflexivity.
  - vm_compute. reflexivity.
  - reflexivity.
Defined.

(** X14 at a Create on the empty cloud, whose probe answers 404. *)
Lemma Create_goes_on_without_id_witness :
  let st := Sample.newResource Sample.emptyCloud in
  ∃ props rest,
    calls (snd (resourceStreamAnalyticsJobCreateUpdate st)) =
      CJobsGet "rg1" "job1" "" :: CJobsCreateOrReplace props "rg1" "job1"
      :: rest.
Proof.
  intros st.
  destruct (resourceStreamAnalyticsJobCreateUpdate st) as [r st'] eqn:Hrun.
  assert (Hget : Jobs_Get (remote st) "rg1" "job1" ""
                 = (Sample.statusOnly 404, Some (Raw "ResourceNotFound")))
    by (vm_compute; reflexivity).
  pose proof (Create_goes_on_without_id st _ _ r st' eq_refl Hget
                (or_intror eq_refl) (or_introl eq_refl) Hrun) as H.
  assert (Hpayload :
    payloadOutcome (rd st)
      (NewStreamingJobID (account_SubscriptionId st)
         (getString (rd st) "resource_group_name") (getString (rd st) "name"))
    = Ok (buildProps (rd st) Sample.id1)) by (vm_compute; reflexivity).
  cbv zeta in H. rewrite Hpayload in H.
  destruct H as (props & rest & _ & Hc).
  exists props, rest. exact Hc.
Defined.

(** X15 at an update, with an identity block configured, of a job whose
    transformation has no name. *)
Lemma Update_readback_nil_pointer_witness :
  let st := Sample.existingResource
              (Sample.cloudWith Sample.jobNamelessTransformation)
              Sample.config2 in
  fst (resourceStreamAnalyticsJobCreateUpdate st) = Panic NilDereference.
Proof.
  intros st.
  pose (props := withIdentity (buildProps (rd st) Sample.id1) Sample.identity2).
  pose (answer := Jobs_Update (remote st) props "rg1" "job1").
  rewrite (Update_readback_nil_pointer st props (fst (fst answer))
             (fst (Jobs_Get (snd answer) "rg1" "job1" "transformation"))
             (snd answer) eq_refl).
  - reflexivity.
  - vm_compute. reflexivity.
  - vm_compute. reflexivity.
  - vm_compute. reflexivity.
  - right. eexists _, _. vm_compute. repeat split.
Defined.

(** X16 at an update of a job that the cloud holds without a
    transformation. *)
Lemma Update_without_remote_transformation_witness :
  let st := Sample.existingResource
              (Sample.cloudWith Sample.jobWithoutTransformation)
              Sample.config1 in
  let '(r, st') := resourceStreamAnalyticsJobCreateUpdate st in
  Forall (λ c, match c with
               | CTransformationsUpdate _ _ _ _ => False
               | _ => True
               end) (calls st').
Proof.
  intros st.
  pose (props := buildProps (rd st) Sample.id1).
  pose (answer := Jobs_Update (remote st) props "rg1" "job1").
  pose (job := fst (Jobs_Get (snd answer) "rg1" "job1" "transformation")).
  assert (Hprops : ∃ jobProps, job_StreamingJobProperties job = Some jobProps
                               ∧ Transformation_ jobProps = None)
    by (eexists; vm_compute; split; reflexivity).
  destruct Hprops as (jobProps & Hjp & Ht).
  destruct (Update_without_remote_transformation st props (fst (fst answer))
              job (snd answer) jobProps eq_refl) as [_ H].
  - vm_compute. reflexivity.
  - vm_compute. reflexivity.
  - vm_compute. reflexivity.
  - exact Hjp.
  - exact Ht.
  - destruct (resourceStreamAnalyticsJobCreateUpdate st) as [r st'].
    exact (H r st' eq_refl).
Defined.

(** X18 at the sample configuration: a late-arrival delay of 5 and no
    out-of-order delay. *)
Lemma validated_delays_are_sent_unchanged_witness :
  let d := mkResourceData "" true Sample.config1 in
  ∃ props,
    job_StreamingJobProperties (buildProps d Sample.id1) = Some props
    ∧ EventsLateArrivalMaxDelayInSeconds props = Some 5
    ∧ EventsOutOfOrderMaxDelayInSeconds props = Some 0.
Proof.
  intros d.
  exact (validated_delays_are_sent_unchanged Sample.validates d Sample.id1
           Sample_validates_IntBetween_sound eq_refl eq_refl).
Defined.

(** X19 at a Delete on a cloud whose delete call fails. *)
Lemma Delete_outcomes_witness :
  let st := Sample.existingResource (Sample.failing "Delete" 500 "boom")
              Sample.config1 in
  resourceStreamAnalyticsJobDelete st =
    (Err (Errorf "deleting %s: %+v" [AId Sample.id1; AErr (Raw "boom")]),
     mkSt (Sample.failing "Delete" 500 "boom") [CJobsDelete "rg1" "job1"]
       (rd st) "sub1").
Proof.
  intros st.
  assert (Hparse : parse_StreamingJobID (rd_Id (rd st)) = inr Sample.id1)
    by (vm_compute; reflexivity).
  destruct (Delete_outcomes st Sample.id1 Hparse) as [H _].
  apply (H tt (Raw "boom") (Sample.failing "Delete" 500 "boom")).
  vm_compute. reflexivity.
Defined.

(** X20 at a Create, with an identity block configured, on a cloud whose
    create call fails. *)
Lemma Create_outcomes_witness :
  let st := mkSt (Sample.withFault Sample.emptyCloud "CreateOrReplace" 500
                    "boom")
              [] (mkResourceData "" true Sample.config2) "sub1" in
  fst (resourceStreamAnalyticsJobCreateUpdate st) =
    Err (Errorf "creating %s: %+v" [AId Sample.id1; AErr (Raw "boom")]).
Proof.
  intros st.
  pose (props0 := withIdentity (buildProps (rd st) Sample.id1)
                    Sample.identity2).
  assert (Hprobe : probeOutcome Sample.id1 (Jobs_Get (remote st) "rg1" "job1" "")
                   = Ok tt) by (vm_compute; reflexivity).
  assert (Hpayload : payloadOutcome (rd st) Sample.id1 = Ok props0)
    by (vm_compute; reflexivity).
  destruct (Create_outcomes st props0 _ eq_refl Hprobe Hpayload eq_refl)
    as [H _].
  rewrite (H tt (Raw "boom") (remote st)); [reflexivity|].
  vm_compute. reflexivity.
Defined.

(** X21 at an update on a cloud whose transformation update fails. *)
Lemma Update_transformation_failure_witness :
  let st := Sample.existingResource
              (Sample.failing "TransformationsUpdate" 500 "boom")
              Sample.config1 in
  fst (resourceStreamAnalyticsJobCreateUpdate st) =
    Err (Errorf "updating transformation for %s: %+v"
           [AId Sample.id1; AErr (Raw "boom")]).
Proof.
  intros st.
  pose (props := buildProps (rd st) Sample.id1).
  pose (answer := Jobs_Update (remote st) props "rg1" "job1").
  pose (job := fst (Jobs_Get (snd answer) "rg1" "job1" "transformation")).
  assert (Hprops : ∃ jobProps t,
             job_StreamingJobProperties job = Some jobProps
             ∧ Transformation_ jobProps = Some t ∧ tr_Name t = Some "main")
    by (eexists _, _; vm_compute; repeat split).
  destruct Hprops as (jobProps & t & Hjp & Ht & Hn).
  rewrite (Update_transformation_failure st props (fst (fst answer)) job
             (snd answer) (snd answer) jobProps t Sample.emptyTransformation
             "main" (Raw "boom") eq_refl).
  - reflexivity.
  - vm_compute. reflexivity.
  - vm_compute. reflexivity.
  - vm_compute. reflexivity.
  - exact Hjp.
  - exact Ht.
  - exact Hn.
  - vm_compute. reflexivity.
Defined.
